(** * Port-usage report: a shallow embedding of [docs/port_usage_report.py]

    The development follows the script top-down:

    - [PyText]   the [str] operations the script calls ([strip], [split],
                 [rsplit], [splitlines], [lower], [int]);
    - [Docker]   [collect_docker_port_mappings], the parser of the
                 [docker ps] listing;
    - [Ports]    [collect_port_usage], the correlator and its sort;
    - [Script]   [build_report], [check_port_free] and [main]: the calls
                 the script makes to the outside (writes, messages, socket
                 operations) are recorded as a trace, and each of them
                 succeeds or raises as the host decides; paths are
                 rendered as [pathlib] renders them.

    Text is modelled as [string]; a character stands for the code point of
    the same number, so the model covers listings made of code points
    below 256. *)

From Stdlib Require Import ZArith QArith Ascii String List Permutation Sorted Lia Bool.
From stdpp Require Import base gmap strings list.

Open Scope string_scope.
Open Scope Z_scope.

(* ===================================================================== *)
(** ** Python text primitives *)
(* ===================================================================== *)

Module PyText.

Definition code (c : ascii) : N := N_of_ascii c.

Definition in_range (lo hi : N) (c : ascii) : bool :=
  ((lo <=? code c) && (code c <=? hi))%N.

(** [str.isspace] on one character: the white-space code points below 256
    are 9..13, 28..31, 32, 133 and 160. *)
Definition is_space (c : ascii) : bool :=
  in_range 9 13 c || in_range 28 31 c || (code c =? 32)%N
  || (code c =? 133)%N || (code c =? 160)%N.

(** Line boundaries of [str.splitlines] below 256: LF, VT, FF, CR, FS, GS,
    RS and NEL. *)
Definition is_linebreak (c : ascii) : bool :=
  in_range 10 13 c || in_range 28 30 c || (code c =? 133)%N.

Definition is_digit (c : ascii) : bool := in_range 48 57 c.

Definition digit_val (c : ascii) : Z := Z.of_N (code c) - 48.

Definition TAB : ascii := ascii_of_N 9.
Definition LF : ascii := ascii_of_N 10.
Definition CR : ascii := ascii_of_N 13.

(** The separator of the listing, as a text. *)
Definition TABS : string := String TAB EmptyString.

Definition is_empty (s : string) : bool :=
  match s with EmptyString => true | String _ _ => false end.

(** [all_chars p s]: every character of [s] satisfies [p]. *)
Fixpoint all_chars (p : ascii -> bool) (s : string) : bool :=
  match s with
  | EmptyString => true
  | String c r => p c && all_chars p r
  end.

(** Stripping the characters of a class from both ends. *)
Fixpoint lstrip_by (p : ascii -> bool) (s : string) : string :=
  match s with
  | EmptyString => EmptyString
  | String c r => if p c then lstrip_by p r else s
  end.

Fixpoint rstrip_by (p : ascii -> bool) (s : string) : string :=
  match s with
  | EmptyString => EmptyString
  | String c r =>
      let r' := rstrip_by p r in
      if is_empty r' && p c then EmptyString else String c r'
  end.

Definition strip_by (p : ascii -> bool) (s : string) : string :=
  rstrip_by p (lstrip_by p s).

(** [s.strip()]. *)
Definition py_strip (s : string) : string := strip_by is_space s.

(** [str.lower] on one character: A..Z and the upper-case letters of the
    Latin-1 block (192..222 without the multiplication sign 215). *)
Definition lower_char (c : ascii) : ascii :=
  if in_range 65 90 c || (in_range 192 222 c && negb (code c =? 215)%N)
  then ascii_of_N (code c + 32)
  else c.

Fixpoint py_lower (s : string) : string :=
  match s with
  | EmptyString => EmptyString
  | String c r => String (lower_char c) (py_lower r)
  end.

(** [s.split(c)] for a one-character separator: never empty, the pieces
    between consecutive separators. *)
Fixpoint py_split (c : ascii) (s : string) : list string :=
  match s with
  | EmptyString => [EmptyString]
  | String a r =>
      match py_split c r with
      | h :: t => if Ascii.eqb a c then EmptyString :: h :: t
                  else String a h :: t
      | [] => [String a EmptyString]
      end
  end.

(** [strip_prefix p s = Some r] when [s = p ++ r]. *)
Fixpoint strip_prefix (p s : string) : option string :=
  match p, s with
  | EmptyString, _ => Some s
  | String a p', String b s' =>
      if Ascii.eqb a b then strip_prefix p' s' else None
  | String _ _, EmptyString => None
  end.

(** [py_partition sep s]: [None] when [sep not in s], otherwise the two
    parts of [s.split(sep, 1)], cut at the first occurrence. *)
Fixpoint py_partition (sep s : string) : option (string * string) :=
  match strip_prefix sep s with
  | Some r => Some (EmptyString, r)
  | None =>
      match s with
      | EmptyString => None
      | String a s' =>
          match py_partition sep s' with
          | Some (h, t) => Some (String a h, t)
          | None => None
          end
      end
  end.

(** [py_rpartition c s]: [None] when [c not in s], otherwise the two parts
    of [s.rsplit(c, 1)], cut at the last occurrence. *)
Fixpoint py_rpartition (c : ascii) (s : string) : option (string * string) :=
  match s with
  | EmptyString => None
  | String a r =>
      match py_rpartition c r with
      | Some (h, t) => Some (String a h, t)
      | None => if Ascii.eqb a c then Some (EmptyString, r) else None
      end
  end.

(** [s.startswith(c)] and [s.endswith(c)] for a one-character argument. *)
Definition startswith (c : ascii) (s : string) : bool :=
  match s with
  | String a _ => Ascii.eqb a c
  | EmptyString => false
  end.

Fixpoint endswith (c : ascii) (s : string) : bool :=
  match s with
  | EmptyString => false
  | String a EmptyString => Ascii.eqb a c
  | String _ r => endswith c r
  end.

(** [s[:-1]] and [s[1:-1]]. *)
Fixpoint drop_last (s : string) : string :=
  match s with
  | EmptyString => EmptyString
  | String _ EmptyString => EmptyString
  | String a r => String a (drop_last r)
  end.

Definition slice_1_m1 (s : string) : string :=
  match s with
  | EmptyString => EmptyString
  | String _ r => drop_last r
  end.

(** [s.splitlines()]: cut at every line boundary, CR LF counting as one,
    with no empty piece after a final boundary. [cur] is the line being
    read. *)
Fixpoint splitlines_go (cur : string) (s : string) : list string :=
  match s with
  | EmptyString => if is_empty cur then [] else [cur]
  | String c r =>
      if Ascii.eqb c CR then
        match r with
        | String d r' =>
            if Ascii.eqb d LF then cur :: splitlines_go EmptyString r'
            else cur :: splitlines_go EmptyString r
        | EmptyString => cur :: splitlines_go EmptyString r
        end
      else if is_linebreak c then cur :: splitlines_go EmptyString r
      else splitlines_go (cur ++ String c EmptyString) r
  end.

Definition py_splitlines (s : string) : list string :=
  splitlines_go EmptyString s.

(** [sep.join(l)]. *)
Fixpoint py_join (sep : string) (l : list string) : string :=
  match l with
  | [] => EmptyString
  | [x] => x
  | x :: t => x ++ sep ++ py_join sep t
  end.

(** [s.split()]: the maximal runs of characters that are not white space. *)
Fixpoint split_ws_go (cur : string) (s : string) : list string :=
  match s with
  | EmptyString => if is_empty cur then [] else [cur]
  | String c r =>
      if is_space c
      then ((if is_empty cur then [] else [cur]) ++ split_ws_go EmptyString r)%list
      else split_ws_go (cur ++ String c EmptyString) r
  end.

Definition py_split_ws (s : string) : list string :=
  split_ws_go EmptyString s.

(** The white space [int] accepts around a number: 9..13, 32, 133 and 160
    (not 28..31, which [str.strip] removes). *)
Definition is_int_space (c : ascii) : bool :=
  in_range 9 13 c || (code c =? 32)%N || (code c =? 133)%N
  || (code c =? 160)%N.

(** [int(s)] in base ten: white space around is dropped, one sign is
    allowed, then digits with single underscores between digits.  [None]
    stands for [ValueError].  (The interpreter's optional limit on the
    number of digits is not modelled.) *)
Fixpoint digits_go (acc : Z) (after_digit : bool) (s : string) : option Z :=
  match s with
  | EmptyString => if after_digit then Some acc else None
  | String c r =>
      if is_digit c then digits_go (10 * acc + digit_val c) true r
      else if Ascii.eqb c "_" && after_digit then digits_go acc false r
      else None
  end.

Definition py_int (s : string) : option Z :=
  match strip_by is_int_space s with
  | String "-" r => Z.opp <$> digits_go 0 false r
  | String "+" r => digits_go 0 false r
  | t => digits_go 0 false t
  end.

End PyText.

Import PyText.

(* ===================================================================== *)
(** ** Values, exceptions and results *)
(* ===================================================================== *)

(** The values stored under a key of the dictionaries the script builds. *)
Inductive pyval : Type :=
| PNone
| PStr (s : string)
| PInt (n : Z).

(** The exceptions the script's handlers tell apart. *)
Inductive exn : Type :=
| NoSuchProcess
| AccessDenied
| ZombieProcess
| OSError (msg : string)
| OtherError (msg : string).

Inductive result (A : Type) : Type :=
| Ok (a : A)
| Raise (e : exn).

Arguments Ok {A} a.
Arguments Raise {A} e.

(* ===================================================================== *)
(** ** [collect_docker_port_mappings] *)
(* ===================================================================== *)

Module Docker.

(** Key of the mapping: [(proto, host_ip, host_port)]. *)
Abbreviation port_key := (string * string * Z)%type.

(** A value of the mapping is a [Dict[str, Any]]. *)
Abbreviation docker_info := (gmap string pyval).

Abbreviation docker_map := (gmap port_key docker_info).

(** What [subprocess.run(cmd, capture_output=True, text=True, check=True)]
    does: the binary is missing, the command exits non-zero (the text of
    the exception is kept), or it completes with its standard output. *)
Inductive run_outcome : Type :=
| FileNotFoundError
| CalledProcessError (text : string)
| Completed (stdout : string).

Record docker_meta : Type := {
  available : bool;
  error : option string;
  containers_total : Z;
  containers_with_published_ports : Z;
  command : string
}.

Definition command_text : string :=
  "docker ps --format '{{.Names}}\t{{.ID}}\t{{.Image}}\t{{.Ports}}'".

Definition initial_meta : docker_meta :=
  {| available := false; error := None; containers_total := 0;
     containers_with_published_ports := 0; command := command_text |}.

(** The dictionary stored for one published port. *)
Definition make_info (name cid image entry : string) (container_port : pyval)
  : docker_info :=
  <["container_name" := PStr name]>
  (<["container_id" := PStr cid]>
  (<["image" := PStr image]>
  (<["port_spec" := PStr entry]>
  (<["container_port" := container_port]> ∅)))).

(** Body of the inner loop, for one entry of the ports field. The state is
    the mapping and the flag [has_published]. *)
Definition process_entry (name cid image : string)
    (acc : docker_map * bool) (entry : string) : docker_map * bool :=
  match py_partition "->" entry with
  | None => acc
  | Some (left_, right_) =>
      let left_ := py_strip left_ in
      let right_ := py_strip right_ in
      let '(container_port_str, proto) :=
        match py_partition "/" right_ with
        | Some (a, b) => (a, b)
        | None => (right_, EmptyString)
        end in
      let proto := py_strip (py_lower proto) in
      let proto := if is_empty proto then "tcp" else proto in
      match py_rpartition ":" left_ with
      | None => acc
      | Some (host_ip_raw, host_port_str) =>
          let host_ip := py_strip host_ip_raw in
          let host_ip :=
            if startswith "[" host_ip && endswith "]" host_ip
            then slice_1_m1 host_ip else host_ip in
          match py_int host_port_str with
          | None => acc
          | Some host_port =>
              let container_port :=
                match py_int container_port_str with
                | Some n => PInt n
                | None => PStr container_port_str
                end in
              (<[(proto, host_ip, host_port) :=
                   make_info name cid image entry container_port]> (fst acc),
               true)
          end
      end
  end.

(** [[e.strip() for e in ports_str.split(",") if e.strip()]] *)
Definition port_entries (ports_str : string) : list string :=
  List.map py_strip
    (List.filter (fun e => negb (is_empty (py_strip e))) (py_split "," ports_str)).

(** State of the outer loop. *)
Record collector : Type := {
  mapping : docker_map;
  total : Z;
  published : gset string
}.

(** Body of the outer loop, for one line of the listing. *)
Definition process_line (st : collector) (line : string) : collector :=
  if is_empty (py_strip line) then st
  else
    match List.map py_strip (py_split TAB line) with
    | name :: cid :: image :: ports_str :: _ =>
        let total' := total st + 1 in
        if is_empty ports_str then
          {| mapping := mapping st; total := total'; published := published st |}
        else
          let '(mapping', has_published) :=
            fold_left (process_entry name cid image) (port_entries ports_str)
                      (mapping st, false) in
          {| mapping := mapping';
             total := total';
             published := if has_published then {[name]} ∪ published st
                          else published st |}
    | _ => st
    end.

Definition initial_collector : collector :=
  {| mapping := ∅; total := 0; published := ∅ |}.

Definition collect_docker_port_mappings (run : run_outcome)
  : docker_map * docker_meta :=
  let meta := initial_meta in
  match run with
  | FileNotFoundError =>
      (∅, {| available := available meta;
             error := Some "docker binary not found";
             containers_total := containers_total meta;
             containers_with_published_ports :=
               containers_with_published_ports meta;
             command := command meta |})
  | CalledProcessError text =>
      (∅, {| available := available meta;
             error := Some ("docker ps failed: " ++ text);
             containers_total := containers_total meta;
             containers_with_published_ports :=
               containers_with_published_ports meta;
             command := command meta |})
  | Completed stdout =>
      let output := py_strip stdout in
      if is_empty output then
        (∅, {| available := true; error := error meta;
               containers_total := containers_total meta;
               containers_with_published_ports :=
                 containers_with_published_ports meta;
               command := command meta |})
      else
        match py_splitlines output with
        | [] =>
            (∅, {| available := true; error := error meta;
                   containers_total := containers_total meta;
                   containers_with_published_ports :=
                     containers_with_published_ports meta;
                   command := command meta |})
        | lines =>
            let st := fold_left process_line lines initial_collector in
            (mapping st,
             {| available := true; error := error meta;
                containers_total := total st;
                containers_with_published_ports :=
                  Z.of_nat (size (published st));
                command := command meta |})
        end
  end.

(** The lines the loop counts: not blank, and at least four fields. *)
Definition counted_line (line : string) : bool :=
  negb (is_empty (py_strip line))
  && (4 <=? length (py_split TAB line))%nat.

(** The bracket test and the slice of the inner loop. *)
Definition unbracket (host_ip : string) : string :=
  if startswith "[" host_ip && endswith "]" host_ip
  then slice_1_m1 host_ip else host_ip.

(** Character classes of the pieces of a ports entry. *)
Definition is_lower_letter (c : ascii) : bool := in_range 97 122 c.

Definition is_hex_digit (c : ascii) : bool :=
  is_digit c || in_range 97 102 c || in_range 65 70 c.

Definition is_ipv4_char (c : ascii) : bool :=
  is_digit c || Ascii.eqb c ".".

Definition is_ipv6_char (c : ascii) : bool :=
  is_hex_digit c || Ascii.eqb c ":" || Ascii.eqb c ".".

Definition not_char (c x : ascii) : bool := negb (Ascii.eqb x c).

Definition not_space (c : ascii) : bool := negb (is_space c).

(** Position of a line in the listing: what stands before it is empty or
    ends with a newline, what follows is empty or begins with one. *)
Definition ends_line (head : string) : bool :=
  is_empty head || endswith LF head.

Definition begins_line (tail : string) : bool :=
  is_empty tail || startswith LF tail.

(** A character of a field of the listing: no tab and no line boundary. *)
Definition is_field_char (c : ascii) : bool :=
  negb (is_linebreak c) && not_char TAB c.

Definition not_linebreak (c : ascii) : bool := negb (is_linebreak c).

(** The text begins with a character that is not white space. *)
Definition starts_solid (s : string) : bool :=
  match s with
  | String c _ => not_space c
  | EmptyString => false
  end.

(** The listing command did not complete. *)
Definition run_failed (run : run_outcome) : bool :=
  match run with
  | FileNotFoundError | CalledProcessError _ => true
  | Completed _ => false
  end.

End Docker.

(* ===================================================================== *)
(** ** [collect_port_usage] *)
(* ===================================================================== *)

Module Ports.

Import Docker.

(** [socket.SocketKind]. *)
Inductive SocketKind : Type :=
| SOCK_STREAM
| SOCK_DGRAM
| SOCK_RAW
| SOCK_RDM
| SOCK_SEQPACKET.

(** [psutil.CONN_LISTEN]. *)
Definition CONN_LISTEN : string := "LISTEN".

(** One entry of [psutil.net_connections(kind="inet")]. [laddr_ip] and
    [laddr_port] are what [getattr(conn.laddr, "ip", None)] and
    [getattr(conn.laddr, "port", None)] give. *)
Record sconn : Type := {
  conn_type : SocketKind;
  laddr_ip : option string;
  laddr_port : option Z;
  conn_status : string;
  conn_pid : option Z
}.

(** What the four calls on a process id do: [psutil.Process(pid)], then
    [name()], [cmdline()] and [username()] on the handle. *)
Record proc_view : Type := {
  pv_open : result unit;
  pv_name : result string;
  pv_cmdline : result (list string);
  pv_username : result string
}.

(** The handler [except (NoSuchProcess, AccessDenied, ZombieProcess)]. *)
Definition lookup_handled (e : exn) : bool :=
  match e with
  | NoSuchProcess | AccessDenied | ZombieProcess => true
  | OSError _ | OtherError _ => false
  end.

(** The three local variables of the [try] block. *)
Record attribution : Type := {
  at_process_name : option string;
  at_cmdline : option string;
  at_username : option string
}.

Definition unknown : attribution :=
  {| at_process_name := None; at_cmdline := None; at_username := None |}.

(** Leaving the [try] block by exception [e] with the variables as [a]. *)
Definition leave_try (e : exn) (a : attribution) : result attribution :=
  if lookup_handled e then Ok a else Raise e.

(** The [try] block: the variables are assigned one after the other, and an
    exception leaves the block with those assigned so far. *)
Definition attribute_process (pv : proc_view) : result attribution :=
  match pv_open pv with
  | Raise e => leave_try e unknown
  | Ok _ =>
      match pv_name pv with
      | Raise e => leave_try e unknown
      | Ok n =>
          let a1 := {| at_process_name := Some n; at_cmdline := None;
                       at_username := None |} in
          match pv_cmdline pv with
          | Raise e => leave_try e a1
          | Ok c =>
              let a2 := {| at_process_name := Some n;
                           at_cmdline := Some (py_join " " c);
                           at_username := None |} in
              match pv_username pv with
              | Raise e => leave_try e a2
              | Ok u =>
                  Ok {| at_process_name := Some n;
                        at_cmdline := Some (py_join " " c);
                        at_username := Some u |}
              end
          end
      end
  end.

(** A record of the [ports] array. The first eight keys are always set; a
    [docker_*] key is [None] when the dictionary has no such key, and
    [Some v] when it has it with value [v]. *)
Record PortRecord : Type := {
  proto : string;
  ip : string;
  port : Z;
  status : string;
  pid : option Z;
  user : option string;
  process : option string;
  cmdline : option string;
  docker_container_name : option pyval;
  docker_container_id : option pyval;
  docker_image : option pyval;
  docker_port_spec : option pyval;
  docker_container_port : option pyval
}.

(** [d.get(k)]. *)
Definition dict_get (d : docker_info) (k : string) : pyval :=
  default PNone (d !! k).

(** Truth value of a dictionary. *)
Definition dict_truthy (d : docker_info) : bool :=
  negb (bool_decide (d = ∅)).

(** Truth value of [conn.pid] ([None] and [0] are false). *)
Definition pid_truthy (p : option Z) : option Z :=
  match p with
  | Some n => if n =? 0 then None else Some n
  | None => None
  end.

Definition proto_of (k : SocketKind) : string :=
  match k with
  | SOCK_STREAM => "tcp"
  | SOCK_DGRAM => "udp"
  | _ => "other"
  end.

(** Body of the loop over the connections: [Ok None] is [continue],
    [Ok (Some r)] is [records.append(r)]. *)
Definition conn_record (docker_map : docker_map) (procs : Z -> proc_view)
    (conn : sconn) : result (option PortRecord) :=
  if negb (String.eqb (conn_status conn) CONN_LISTEN) then Ok None
  else
    match laddr_ip conn, laddr_port conn with
    | Some ip, Some port =>
        let proto := proto_of (conn_type conn) in
        let pid := conn_pid conn in
        let looked_up :=
          match pid_truthy pid with
          | Some p => attribute_process (procs p)
          | None => Ok unknown
          end in
        match looked_up with
        | Raise e => Raise e
        | Ok a =>
            let record :=
              {| proto := proto; ip := ip; port := port;
                 status := conn_status conn; pid := pid;
                 user := at_username a; process := at_process_name a;
                 cmdline := at_cmdline a;
                 docker_container_name := None; docker_container_id := None;
                 docker_image := None; docker_port_spec := None;
                 docker_container_port := None |} in
            let key := (proto, ip, port) in
            match docker_map !! key with
            | Some docker_info =>
                if dict_truthy docker_info then
                  Ok (Some
                    {| proto := proto; ip := ip; port := port;
                       status := conn_status conn; pid := pid;
                       user := at_username a; process := at_process_name a;
                       cmdline := at_cmdline a;
                       docker_container_name :=
                         Some (dict_get docker_info "container_name");
                       docker_container_id :=
                         Some (dict_get docker_info "container_id");
                       docker_image := Some (dict_get docker_info "image");
                       docker_port_spec :=
                         Some (dict_get docker_info "port_spec");
                       docker_container_port :=
                         Some (dict_get docker_info "container_port") |})
                else Ok (Some record)
            | None => Ok (Some record)
            end
        end
    | _, _ => Ok None
    end.

Fixpoint collect_loop (docker_map : docker_map) (procs : Z -> proc_view)
    (conns : list sconn) (records : list PortRecord)
  : result (list PortRecord) :=
  match conns with
  | [] => Ok records
  | conn :: rest =>
      match conn_record docker_map procs conn with
      | Raise e => Raise e
      | Ok None => collect_loop docker_map procs rest records
      | Ok (Some r) => collect_loop docker_map procs rest (records ++ [r])%list
      end
  end.

(** The sort key [(r["proto"], r["port"], r["ip"])] and the order of
    tuples: the first component that differs decides. *)
Definition sort_key (r : PortRecord) : string * Z * string :=
  (proto r, port r, ip r).

Definition key_lt (a b : string * Z * string) : bool :=
  let '(p1, n1, i1) := a in
  let '(p2, n2, i2) := b in
  match String.compare p1 p2 with
  | Lt => true
  | Gt => false
  | Eq =>
      match Z.compare n1 n2 with
      | Lt => true
      | Gt => false
      | Eq => String.ltb i1 i2
      end
  end.

(** [list.sort(key=...)] is a stable sort that compares keys with [<]: an
    element goes before the first one that is not smaller than it, so
    elements with equal keys keep the order they had. *)
Fixpoint insert_sorted {A K : Type} (lt : K -> K -> bool) (key : A -> K)
    (x : A) (l : list A) : list A :=
  match l with
  | [] => [x]
  | y :: t =>
      if lt (key y) (key x) then y :: insert_sorted lt key x t
      else x :: y :: t
  end.

Definition py_sort {A K : Type} (lt : K -> K -> bool) (key : A -> K)
    (l : list A) : list A :=
  fold_right (insert_sorted lt key) [] l.

(** [collect_port_usage(docker_map)]: [connections] is the outcome of
    [psutil.net_connections(kind="inet")]. *)
Definition collect_port_usage (connections : result (list sconn))
    (procs : Z -> proc_view) (docker_map : option docker_map)
  : result (list PortRecord) :=
  let docker_map :=
    match docker_map with
    | Some m => if bool_decide (m = ∅) then ∅ else m
    | None => ∅
    end in
  match connections with
  | Raise e => Raise e
  | Ok conns =>
      match collect_loop docker_map procs conns [] with
      | Raise e => Raise e
      | Ok records => Ok (py_sort key_lt sort_key records)
      end
  end.

(** Observations on the inputs and on a record. *)

(** The entry is in the listening state and has both an address and a
    port. *)
Definition is_listener (conn : sconn) : bool :=
  String.eqb (conn_status conn) CONN_LISTEN
  && bool_decide (is_Some (laddr_ip conn))
  && bool_decide (is_Some (laddr_port conn)).

(** All five [docker_*] keys are in the record. *)
Definition has_docker_fields (r : PortRecord) : bool :=
  bool_decide (is_Some (docker_container_name r))
  && bool_decide (is_Some (docker_container_id r))
  && bool_decide (is_Some (docker_image r))
  && bool_decide (is_Some (docker_port_spec r))
  && bool_decide (is_Some (docker_container_port r)).

(** None of the five [docker_*] keys is in the record. *)
Definition lacks_docker_fields (r : PortRecord) : bool :=
  bool_decide (docker_container_name r = None)
  && bool_decide (docker_container_id r = None)
  && bool_decide (docker_image r = None)
  && bool_decide (docker_port_spec r = None)
  && bool_decide (docker_container_port r = None).

Definition handled_or_ok {A : Type} (r : result A) : bool :=
  match r with
  | Ok _ => true
  | Raise e => lookup_handled e
  end.

(** Every call on the process either succeeds or raises one of the three
    exceptions of the handler. *)
Definition lookups_handled (pv : proc_view) : bool :=
  handled_or_ok (pv_open pv) && handled_or_ok (pv_name pv)
  && handled_or_ok (pv_cmdline pv) && handled_or_ok (pv_username pv).

Definition is_raise {A : Type} (r : result A) : bool :=
  match r with
  | Ok _ => false
  | Raise _ => true
  end.


(** Every value of the mapping is a dictionary with at least one key. *)
Definition well_formed (m : docker_map) : Prop :=
  forall k d, m !! k = Some d -> dict_truthy d = true.

(** The record appended for a connection, if any. *)
Definition record_of (docker_map : docker_map) (procs : Z -> proc_view)
    (conn : sconn) : option PortRecord :=
  match conn_record docker_map procs conn with
  | Ok o => o
  | Raise _ => None
  end.

End Ports.

(* ===================================================================== *)
(** ** [build_report], [check_port_free] and [main] *)
(* ===================================================================== *)

Module Script.

Import Docker Ports.

Definition version : string := "1.1.0".

(** *** Paths

    [pathlib.PurePosixPath], as far as the script uses it: a path is its
    root ([""], ["/"] or ["//"]) and the names below it; building one from
    a text drops repeated and trailing slashes and the components ["."],
    and keeps [".."]. *)
Record PurePath : Type := {
  path_root : string;
  path_names : list string
}.

Definition is_sep (c : ascii) : bool := Ascii.eqb c "/".

(** A text that begins with exactly two slashes keeps both as its root;
    any other run of leading slashes is the root ["/"]. *)
Definition splitroot (part : string) : string * string :=
  if startswith "/" part then
    let stripped := lstrip_by is_sep part in
    (if (String.length part - String.length stripped =? 2)%nat
     then "//" else "/",
     stripped)
  else (EmptyString, part).

Definition is_name (x : string) : bool :=
  negb (is_empty x) && negb (String.eqb x ".").

(** [Path(s)]. *)
Definition Path (s : string) : PurePath :=
  let '(root, rel) := splitroot s in
  {| path_root := root;
     path_names := List.filter is_name (py_split "/" rel) |}.

(** [str(path)]. *)
Definition path_str (p : PurePath) : string :=
  match path_names p with
  | [] => if is_empty (path_root p) then "." else path_root p
  | names => path_root p ++ py_join "/" names
  end.

(** [path / name]: a rooted [name] replaces the path. *)
Definition path_div (p : PurePath) (name : string) : PurePath :=
  let q := Path name in
  if is_empty (path_root q)
  then {| path_root := path_root p;
          path_names := (path_names p ++ path_names q)%list |}
  else q.

(** *** The report *)

Definition get_ip_local_port_range (file : option (result string))
  : option (Z * Z) :=
  match file with
  | None => None
  | Some (Raise _) => None
  | Some (Ok text) =>
      match py_split_ws (py_strip text) with
      | [low_str; high_str] =>
          match py_int low_str, py_int high_str with
          | Some low, Some high => Some (low, high)
          | _, _ => None
          end
      | _ => None
      end
  end.

Record Report : Type := {
  schema_version : string;
  script_version : string;
  host : string;
  generated_at : string;
  ip_local_port_range : option (Z * Z);
  docker : docker_meta;
  ports : list PortRecord
}.

Inductive document : Type :=
| JsonOf (r : Report)     (* json.dumps(report, ensure_ascii=False, indent=2) *)
| HtmlOf (r : Report).    (* the page embedding json.dumps(report) *)

Inductive message : Type :=
| InfoJsonWritten (path : string)
| InfoHtmlWritten (path : string)
| OkPortFree (port : Z) (host : string)
| ErrorPortBusy (port : Z) (host : string).

(** The host as the script observes it during one run: a snapshot, so a
    call gives the same answer each time it is made.  A call that can
    fail answers with its value or with the exception it raises. *)
Record World : Type := {
  w_hostname : string;                    (* socket.gethostname() *)
  w_utc_now : string;                     (* datetime.now(utc).isoformat() *)
  w_docker_ps : run_outcome;              (* subprocess.run(cmd, ...) *)
  w_net_connections : result (list sconn);
  w_process : Z -> proc_view;
  w_port_range_file : option (result string);
      (* /proc/sys/net/ipv4/ip_local_port_range: absent, unreadable, or
         its text *)
  w_write_text : string -> document -> result unit;
      (* path.write_text(text, encoding="utf-8") *)
  w_print : message -> result unit;       (* print(...) *)
  w_socket : result unit;                 (* socket.socket(AF_INET, SOCK_STREAM) *)
  w_connect_ex : string -> Z -> result Z; (* s.connect_ex((host, port)) *)
  w_script_dir : string;                  (* Path(__file__).resolve().parent *)
  w_script_stem : string                  (* Path(__file__).resolve().stem *)
}.

Definition build_report (w : World) : result Report :=
  let hostname := w_hostname w in
  let generated_at := w_utc_now w in
  let '(docker_map, docker_meta) :=
    collect_docker_port_mappings (w_docker_ps w) in
  match collect_port_usage (w_net_connections w) (w_process w)
          (Some docker_map) with
  | Raise e => Raise e
  | Ok records =>
      let ip_range := get_ip_local_port_range (w_port_range_file w) in
      Ok {| schema_version := "1.1.0";
            script_version := version;
            host := hostname;
            generated_at := generated_at;
            ip_local_port_range := ip_range;
            docker := docker_meta;
            ports := records |}
  end.

(** *** Effects

    An event is a call the script makes to the outside, recorded when it
    is made; whether the call succeeds is the world's answer. *)
Inductive event : Type :=
| EvWriteText (path : string) (doc : document)
| EvPrint (m : message)
| EvSocketOpen
| EvSetTimeout (seconds : Q)
| EvConnectEx (host : string) (port : Z)
| EvSocketClose.

(** A computation: the events it performed, and its value or the
    exception that ended it. *)
Definition M (A : Type) : Type := list event * result A.

Definition ret {A : Type} (a : A) : M A := ([], Ok a).

Definition raise {A : Type} (e : exn) : M A := ([], Raise e).

Definition emit (e : event) : M unit := ([e], Ok tt).

Definition lift {A : Type} (r : result A) : M A := ([], r).

Definition bind {A B : Type} (m : M A) (k : A -> M B) : M B :=
  match m with
  | (t, Ok a) => let '(t', r) := k a in ((t ++ t')%list, r)
  | (t, Raise e) => (t, Raise e)
  end.

Declare Scope io_scope.
Delimit Scope io_scope with io.
Notation "x <- m ;; k" := (bind m (fun x => k))
  (at level 100, m at next level, k at level 200, right associativity)
  : io_scope.
Notation "m ;; k" := (bind m (fun _ => k))
  (at level 100, k at level 200, right associativity) : io_scope.
Open Scope io_scope.

(** [path.write_text(...)] and [print(...)]. *)
Definition write_text (w : World) (path : PurePath) (doc : document) : M unit :=
  emit (EvWriteText (path_str path) doc) ;;
  lift (w_write_text w (path_str path) doc).

Definition py_print (w : World) (m : message) : M unit :=
  emit (EvPrint m) ;;
  lift (w_print w m).

Definition write_json_report (w : World) (report : Report)
    (output_path : PurePath) : M unit :=
  write_text w output_path (JsonOf report).

Definition generate_html_report (w : World) (report : Report)
    (output_path : PurePath) : M unit :=
  write_text w output_path (HtmlOf report).

Definition is_OSError (e : exn) : bool :=
  match e with
  | OSError _ => true
  | _ => false
  end.

Definition default_timeout : Q := 1 # 2.

(** [s.settimeout(timeout)] for a number: a negative one is refused with
    [ValueError], one beyond what fits in 63 bits of nanoseconds with
    [OverflowError]. *)
Definition timeout_limit : Q := 9223372036854775807 # 1000000000.

Definition settimeout (timeout : Q) : result unit :=
  if Qle_bool 0 timeout then
    if Qle_bool timeout timeout_limit then Ok tt
    else Raise (OtherError
                  "OverflowError: timestamp too large to convert to C _PyTime_t")
  else Raise (OtherError "ValueError: Timeout value out of range").

(** The [with] block: once the socket exists, it is closed on every way
    out of the body. *)
Definition closing {A : Type} (body : M A) : M A :=
  let '(t, r) := body in ((t ++ [EvSocketClose])%list, r).

Definition check_port_free (w : World) (host : string) (port : Z)
    (timeout : Q) : M bool :=
  emit EvSocketOpen ;;
  lift (w_socket w) ;;
  closing
    (emit (EvSetTimeout timeout) ;;
     lift (settimeout timeout) ;;
     emit (EvConnectEx host port) ;;
     match w_connect_ex w host port with
     | Raise e => if is_OSError e then ret false else raise e
     | Ok code => ret (negb (code =? 0))
     end).

(** The namespace [parse_args] returns. *)
Record Args : Type := {
  arg_host : string;
  arg_check_port : option Z;
  arg_json_path : option string;
  arg_html : bool
}.

Definition main (w : World) (args : Args) : M Z :=
  let script_dir := Path (w_script_dir w) in
  let stem := w_script_stem w in
  let json_path :=
    match arg_json_path args with
    | Some p => if is_empty p then path_div script_dir (stem ++ ".json")
                else Path p
    | None => path_div script_dir (stem ++ ".json")
    end in
  let html_path := path_div script_dir (stem ++ ".html") in
  report <- lift (build_report w) ;;
  write_json_report w report json_path ;;
  py_print w (InfoJsonWritten (path_str json_path)) ;;
  (if arg_html args then
     generate_html_report w report html_path ;;
     py_print w (InfoHtmlWritten (path_str html_path))
   else ret tt) ;;
  match arg_check_port args with
  | Some port =>
      let host := arg_host args in
      is_free <- check_port_free w host port default_timeout ;;
      if is_free : bool then
        py_print w (OkPortFree port host) ;; ret 0
      else
        py_print w (ErrorPortBusy port host) ;; ret 1
  | None => ret 0
  end.

(** [raise SystemExit(main())]: the exit status is the value returned, and
    1 when an exception ends the run. *)
Definition exit_status (run : M Z) : Z :=
  match snd run with
  | Ok n => n
  | Raise _ => 1
  end.

(** *** The two parts of [main]

    The report part (building, writing, the messages) and the check part;
    [main] is the first followed by the second. *)
Definition json_path_of (w : World) (args : Args) : PurePath :=
  match arg_json_path args with
  | Some p => if is_empty p
              then path_div (Path (w_script_dir w)) (w_script_stem w ++ ".json")
              else Path p
  | None => path_div (Path (w_script_dir w)) (w_script_stem w ++ ".json")
  end.

Definition html_path_of (w : World) : PurePath :=
  path_div (Path (w_script_dir w)) (w_script_stem w ++ ".html").

Definition report_part (w : World) (args : Args) : M unit :=
  report <- lift (build_report w) ;;
  write_json_report w report (json_path_of w args) ;;
  py_print w (InfoJsonWritten (path_str (json_path_of w args))) ;;
  if arg_html args then
    generate_html_report w report (html_path_of w) ;;
    py_print w (InfoHtmlWritten (path_str (html_path_of w)))
  else ret tt.

Definition check_part (w : World) (args : Args) : M Z :=
  match arg_check_port args with
  | Some port =>
      let host := arg_host args in
      is_free <- check_port_free w host port default_timeout ;;
      if is_free : bool then
        py_print w (OkPortFree port host) ;; ret 0
      else
        py_print w (ErrorPortBusy port host) ;; ret 1
  | None => ret 0
  end.

(** Observations on a trace. *)
Definition is_write (e : event) : bool :=
  match e with
  | EvWriteText _ _ => true
  | _ => false
  end.

Definition is_json_write (e : event) : bool :=
  match e with
  | EvWriteText _ (JsonOf _) => true
  | _ => false
  end.

Definition is_connect (e : event) : bool :=
  match e with
  | EvConnectEx _ _ => true
  | _ => false
  end.

(** Every call of the report part succeeds: the two writes and the two
    messages, as far as the options ask for them. *)
Definition report_calls_succeed (w : World) (args : Args) (r : Report) : Prop :=
  w_write_text w (path_str (json_path_of w args)) (JsonOf r) = Ok tt /\
  w_print w (InfoJsonWritten (path_str (json_path_of w args))) = Ok tt /\
  (arg_html args = true ->
   w_write_text w (path_str (html_path_of w)) (HtmlOf r) = Ok tt /\
   w_print w (InfoHtmlWritten (path_str (html_path_of w))) = Ok tt).

(** The same command line with the [--check-port] option replaced. *)
Definition with_check_port (cp : option Z) (a : Args) : Args :=
  {| arg_host := arg_host a; arg_check_port := cp;
     arg_json_path := arg_json_path a; arg_html := arg_html a |}.

End Script.

(* ===================================================================== *)
(** ** Sample hosts used in the examples *)
(* ===================================================================== *)

Module Fixtures.

Import Docker Ports Script.

Definition tab (s : string) : string := String TAB s.
Definition newline (s : string) : string := String LF s.

Definition tcp_listener (address : string) (number : Z) (owner : option Z)
  : sconn :=
  {| conn_type := SOCK_STREAM; laddr_ip := Some address;
     laddr_port := Some number; conn_status := CONN_LISTEN;
     conn_pid := owner |}.

Definition running (name : string) (argv : list string) (owner : string)
  : proc_view :=
  {| pv_open := Ok tt; pv_name := Ok name; pv_cmdline := Ok argv;
     pv_username := Ok owner |}.

Definition gone : proc_view :=
  {| pv_open := Raise NoSuchProcess; pv_name := Raise NoSuchProcess;
     pv_cmdline := Raise NoSuchProcess; pv_username := Raise NoSuchProcess |}.

(** A process whose name can be read but whose command line cannot. *)
Definition guarded (name owner : string) : proc_view :=
  {| pv_open := Ok tt; pv_name := Ok name; pv_cmdline := Raise AccessDenied;
     pv_username := Ok owner |}.

(** The processes of the sample host: an nginx master (10) and worker (11)
    that share one listening socket, and an sshd (20) whose command line is
    not readable. *)
Definition sample_procs (p : Z) : proc_view :=
  if p =? 10 then running "nginx" ["nginx:"; "master"] "root"
  else if p =? 11 then running "nginx" ["nginx:"; "worker"] "www-data"
  else if p =? 20 then guarded "sshd" "root"
  else gone.

Definition sshd_socket : sconn := tcp_listener "0.0.0.0" 22 (Some 20).
Definition web_socket : sconn := tcp_listener "0.0.0.0" 8080 None.
Definition metrics_socket : sconn := tcp_listener "0.0.0.0" 9090 None.

(** An established connection and a socket without a local address. *)
Definition established_socket : sconn :=
  {| conn_type := SOCK_STREAM; laddr_ip := Some "10.0.0.5";
     laddr_port := Some 51234; conn_status := "ESTABLISHED";
     conn_pid := Some 10 |}.

Definition unbound_socket : sconn :=
  {| conn_type := SOCK_DGRAM; laddr_ip := None; laddr_port := None;
     conn_status := CONN_LISTEN; conn_pid := None |}.

(** One container publishing port 80 as 8080 on IPv4 and IPv6. *)
Definition nginx_line : string :=
  "nginx" ++ tab ("3f2a9c1d0b7e" ++ tab ("nginx:1.25" ++
    tab "0.0.0.0:8080->80/tcp, [::]:8080->80/tcp")).

(** One container that publishes nothing: the ports field is empty. *)
Definition idle_line : string :=
  "worker" ++ tab ("9b1c2d3e4f5a" ++ tab ("busybox" ++ tab "")).

Definition sample_world (ps : run_outcome) (conns : result (list sconn))
  : World :=
  {| w_hostname := "lab";
     w_utc_now := "2024-05-01T12:00:00+00:00";
     w_docker_ps := ps;
     w_net_connections := conns;
     w_process := sample_procs;
     w_port_range_file := Some (Ok ("32768" ++ tab ("60999" ++ newline "")));
     w_write_text := fun _ _ => Ok tt;
     w_print := fun _ => Ok tt;
     w_socket := Ok tt;
     w_connect_ex := fun _ p => if p =? 8080 then Ok 0 else Ok 111;
     w_script_dir := "/opt/tools";
     w_script_stem := "port_usage_report" |}.

Definition sample_args (cp : option Z) : Args :=
  {| arg_host := "127.0.0.1"; arg_check_port := cp; arg_json_path := None;
     arg_html := false |}.

End Fixtures.

(* ===================================================================== *)
(** ** Shapes of the data the script builds *)
(* ===================================================================== *)

Module Shapes.

Import Docker Ports Script.

(** A protocol tag as the collector stores it: not empty, in lower case,
    with no white space around. *)
Definition proto_normal (p : string) : Prop :=
  is_empty p = false /\ py_lower p = p /\ py_strip p = p.

(** A value of the mapping as the collector stores it: the five keys, the
    identity and the port specification as texts, the container port as a
    number or as a text. *)
Definition info_complete (d : docker_info) : Prop :=
  exists name cid image entry cp,
    d = make_info name cid image entry cp /\
    is_Some (py_partition "->" entry) /\
    ((exists n, cp = PInt n) \/ (exists s, cp = PStr s)).

(** Every key and value of the mapping has these shapes. *)
Definition mapping_shaped (m : docker_map) : Prop :=
  forall k d, m !! k = Some d -> proto_normal (fst (fst k)) /\ info_complete d.

(** A value that is a text, or a number. *)
Definition is_text (v : option pyval) : Prop := exists s, v = Some (PStr s).

Definition is_text_or_number (v : option pyval) : Prop :=
  (exists s, v = Some (PStr s)) \/ (exists n, v = Some (PInt n)).

(** The first character of a text, if any, is outside the class. *)
Definition head_clear (p : ascii -> bool) (s : string) : bool :=
  match s with
  | EmptyString => true
  | String c _ => negb (p c)
  end.

(** What the loop over the listing keeps true of its state. *)
Definition collector_ok (st : collector) : Prop :=
  mapping_shaped (mapping st) /\
  (mapping st = ∅ <-> published st = ∅) /\
  Z.of_nat (size (published st)) <= total st.

(** The record without its container fields. *)
Definition without_docker_fields (r : PortRecord) : PortRecord :=
  {| proto := proto r; ip := ip r; port := port r; status := status r;
     pid := pid r; user := user r; process := process r;
     cmdline := cmdline r;
     docker_container_name := None; docker_container_id := None;
     docker_image := None; docker_port_spec := None;
     docker_container_port := None |}.

(** Position of a protocol tag in the output. *)
Definition proto_rank (p : string) : nat :=
  if String.eqb p "other" then 0
  else if String.eqb p "tcp" then 1
  else 2.

End Shapes.

(* ===================================================================== *)
(** ** More sample inputs *)
(* ===================================================================== *)

Module MoreFixtures.

Import Docker Ports Script.

(** A process whose name cannot be read for a reason outside the handler. *)
Definition broken : proc_view :=
  {| pv_open := Ok tt; pv_name := Raise (OSError "Input/output error");
     pv_cmdline := Ok []; pv_username := Ok "root" |}.

Definition broken_procs (p : Z) : proc_view :=
  if p =? 30 then broken else Fixtures.sample_procs p.

Definition broken_socket : sconn := Fixtures.tcp_listener "0.0.0.0" 443 (Some 30).

Definition broken_world : World :=
  {| w_hostname := "lab";
     w_utc_now := "2024-05-01T12:00:00+00:00";
     w_docker_ps := Completed Fixtures.nginx_line;
     w_net_connections :=
       Ok [Fixtures.web_socket; broken_socket; Fixtures.sshd_socket];
     w_process := broken_procs;
     w_port_range_file := None;
     w_write_text := fun _ _ => Ok tt;
     w_print := fun _ => Ok tt;
     w_socket := Ok tt;
     w_connect_ex := fun _ _ => Ok 111;
     w_script_dir := "/opt/tools";
     w_script_stem := "port_usage_report" |}.

End MoreFixtures.

(* ===================================================================== *)
(** ** [app/config.py]: the settings read from the environment *)
(* ===================================================================== *)

Module Config.

(** [os.environ]. *)
Abbreviation environ := (gmap string string).

(** [os.getenv(key)] and [os.getenv(key, default)]. *)
Definition getenv (env : environ) (key : string) : option string := env !! key.

Definition getenv_or (env : environ) (key fallback : string) : string :=
  default fallback (env !! key).

Record Settings : Type := {
  ha_base_url : option string;
  ha_token : option string;
  fritzbox_hosts : option (list string);
  fritzbox_username : option string;
  fritzbox_password : option string;
  nvme_devices : option (list string)
}.

(** [[item.strip() for item in raw.split(",") if item.strip()] or None] *)
Definition items_or_none (raw : string) : option (list string) :=
  match List.map py_strip
          (List.filter (fun item => negb (is_empty (py_strip item)))
             (py_split "," raw)) with
  | [] => None
  | items => Some items
  end.

(** [Settings.from_env()]. *)
Definition from_env (env : environ) : Settings :=
  let raw_nvme := getenv_or env "NVME_DEVICES" "" in
  let nvme_devices := items_or_none raw_nvme in
  let raw_fritz_hosts :=
    match getenv env "FRITZBOX_HOSTS" with
    | Some v => if is_empty v then getenv_or env "FRITZBOX_HOST" "" else v
    | None => getenv_or env "FRITZBOX_HOST" ""
    end in
  let fritzbox_hosts := items_or_none raw_fritz_hosts in
  {| ha_base_url := getenv env "HA_BASE_URL";
     ha_token := getenv env "HA_TOKEN";
     fritzbox_hosts := fritzbox_hosts;
     fritzbox_username := getenv env "FRITZBOX_USERNAME";
     fritzbox_password := getenv env "FRITZBOX_PASSWORD";
     nvme_devices := nvme_devices |}.

(** An item as it comes out of a list setting: not empty, no white space
    around it, no comma in it. *)
Definition clean_item (item : string) : Prop :=
  is_empty item = false /\ py_strip item = item /\
  all_chars (Docker.not_char ",") item = true.

End Config.

(* ===================================================================== *)
(** * Properties *)
(* ===================================================================== *)

Import Docker Ports Script.

(** ** The runtime port check and the entry point *)

Lemma bind_fst {A B : Type} (m : M A) (k : A -> M B) :
  fst (bind m k)
  = (fst m ++ match snd m with Ok a => fst (k a) | Raise _ => [] end)%list.
Proof.
  destruct m as [t [a | e]]; simpl.
  - destruct (k a); reflexivity.
  - rewrite app_nil_r. reflexivity.
Qed.

Lemma bind_snd {A B : Type} (m : M A) (k : A -> M B) :
  snd (bind m k) = match snd m with Ok a => snd (k a) | Raise e => Raise e end.
Proof.
  destruct m as [t [a | e]]; simpl; [| reflexivity].
  destruct (k a); reflexivity.
Qed.

Lemma bind_assoc {A B C : Type} (m : M A) (f : A -> M B) (g : B -> M C) :
  bind (bind m f) g = bind m (fun a => bind (f a) g).
Proof.
  destruct m as [t [a | e]]; simpl; [| reflexivity].
  destruct (f a) as [t1 [b | e]]; simpl; [| reflexivity].
  destruct (g b) as [t2 r]. rewrite app_assoc. reflexivity.
Qed.

Lemma bind_ext {A B : Type} (m : M A) (f g : A -> M B) :
  (forall a, f a = g a) -> bind m f = bind m g.
Proof.
  intros H. destruct m as [t [a | e]]; simpl; [| reflexivity].
  rewrite H. reflexivity.
Qed.

(** [main] is its report part followed by its check part, and the report
    part does not look at the [--check-port] option. *)
Lemma main_parts (w : World) (args : Args) :
  main w args = (report_part w args ;; check_part w args).
Proof.
  unfold main, report_part, check_part, json_path_of, html_path_of.
  rewrite bind_assoc. apply bind_ext. intros r.
  rewrite bind_assoc. apply bind_ext. intros _.
  rewrite bind_assoc. reflexivity.
Qed.

Lemma report_part_flag (w : World) (cp : option Z) (args : Args) :
  report_part w (with_check_port cp args) = report_part w args.
Proof. reflexivity. Qed.

Lemma check_port_free_run (w : World) (host : string) (port : Z) (timeout : Q) :
  check_port_free w host port timeout
  = match w_socket w with
    | Raise e => ([EvSocketOpen], Raise e)
    | Ok _ =>
        match settimeout timeout with
        | Raise e => ([EvSocketOpen; EvSetTimeout timeout; EvSocketClose], Raise e)
        | Ok _ =>
            ([EvSocketOpen; EvSetTimeout timeout; EvConnectEx host port;
              EvSocketClose],
             match w_connect_ex w host port with
             | Ok code => Ok (negb (code =? 0))
             | Raise e => if is_OSError e then Ok false else Raise e
             end)
        end
    end.
Proof.
  unfold check_port_free.
  destruct (w_socket w) as [[] | e]; [| reflexivity]. simpl.
  destruct (settimeout timeout) as [[] | e]; [| reflexivity]. simpl.
  destruct (w_connect_ex w host port) as [code | e]; [reflexivity |].
  destruct e; reflexivity.
Qed.



Lemma check_port_free_trace (w : World) (host : string) (port : Z) (timeout : Q) :
  w_socket w = Ok tt -> settimeout timeout = Ok tt ->
  fst (check_port_free w host port timeout)
  = [EvSocketOpen; EvSetTimeout timeout; EvConnectEx host port; EvSocketClose].
Proof. intros Hs Ht. rewrite check_port_free_run, Hs, Ht. reflexivity. Qed.

Lemma check_port_free_value (w : World) (host : string) (port : Z) (timeout : Q) :
  w_socket w = Ok tt -> settimeout timeout = Ok tt ->
  snd (check_port_free w host port timeout)
  = match w_connect_ex w host port with
    | Ok code => Ok (negb (code =? 0))
    | Raise e => if is_OSError e then Ok false else Raise e
    end.
Proof. intros Hs Ht. rewrite check_port_free_run, Hs, Ht. reflexivity. Qed.

(** The checker never writes, sets no other timeout than the one it is
    given, and makes at most one connection attempt, to the host and port
    it is given. *)
Lemma check_port_free_events (w : World) (host : string) (port : Z) (timeout : Q) :
  List.filter is_write (fst (check_port_free w host port timeout)) = [] /\
  (forall t, In (EvSetTimeout t) (fst (check_port_free w host port timeout)) ->
             t = timeout) /\
  (List.filter is_connect (fst (check_port_free w host port timeout)) = [] \/
   List.filter is_connect (fst (check_port_free w host port timeout))
   = [EvConnectEx host port]) /\
  (w_socket w = Ok tt -> settimeout timeout = Ok tt ->
   List.filter is_connect (fst (check_port_free w host port timeout))
   = [EvConnectEx host port]) /\
  (snd (check_port_free w host port timeout) = Ok true ->
   List.filter is_connect (fst (check_port_free w host port timeout))
   = [EvConnectEx host port] /\
   exists code, w_connect_ex w host port = Ok code /\ code <> 0).
Proof.
  rewrite check_port_free_run.
  destruct (w_socket w) as [[] | e]; [destruct (settimeout timeout) as [[] | e] |];
    cbn [fst snd List.filter is_write is_connect].
  - split; [reflexivity |]. split.
    { intros t [H | [H | [H | [H | []]]]]; try discriminate H. congruence. }
    split; [right; reflexivity |]. split; [reflexivity |].
    intros H. split; [reflexivity |].
    destruct (w_connect_ex w host port) as [code | e].
    + exists code. split; [reflexivity |]. intros ->. discriminate H.
    + destruct (is_OSError e); discriminate H.
  - split; [reflexivity |]. split.
    { intros t [H | [H | [H | []]]]; try discriminate H. congruence. }
    split; [left; reflexivity |]. split; [discriminate |]. discriminate.
  - split; [reflexivity |]. split.
    { intros t [H | []]. discriminate H. }
    split; [left; reflexivity |]. split; [discriminate |]. discriminate.
Qed.

Lemma py_print_run (w : World) (m : message) :
  py_print w m = ([EvPrint m], w_print w m).
Proof. unfold py_print. simpl. destruct (w_print w m); reflexivity. Qed.

Lemma write_text_run (w : World) (path : PurePath) (doc : document) :
  write_text w path doc
  = ([EvWriteText (path_str path) doc], w_write_text w (path_str path) doc).
Proof.
  unfold write_text. simpl. destruct (w_write_text w _ doc); reflexivity.
Qed.

Lemma print_then_ret (w : World) (m : message) (n : Z) :
  (py_print w m ;; ret n)
  = ([EvPrint m], match w_print w m with Ok _ => Ok n | Raise e => Raise e end).
Proof. rewrite py_print_run. simpl. destruct (w_print w m); reflexivity. Qed.

Lemma check_part_run (w : World) (args : Args) :
  check_part w args
  = match arg_check_port args with
    | None => ([], Ok 0)
    | Some port =>
        let host := arg_host args in
        let c := check_port_free w host port default_timeout in
        match snd c with
        | Ok true =>
            ((fst c ++ [EvPrint (OkPortFree port host)])%list,
             match w_print w (OkPortFree port host) with
             | Ok _ => Ok 0
             | Raise e => Raise e
             end)
        | Ok false =>
            ((fst c ++ [EvPrint (ErrorPortBusy port host)])%list,
             match w_print w (ErrorPortBusy port host) with
             | Ok _ => Ok 1
             | Raise e => Raise e
             end)
        | Raise e => (fst c, Raise e)
        end
    end.
Proof.
  unfold check_part. destruct (arg_check_port args) as [port |]; [| reflexivity].
  cbv zeta.
  destruct (check_port_free w (arg_host args) port default_timeout)
    as [t [[] | e]]; cbn [fst snd bind]; rewrite ?print_then_ret; reflexivity.
Qed.

(** The check part, case by case. *)
Lemma check_part_events (w : World) (args : Args) :
  List.filter is_write (fst (check_part w args)) = [] /\
  (forall t, In (EvSetTimeout t) (fst (check_part w args)) ->
             t = default_timeout) /\
  match arg_check_port args with
  | None => check_part w args = ([], Ok 0)
  | Some port =>
      (List.filter is_connect (fst (check_part w args)) = [] \/
       List.filter is_connect (fst (check_part w args))
       = [EvConnectEx (arg_host args) port]) /\
      (w_socket w = Ok tt ->
       List.filter is_connect (fst (check_part w args))
       = [EvConnectEx (arg_host args) port]) /\
      (snd (check_part w args) = Ok 0 \/ snd (check_part w args) = Ok 1 \/
       exists e, snd (check_part w args) = Raise e) /\
      (snd (check_part w args) = Ok 0 ->
       List.filter is_connect (fst (check_part w args))
       = [EvConnectEx (arg_host args) port] /\
       exists code, w_connect_ex w (arg_host args) port = Ok code /\ code <> 0)
  end.
Proof.
  rewrite check_part_run.
  destruct (arg_check_port args) as [port |].
  2: { split; [reflexivity |]. split; [intros t [] | reflexivity]. }
  cbv zeta.
  pose proof (check_port_free_events w (arg_host args) port default_timeout)
    as (Hw & Ht & Hc & Hsock & Hfree).
  destruct (check_port_free w (arg_host args) port default_timeout)
    as [t [[] | e]]; cbn [fst snd] in *.
  - destruct (Hfree eq_refl) as (Hc1 & code & Hcode & Hnz).
    rewrite !List.filter_app, Hw, Hc1. cbn [List.filter is_write is_connect app].
    split; [reflexivity |].
    split; [intros t0 Hin; apply in_app_or in Hin as [Hin | [Hin | []]];
            [apply Ht, Hin | discriminate Hin] |].
    split; [right; reflexivity |].
    split; [reflexivity |].
    destruct (w_print w (OkPortFree port (arg_host args))) as [[] | e].
    + split; [eauto |]. intros _. split; [reflexivity | eauto].
    + split; [eauto | discriminate].
  - rewrite !List.filter_app, Hw. cbn [List.filter is_write is_connect app].
    rewrite !app_nil_r.
    split; [reflexivity |].
    split; [intros t0 Hin; apply in_app_or in Hin as [Hin | [Hin | []]];
            [apply Ht, Hin | discriminate Hin] |].
    split; [exact Hc |].
    split; [intros Hs; apply Hsock; [exact Hs | reflexivity] |].
    destruct (w_print w (ErrorPortBusy port (arg_host args))) as [[] | e].
    + split; [eauto | discriminate].
    + split; [eauto | discriminate].
  - split; [exact Hw |]. split; [exact Ht |].
    split; [exact Hc |].
    split; [intros Hs; apply Hsock; [exact Hs | reflexivity] |].
    split; [eauto | discriminate].
Qed.

(** The report part, case by case: each call is made only when every call
    before it has succeeded. *)
Lemma report_part_run (w : World) (args : Args) :
  report_part w args
  = match build_report w with
    | Raise e => ([], Raise e)
    | Ok r =>
        let json := path_str (json_path_of w args) in
        let html := path_str (html_path_of w) in
        match w_write_text w json (JsonOf r) with
        | Raise e => ([EvWriteText json (JsonOf r)], Raise e)
        | Ok _ =>
            match w_print w (InfoJsonWritten json) with
            | Raise e =>
                ([EvWriteText json (JsonOf r); EvPrint (InfoJsonWritten json)],
                 Raise e)
            | Ok _ =>
                if arg_html args then
                  match w_write_text w html (HtmlOf r) with
                  | Raise e =>
                      ([EvWriteText json (JsonOf r);
                        EvPrint (InfoJsonWritten json);
                        EvWriteText html (HtmlOf r)], Raise e)
                  | Ok _ =>
                      ([EvWriteText json (JsonOf r);
                        EvPrint (InfoJsonWritten json);
                        EvWriteText html (HtmlOf r);
                        EvPrint (InfoHtmlWritten html)],
                       w_print w (InfoHtmlWritten html))
                  end
                else
                  ([EvWriteText json (JsonOf r); EvPrint (InfoJsonWritten json)],
                   Ok tt)
            end
        end
    end.
Proof.
  unfold report_part, write_json_report, generate_html_report.
  destruct (build_report w) as [r | e]; [| reflexivity].
  cbn [lift bind]. rewrite !write_text_run, !py_print_run. cbv zeta.
  destruct (w_write_text w (path_str (json_path_of w args)) (JsonOf r))
    as [[] | e]; [| reflexivity].
  cbn [bind].
  destruct (w_print w (InfoJsonWritten (path_str (json_path_of w args))))
    as [[] | e]; [| reflexivity].
  cbn [bind].
  destruct (arg_html args); [| reflexivity].
  destruct (w_write_text w (path_str (html_path_of w)) (HtmlOf r))
    as [[] | e]; [| reflexivity].
  cbn [bind].
  destruct (w_print w (InfoHtmlWritten (path_str (html_path_of w))))
    as [[] | e]; reflexivity.
Qed.

Lemma report_part_build_failure (w : World) (args : Args) (e : exn) :
  build_report w = Raise e -> report_part w args = ([], Raise e).
Proof. intros H. rewrite report_part_run, H. reflexivity. Qed.

(** When every call succeeds, the report part is the JSON write and its
    message, then with [--html] the HTML write and its message. *)
Lemma report_part_succeeds (w : World) (args : Args) (r : Report) :
  build_report w = Ok r -> report_calls_succeed w args r ->
  report_part w args
  = (([EvWriteText (path_str (json_path_of w args)) (JsonOf r);
       EvPrint (InfoJsonWritten (path_str (json_path_of w args)))]
      ++ (if arg_html args
          then [EvWriteText (path_str (html_path_of w)) (HtmlOf r);
                EvPrint (InfoHtmlWritten (path_str (html_path_of w)))]
          else []))%list,
     Ok tt).
Proof.
  intros Hb (Hjw & Hjp & Hhtml). rewrite report_part_run, Hb. cbv zeta.
  rewrite Hjw, Hjp. destruct (arg_html args); [| reflexivity].
  destruct (Hhtml eq_refl) as [Hhw Hhp]. rewrite Hhw, Hhp. reflexivity.
Qed.

Lemma report_part_returns (w : World) (args : Args) (u : unit) :
  snd (report_part w args) = Ok u ->
  exists r, build_report w = Ok r /\ report_calls_succeed w args r.
Proof.
  rewrite report_part_run.
  destruct (build_report w) as [r | e]; [| discriminate]. cbv zeta.
  intros H. exists r. split; [reflexivity |]. revert H.
  unfold report_calls_succeed.
  destruct (w_write_text w (path_str (json_path_of w args)) (JsonOf r))
    as [[] | e]; [| discriminate].
  destruct (w_print w (InfoJsonWritten (path_str (json_path_of w args))))
    as [[] | e]; [| discriminate].
  destruct (arg_html args).
  - destruct (w_write_text w (path_str (html_path_of w)) (HtmlOf r))
      as [[] | e]; [| discriminate].
    cbn [snd]. intros H. repeat split; try reflexivity.
    destruct (w_print w (InfoHtmlWritten (path_str (html_path_of w))))
      as [[] | e]; [reflexivity | discriminate].
  - intros _. repeat split; try reflexivity; discriminate.
Qed.

(** What the report part calls: no connection attempt and no timeout; the
    JSON write first, once, and only for a report that was built; at most
    the HTML write besides. *)
Lemma report_part_events (w : World) (args : Args) :
  List.filter is_connect (fst (report_part w args)) = [] /\
  (forall t, ~ In (EvSetTimeout t) (fst (report_part w args))) /\
  match build_report w with
  | Raise e => report_part w args = ([], Raise e)
  | Ok r =>
      let json_write :=
        EvWriteText (path_str (json_path_of w args)) (JsonOf r) in
      let html_write := EvWriteText (path_str (html_path_of w)) (HtmlOf r) in
      (exists rest, fst (report_part w args) = json_write :: rest) /\
      List.filter is_json_write (fst (report_part w args)) = [json_write] /\
      (List.filter is_write (fst (report_part w args)) = [json_write] \/
       arg_html args = true /\
       List.filter is_write (fst (report_part w args))
       = [json_write; html_write])
  end.
Proof.
  rewrite report_part_run.
  destruct (build_report w) as [r | e].
  2: { split; [reflexivity |]. split; [intros t [] | reflexivity]. }
  cbv zeta.
  destruct (w_write_text w (path_str (json_path_of w args)) (JsonOf r))
    as [[] | e];
    [destruct (w_print w (InfoJsonWritten (path_str (json_path_of w args))))
       as [[] | e];
     [destruct (arg_html args);
      [destruct (w_write_text w (path_str (html_path_of w)) (HtmlOf r))
         as [[] | e] |] |] |].
  all: cbn [fst List.filter is_connect is_write is_json_write].
  all: split; [reflexivity |].
  all: split;
    [intros t Hin; repeat (destruct Hin as [Hin | Hin]; [discriminate Hin |]);
     exact Hin |].
  all: split; [eexists; reflexivity |].
  all: split; [reflexivity |].
  all: first [left; reflexivity | right; split; reflexivity].
Qed.

Lemma build_report_enumeration_failure (w : World) (e : exn) :
  w_net_connections w = Raise e -> build_report w = Raise e.
Proof.
  intros H. unfold build_report.
  destruct (collect_docker_port_mappings (w_docker_ps w)) as [m meta].
  rewrite H. reflexivity.
Qed.

Lemma main_build_failure (w : World) (args : Args) (e : exn) :
  build_report w = Raise e -> main w args = ([], Raise e).
Proof.
  intros H. rewrite main_parts, (report_part_build_failure w args e H).
  reflexivity.
Qed.

Lemma main_fst (w : World) (args : Args) :
  fst (main w args)
  = (fst (report_part w args)
     ++ match snd (report_part w args) with
        | Ok _ => fst (check_part w args)
        | Raise _ => []
        end)%list.
Proof. rewrite main_parts. apply bind_fst. Qed.

Lemma main_snd (w : World) (args : Args) :
  snd (main w args)
  = match snd (report_part w args) with
    | Ok _ => snd (check_part w args)
    | Raise e => Raise e
    end.
Proof. rewrite main_parts. apply bind_snd. Qed.

Lemma main_writes_built_report (w : World) (args : Args) (path : string) (doc : document) :
  In (EvWriteText path doc) (fst (main w args)) ->
  exists r, build_report w = Ok r /\ (doc = JsonOf r \/ doc = HtmlOf r).
Proof.
  rewrite main_fst. intros Hin. apply in_app_or in Hin as [Hin | Hin].
  - pose proof (report_part_events w args) as (_ & _ & H).
    destruct (build_report w) as [r | e].
    + exists r. split; [reflexivity |]. cbv zeta in H.
      destruct H as (_ & _ & Hw).
      assert (Hf : In (EvWriteText path doc)
                      (List.filter is_write (fst (report_part w args)))).
      { apply filter_In. split; [exact Hin | reflexivity]. }
      destruct Hw as [Hw | [_ Hw]]; rewrite Hw in Hf.
      * destruct Hf as [Hf | []]. injection Hf as _ <-. left. reflexivity.
      * destruct Hf as [Hf | [Hf | []]]; injection Hf as _ <-; auto.
    + rewrite H in Hin. destruct Hin.
  - exfalso.
    destruct (snd (report_part w args)); [| destruct Hin].
    pose proof (check_part_events w args) as (Hw & _).
    assert (Hf : In (EvWriteText path doc)
                    (List.filter is_write (fst (check_part w args)))).
    { apply filter_In. split; [exact Hin | reflexivity]. }
    rewrite Hw in Hf. destruct Hf.
Qed.

(** The run without [--check-port]: the report part, then exit code 0. *)
Lemma main_plain (w : World) (args : Args) :
  arg_check_port args = None ->
  main w args
  = (fst (report_part w args),
     match snd (report_part w args) with
     | Ok _ => Ok 0
     | Raise e => Raise e
     end).
Proof.
  intros H. rewrite main_parts. unfold check_part. rewrite H.
  destruct (report_part w args) as [t [[] | e]]; cbn [bind ret fst snd];
    rewrite ?app_nil_r; reflexivity.
Qed.

(** C10, as stated, fails: when the socket enumeration is refused, the
    entry point writes no JSON file at all, with or without
    [--check-port]. *)
Lemma failed_build_writes_no_report :
  let w := Fixtures.sample_world (Completed Fixtures.nginx_line)
             (Raise AccessDenied) in
  List.filter is_json_write (fst (main w (Fixtures.sample_args None))) = [] /\
  List.filter is_json_write (fst (main w (Fixtures.sample_args (Some 8080))))
  = [] /\
  exit_status (main w (Fixtures.sample_args None)) = 1.
Proof. vm_compute. repeat split; reflexivity. Qed.

(** C10, amended: whenever the report is built, the JSON write is the
    first call of the run and is made exactly once, before any connection
    attempt; the run with [--check-port] performs the calls of the run
    without it, then those of the check, none of which writes a file, and
    only the result differs.  When the report cannot be built, nothing is
    called at all; when a write or a message of the report part fails, the
    run ends there, and in both cases the run is the same with and without
    the option. *)
Theorem report_written_once_before_port_check (w : World) (args : Args) (p : Z) :
  let plain := main w (with_check_port None args) in
  let checked := main w (with_check_port (Some p) args) in
  exists check_events : list event,
    fst checked = (fst plain ++ check_events)%list /\
    List.filter is_connect (fst plain) = [] /\
    List.filter is_write check_events = [] /\
    List.filter is_json_write (fst checked)
    = List.filter is_json_write (fst plain) /\
    (List.filter is_connect check_events = [] \/
     List.filter is_connect check_events = [EvConnectEx (arg_host args) p]) /\
    match build_report w with
    | Raise e => plain = ([], Raise e) /\ checked = ([], Raise e)
    | Ok r =>
        let json_write :=
          EvWriteText (path_str (json_path_of w args)) (JsonOf r) in
        (exists rest, fst plain = json_write :: rest) /\
        List.filter is_json_write (fst plain) = [json_write] /\
        match snd plain with
        | Raise e => checked = plain
        | Ok n =>
            n = 0 /\
            report_calls_succeed w args r /\
            (snd checked = Ok 0 \/ snd checked = Ok 1 \/
             exists e, snd checked = Raise e) /\
            (w_socket w = Ok tt ->
             List.filter is_connect check_events
             = [EvConnectEx (arg_host args) p])
        end
    end.
Proof.
  intros plain checked.
  assert (Hplain : plain = (fst (report_part w args),
                            match snd (report_part w args) with
                            | Ok _ => Ok 0
                            | Raise e => Raise e
                            end)).
  { unfold plain. rewrite main_plain by reflexivity. reflexivity. }
  assert (Hchecked : checked
                     = (report_part w args ;;
                        check_part w (with_check_port (Some p) args))).
  { unfold checked. rewrite main_parts. reflexivity. }
  pose proof (report_part_events w args) as (Hconn & _ & Hrep).
  pose proof (check_part_events w (with_check_port (Some p) args))
    as (Hcw & _ & Hcheck).
  cbn [with_check_port arg_check_port arg_host] in Hcheck.
  destruct Hcheck as (Hc01 & Hcsock & Hcres & _).
  assert (Hjson : forall l, List.filter is_write l = [] ->
                            List.filter is_json_write l = []).
  { induction l as [| [path [r0 | r0] | | | | |] l IH]; cbn; intros H;
      try discriminate H; auto. }
  destruct (snd (report_part w args)) as [[] | e] eqn:Hres.
  - (* the report part returns *)
    exists (fst (check_part w (with_check_port (Some p) args))).
    destruct (report_part_returns w args tt Hres) as (r & Hb & Hcalls).
    rewrite Hb in Hrep |- *. cbv zeta in Hrep.
    destruct Hrep as (Hfirst & Hjw & _).
    assert (Hfst : fst checked
                   = (fst plain
                      ++ fst (check_part w (with_check_port (Some p) args)))%list).
    { rewrite Hchecked, bind_fst, Hres, Hplain. reflexivity. }
    assert (Hsnd : snd checked
                   = snd (check_part w (with_check_port (Some p) args))).
    { rewrite Hchecked, bind_snd, Hres. reflexivity. }
    split; [exact Hfst |].
    split; [rewrite Hplain; exact Hconn |].
    split; [exact Hcw |].
    split.
    { rewrite Hfst, List.filter_app, (Hjson _ Hcw), app_nil_r. reflexivity. }
    split; [exact Hc01 |].
    rewrite Hplain. cbn [fst snd].
    split; [exact Hfirst |]. split; [exact Hjw |].
    split; [reflexivity |]. split; [exact Hcalls |].
    split; [rewrite Hsnd; exact Hcres | exact Hcsock].
  - (* the report part is ended by an exception *)
    exists [].
    assert (Heq : checked = plain).
    { rewrite Hchecked, Hplain.
      destruct (report_part w args) as [t res]. cbn [snd] in Hres. subst res.
      reflexivity. }
    rewrite Heq, app_nil_r.
    split; [reflexivity |].
    split; [rewrite Hplain; exact Hconn |].
    split; [reflexivity |]. split; [reflexivity |].
    split; [left; reflexivity |].
    rewrite Hplain. cbn [fst snd].
    destruct (build_report w) as [r | e0].
    + cbv zeta in Hrep. destruct Hrep as (Hfirst & Hjw & _).
      split; [exact Hfirst |]. split; [exact Hjw | reflexivity].
    + rewrite Hrep in Hres |- *. cbn [snd] in Hres. injection Hres as <-.
      split; reflexivity.
Qed.

(** C9: when the socket enumeration fails, the builder raises the same
    exception, the entry point performs no event at all (no file is
    written) and ends with a non-zero status; and a JSON document is only
    ever written for a report the builder returned. *)
Theorem enumeration_failure_aborts_report (w : World) (args : Args) (e : exn)
    (Hfail : w_net_connections w = Raise e) :
  build_report w = Raise e /\
  main w args = ([], Raise e) /\
  exit_status (main w args) <> 0 /\
  (forall path doc, ~ In (EvWriteText path doc) (fst (main w args))) /\
  (forall (w' : World) (args' : Args) (path : string) (r : Report),
      In (EvWriteText path (JsonOf r)) (fst (main w' args')) ->
      build_report w' = Ok r).
Proof.
  pose proof (build_report_enumeration_failure w e Hfail) as Hb.
  pose proof (main_build_failure w args e Hb) as Hm.
  repeat split.
  - exact Hb.
  - exact Hm.
  - rewrite Hm. discriminate.
  - intros path doc. rewrite Hm. simpl. tauto.
  - intros w' args' path r Hin.
    destruct (main_writes_built_report w' args' path (JsonOf r) Hin)
      as [r' [Hr' [Heq | Heq]]]; congruence.
Qed.


(** ** The correlator *)

Lemma conn_record_not_listener (m : docker_map) (procs : Z -> proc_view) (conn : sconn) :
  is_listener conn = false -> conn_record m procs conn = Ok None.
Proof.
  unfold is_listener, conn_record.
  destruct (String.eqb (conn_status conn) CONN_LISTEN); simpl; [| reflexivity].
  destruct (laddr_ip conn) as [i |], (laddr_port conn) as [n |]; simpl;
    intros H; try reflexivity.
  rewrite ?bool_decide_eq_true_2 in H by eauto. discriminate.
Qed.

Lemma is_listener_spec (conn : sconn) :
  is_listener conn = true <->
  conn_status conn = CONN_LISTEN /\ is_Some (laddr_ip conn) /\ is_Some (laddr_port conn).
Proof.
  unfold is_listener. rewrite !andb_true_iff, !bool_decide_eq_true.
  rewrite String.eqb_eq. tauto.
Qed.

(** What a record says about the connection it was made from. *)
Lemma conn_record_Some (m : docker_map) (procs : Z -> proc_view) (conn : sconn)
    (r : PortRecord) :
  conn_record m procs conn = Ok (Some r) ->
  conn_status conn = CONN_LISTEN /\
  laddr_ip conn = Some (ip r) /\
  laddr_port conn = Some (port r) /\
  proto r = proto_of (conn_type conn) /\
  status r = conn_status conn /\
  pid r = conn_pid conn /\
  (match pid_truthy (conn_pid conn) with
   | Some p => attribute_process (procs p)
   | None => Ok unknown
   end = Ok {| at_process_name := process r; at_cmdline := cmdline r;
               at_username := user r |}) /\
  match m !! (proto r, ip r, port r) with
  | Some d =>
      if dict_truthy d then
        docker_container_name r = Some (dict_get d "container_name") /\
        docker_container_id r = Some (dict_get d "container_id") /\
        docker_image r = Some (dict_get d "image") /\
        docker_port_spec r = Some (dict_get d "port_spec") /\
        docker_container_port r = Some (dict_get d "container_port")
      else lacks_docker_fields r = true
  | None => lacks_docker_fields r = true
  end.
Proof.
  unfold conn_record.
  destruct (String.eqb (conn_status conn) CONN_LISTEN) eqn:Hst; simpl;
    [| discriminate].
  apply String.eqb_eq in Hst.
  destruct (laddr_ip conn) as [i |]; [| discriminate].
  destruct (laddr_port conn) as [n |]; [| discriminate].
  destruct (match pid_truthy (conn_pid conn) with
            | Some p => attribute_process (procs p)
            | None => Ok unknown
            end) as [a | e]; [| discriminate].
  destruct a as [pn cl un]; simpl.
  destruct (m !! (proto_of (conn_type conn), i, n)) as [d |] eqn:Hd.
  - destruct (dict_truthy d) eqn:Ht; intros [= <-]; simpl;
      rewrite Hd, Ht; repeat split; solve [reflexivity | assumption].
  - intros [= <-]; simpl. rewrite Hd.
    repeat split; solve [reflexivity | assumption].
Qed.

Lemma collect_loop_acc (m : docker_map) (procs : Z -> proc_view)
    (conns : list sconn) (acc : list PortRecord) :
  collect_loop m procs conns acc
  = match collect_loop m procs conns [] with
    | Ok rs => Ok (acc ++ rs)%list
    | Raise e => Raise e
    end.
Proof.
  revert acc. induction conns as [| c conns IH]; intros acc; simpl.
  - rewrite app_nil_r. reflexivity.
  - destruct (conn_record m procs c) as [[r |] | e]; try reflexivity.
    + rewrite (IH (acc ++ [r])%list), (IH [r]).
      destruct (collect_loop m procs conns []); [| reflexivity].
      rewrite <- app_assoc. reflexivity.
    + apply IH.
Qed.

(** The loop returns the records of the connections, in their order,
    unless the lookup of one of them raises. *)
Lemma collect_loop_Ok (m : docker_map) (procs : Z -> proc_view)
    (conns : list sconn) (rs : list PortRecord) :
  collect_loop m procs conns [] = Ok rs <->
  Forall (fun c => is_raise (conn_record m procs c) = false) conns /\
  rs = omap (record_of m procs) conns.
Proof.
  revert rs. induction conns as [| c conns IH]; intros rs; simpl.
  - split.
    + intros [= <-]. split; [constructor | reflexivity].
    + intros [_ ->]. reflexivity.
  - unfold record_of at 1.
    destruct (conn_record m procs c) as [[r |] | e] eqn:Hc.
    + rewrite collect_loop_acc.
      destruct (collect_loop m procs conns []) as [rs' | e'] eqn:Hl.
      * destruct (proj1 (IH rs') eq_refl) as [HF ->]. split.
        -- intros [= <-]. split; [constructor; [rewrite Hc |]; easy | reflexivity].
        -- intros [_ ->]. reflexivity.
      * split; [discriminate |]. intros [HF ->].
        apply Forall_cons in HF as [_ HF].
        specialize (proj2 (IH _) (conj HF eq_refl)). discriminate.
    + rewrite IH. split.
      * intros [HF ->]. split; [constructor; [rewrite Hc |]; easy | reflexivity].
      * intros [HF ->]. apply Forall_cons in HF as [_ HF]. easy.
    + split; [discriminate |]. intros [HF _].
      apply Forall_cons in HF as [HF _]. rewrite Hc in HF. discriminate.
Qed.

Lemma collect_loop_filter (m : docker_map) (procs : Z -> proc_view)
    (conns : list sconn) (acc : list PortRecord) :
  collect_loop m procs (List.filter is_listener conns) acc
  = collect_loop m procs conns acc.
Proof.
  revert acc. induction conns as [| c conns IH]; intros acc; simpl; [reflexivity |].
  destruct (is_listener c) eqn:Hl; simpl.
  - destruct (conn_record m procs c) as [[r |] | e]; auto.
  - rewrite (conn_record_not_listener m procs c Hl). apply IH.
Qed.

Lemma record_of_Some (m : docker_map) (procs : Z -> proc_view) (c : sconn)
    (r : PortRecord) :
  record_of m procs c = Some r <-> conn_record m procs c = Ok (Some r).
Proof.
  unfold record_of. destruct (conn_record m procs c) as [[r' |] | e];
    split; congruence.
Qed.
(** ** The stable sort *)

Section Sorting.

Context {A K : Type} `{!EqDecision K} (lt : K -> K -> bool) (key : A -> K).

Hypothesis lt_irrefl : forall a, lt a a = false.
Hypothesis lt_trans : forall a b c, lt a b = true -> lt b c = true -> lt a c = true.
Hypothesis lt_total : forall a b, lt a b = false -> lt b a = false -> a = b.

(** [a] may stand before [b]. *)
Let le (a b : K) : Prop := lt b a = false.

Local Lemma strict_le (a b : K) : lt a b = true -> le a b.
Proof.
  unfold le. intros Hab. destruct (lt b a) eqn:Hba; [| reflexivity].
  rewrite <- (lt_irrefl a). symmetry. eapply lt_trans; eassumption.
Qed.

Local Lemma le_transitive (a b c : K) : le a b -> le b c -> le a c.
Proof.
  unfold le. intros Hab Hbc.
  destruct (lt c a) eqn:Hca; [| reflexivity].
  destruct (lt a b) eqn:Hab'.
  - rewrite <- Hbc. symmetry. eapply lt_trans; eassumption.
  - rewrite (lt_total a b Hab' Hab) in Hca. congruence.
Qed.

Lemma insert_sorted_perm (x : A) (l : list A) :
  Permutation (insert_sorted lt key x l) (x :: l).
Proof.
  induction l as [| y t IH]; simpl; [reflexivity |].
  destruct (lt (key y) (key x)); [| reflexivity].
  rewrite IH. apply perm_swap.
Qed.

Lemma py_sort_perm (l : list A) : Permutation (py_sort lt key l) l.
Proof.
  induction l as [| x t IH]; simpl; [reflexivity |].
  rewrite insert_sorted_perm. constructor. exact IH.
Qed.

Lemma insert_sorted_sorted (x : A) (l : list A) :
  StronglySorted (fun a b => le (key a) (key b)) l ->
  StronglySorted (fun a b => le (key a) (key b)) (insert_sorted lt key x l).
Proof.
  induction 1 as [| y t Hs IH Hy]; simpl.
  - repeat constructor.
  - destruct (lt (key y) (key x)) eqn:Hyx.
    + constructor; [exact IH |].
      rewrite List.Forall_forall. intros z Hz.
      apply (Permutation_in _ (insert_sorted_perm x t)) in Hz.
      destruct Hz as [<- | Hz]; [apply strict_le; exact Hyx |].
      rewrite List.Forall_forall in Hy. apply Hy, Hz.
    + constructor; [constructor; assumption |].
      constructor; [exact Hyx |].
      rewrite List.Forall_forall in *. intros z Hz.
      apply le_transitive with (key y); [exact Hyx | apply Hy, Hz].
Qed.

Lemma py_sort_sorted (l : list A) :
  StronglySorted (fun a b => le (key a) (key b)) (py_sort lt key l).
Proof.
  induction l as [| x t IH]; simpl; [constructor |].
  apply insert_sorted_sorted, IH.
Qed.

(** Stability: the elements with a given key keep their order. *)
Lemma insert_sorted_filter (k : K) (x : A) (l : list A) :
  List.filter (fun a => bool_decide (key a = k)) (insert_sorted lt key x l)
  = List.filter (fun a => bool_decide (key a = k)) (x :: l).
Proof.
  induction l as [| y t IH]; [reflexivity |].
  cbn [insert_sorted].
  destruct (lt (key y) (key x)) eqn:Hyx; [| reflexivity].
  cbn [List.filter] in *. rewrite IH.
  destruct (bool_decide_reflect (key x = k)) as [Hx | Hx];
    destruct (bool_decide_reflect (key y = k)) as [Hy | Hy]; try reflexivity.
  rewrite Hx, Hy, lt_irrefl in Hyx. discriminate.
Qed.

Lemma py_sort_stable (k : K) (l : list A) :
  List.filter (fun a => bool_decide (key a = k)) (py_sort lt key l)
  = List.filter (fun a => bool_decide (key a = k)) l.
Proof.
  induction l as [| x t IH]; [reflexivity |].
  cbn [py_sort fold_right]. rewrite insert_sorted_filter.
  cbn [List.filter]. fold (py_sort lt key t). rewrite IH. reflexivity.
Qed.






(** A strongly sorted list, read by positions. *)
Lemma sorted_lookup (R : A -> A -> Prop) (l : list A) :
  StronglySorted R l ->
  forall (i j : nat) (a b : A),
    (i < j)%nat -> l !! i = Some a -> l !! j = Some b -> R a b.
Proof.
  induction 1 as [| x t Hs IH Hx]; intros i j a b Hij Hi Hj.
  - rewrite lookup_nil in Hi. discriminate.
  - destruct j as [| j]; [lia |].
    simpl in Hj. destruct i as [| i].
    + simpl in Hi. injection Hi as <-.
      rewrite List.Forall_forall in Hx. apply Hx.
      apply list_elem_of_In, list_elem_of_lookup. eauto.
    + simpl in Hi. apply (IH i j); [lia | assumption | assumption].
Qed.

End Sorting.

(** ** The order of the sort keys *)

Lemma string_compare_refl (s : string) : String.compare s s = Eq.
Proof.
  induction s as [| c s IH]; simpl; [reflexivity |].
  unfold Ascii.compare. rewrite N.compare_refl. exact IH.
Qed.

Lemma string_compare_Lt_le (a b : string) :
  String.compare a b = Lt -> String.le a b.
Proof. unfold String.le, String.leb. intros ->. exact I. Qed.

Lemma string_compare_Lt_trans (a b c : string) :
  String.compare a b = Lt -> String.compare b c = Lt -> String.compare a c = Lt.
Proof.
  intros Hab Hbc.
  assert (Hac : String.le a c).
  { transitivity b; apply string_compare_Lt_le; assumption. }
  unfold String.le, String.leb in Hac.
  destruct (String.compare a c) eqn:E; [| reflexivity | contradiction].
  apply String.compare_eq_iff in E. subst c.
  rewrite String.compare_antisym, Hab in Hbc. discriminate.
Qed.

Lemma string_ltb_irrefl (s : string) : String.ltb s s = false.
Proof. unfold String.ltb. rewrite string_compare_refl. reflexivity. Qed.

Lemma key_lt_irrefl (k : string * Z * string) : key_lt k k = false.
Proof.
  destruct k as [[p n] i]. unfold key_lt.
  rewrite string_compare_refl, Z.compare_refl. apply string_ltb_irrefl.
Qed.

Lemma key_lt_trans (a b c : string * Z * string) :
  key_lt a b = true -> key_lt b c = true -> key_lt a c = true.
Proof.
  destruct a as [[p1 n1] i1], b as [[p2 n2] i2], c as [[p3 n3] i3].
  unfold key_lt, String.ltb.
  destruct (String.compare p1 p2) eqn:E12; try discriminate;
    destruct (String.compare p2 p3) eqn:E23; try discriminate.
  all: try (apply String.compare_eq_iff in E12; subst p2).
  all: try (apply String.compare_eq_iff in E23; subst p3).
  all: rewrite ?E12, ?E23, ?(string_compare_Lt_trans _ _ _ E12 E23); try reflexivity.
  rewrite string_compare_refl.
  destruct (Z.compare_spec n1 n2) as [-> | H12 | H12]; try discriminate;
    destruct (Z.compare_spec n2 n3) as [-> | H23 | H23]; try discriminate.
  all: rewrite ?Z.compare_refl, ?(proj2 (Z.compare_lt_iff _ _) H12),
         ?(proj2 (Z.compare_lt_iff _ _) H23); try reflexivity.
  - destruct (String.compare i1 i2) eqn:F12; try discriminate.
    destruct (String.compare i2 i3) eqn:F23; try discriminate.
    rewrite (string_compare_Lt_trans _ _ _ F12 F23). reflexivity.
  - rewrite (proj2 (Z.compare_lt_iff n1 n3)) by lia. reflexivity.
Qed.

Lemma key_lt_total (a b : string * Z * string) :
  key_lt a b = false -> key_lt b a = false -> a = b.
Proof.
  destruct a as [[p1 n1] i1], b as [[p2 n2] i2].
  unfold key_lt, String.ltb.
  rewrite (String.compare_antisym p2 p1).
  destruct (String.compare p1 p2) eqn:Ep; simpl; intros H1 H2;
    try discriminate.
  apply String.compare_eq_iff in Ep. subst p2.
  revert H1 H2. rewrite (Z.compare_antisym n1 n2).
  destruct (Z.compare_spec n1 n2) as [-> | Hn | Hn]; simpl; intros H1 H2;
    try discriminate.
  revert H1 H2. rewrite (String.compare_antisym i2 i1).
  destruct (String.compare i1 i2) eqn:Ei; simpl; intros H1 H2;
    try discriminate.
  apply String.compare_eq_iff in Ei. subst i2. reflexivity.
Qed.

(** [key_lt b a = false] spelled out as in the description of the order. *)
Lemma key_le_spelled (a b : PortRecord) :
  key_lt (sort_key b) (sort_key a) = false ->
  String.ltb (proto a) (proto b) = true \/
  (proto a = proto b /\ (port a < port b)%Z) \/
  (proto a = proto b /\ port a = port b /\ String.leb (ip a) (ip b) = true).
Proof.
  unfold key_lt, sort_key, String.ltb, String.leb.
  rewrite (String.compare_antisym (proto b) (proto a)).
  destruct (String.compare (proto a) (proto b)) eqn:Ep; simpl;
    try discriminate; [| auto].
  apply String.compare_eq_iff in Ep.
  rewrite (Z.compare_antisym (port a) (port b)).
  destruct (Z.compare_spec (port a) (port b)) as [Hn | Hn | Hn]; simpl;
    try discriminate; [| auto].
  rewrite (String.compare_antisym (ip b) (ip a)).
  destruct (String.compare (ip a) (ip b)); simpl; try discriminate; auto.
Qed.

(** ** One possible result *)

Section StableUnique.

Context {A K : Type} `{!EqDecision K} (lt : K -> K -> bool) (key : A -> K).

Hypothesis lt_irrefl : forall a, lt a a = false.
Hypothesis lt_total : forall a b, lt a b = false -> lt b a = false -> a = b.

Let le (a b : K) : Prop := lt b a = false.

Let has (k : K) (a : A) : bool := bool_decide (key a = k).

Local Lemma filter_has_In (k : K) (a : A) (l : list A) :
  In a (List.filter (has k) l) -> In a l.
Proof. intros H. apply filter_In in H. tauto. Qed.

(** Two lists sorted by key in which the elements of every key come in the
    same order are the same list: a stable sort has one possible result. *)
Lemma stable_sorted_unique (l1 l2 : list A) :
  StronglySorted (fun a b => le (key a) (key b)) l1 ->
  StronglySorted (fun a b => le (key a) (key b)) l2 ->
  (forall k, List.filter (has k) l1 = List.filter (has k) l2) ->
  l1 = l2.
Proof.
  intros H1. revert l2.
  induction H1 as [| a t1 Hs1 IH Ha]; intros l2 H2 Hf.
  - destruct l2 as [| b t2]; [reflexivity |].
    specialize (Hf (key b)). simpl in Hf. unfold has at 1 in Hf.
    rewrite bool_decide_eq_true_2 in Hf by reflexivity. discriminate.
  - destruct H2 as [| b t2 Hs2 Hb].
    + specialize (Hf (key a)). simpl in Hf. unfold has at 1 in Hf.
      rewrite bool_decide_eq_true_2 in Hf by reflexivity. discriminate.
    + assert (Hk : key a = key b).
      { rewrite List.Forall_forall in Ha, Hb.
        apply lt_total.
        - assert (Hin : In a (b :: t2)).
          { apply (filter_has_In (key a)). rewrite <- Hf. simpl.
            unfold has at 1. rewrite bool_decide_eq_true_2 by reflexivity.
            left. reflexivity. }
          destruct Hin as [<- | Hin]; [apply lt_irrefl | apply Hb, Hin].
        - assert (Hin : In b (a :: t1)).
          { apply (filter_has_In (key b)). rewrite Hf. simpl.
            unfold has at 1. rewrite bool_decide_eq_true_2 by reflexivity.
            left. reflexivity. }
          destruct Hin as [<- | Hin]; [apply lt_irrefl | apply Ha, Hin]. }
      assert (a = b) as <-.
      { assert (Ha' : has (key a) a = true).
        { unfold has. apply bool_decide_eq_true_2. reflexivity. }
        assert (Hb' : has (key a) b = true).
        { unfold has. apply bool_decide_eq_true_2. symmetry. exact Hk. }
        specialize (Hf (key a)). cbn [List.filter] in Hf.
        rewrite Ha', Hb' in Hf. congruence. }
      f_equal. apply IH; [exact Hs2 |].
      intros k. specialize (Hf k). cbn [List.filter] in Hf.
      destruct (has k a); congruence.
Qed.

End StableUnique.

(** [py_sort] is the stable sort: any list sorted by key that keeps the
    order of the elements of every key is its result. *)
Lemma py_sort_is_the_stable_sort {A : Type} (key : A -> string * Z * string)
    (l l' : list A) :
  StronglySorted (fun a b => key_lt (key b) (key a) = false) l' ->
  (forall k, List.filter (fun a => bool_decide (key a = k)) l'
             = List.filter (fun a => bool_decide (key a = k)) l) ->
  l' = py_sort key_lt key l.
Proof.
  intros Hs Hf.
  apply (stable_sorted_unique key_lt key key_lt_irrefl key_lt_total).
  - exact Hs.
  - apply (py_sort_sorted key_lt key key_lt_irrefl key_lt_trans key_lt_total).
  - intros k. rewrite Hf. symmetry.
    apply (py_sort_stable key_lt key key_lt_irrefl).
Qed.

(** ** The output of [collect_port_usage] *)

Lemma normalise_docker_map (dm : option docker_map) :
  match dm with
  | Some m => if bool_decide (m = ∅) then ∅ else m
  | None => ∅
  end = default ∅ dm.
Proof.
  destruct dm as [m |]; [| reflexivity]. simpl.
  destruct (bool_decide_reflect (m = ∅)); congruence.
Qed.

Lemma collect_port_usage_unfold (conns : list sconn) (procs : Z -> proc_view)
    (dm : option docker_map) :
  collect_port_usage (Ok conns) procs dm
  = match collect_loop (default ∅ dm) procs conns [] with
    | Raise e => Raise e
    | Ok records => Ok (py_sort key_lt sort_key records)
    end.
Proof. unfold collect_port_usage. rewrite normalise_docker_map. reflexivity. Qed.

(** The output is the sorted list of the records of the connections. *)
Lemma collect_port_usage_Ok (conns : list sconn) (procs : Z -> proc_view)
    (dm : option docker_map) (records : list PortRecord) :
  collect_port_usage (Ok conns) procs dm = Ok records <->
  Forall (fun c => is_raise (conn_record (default ∅ dm) procs c) = false) conns /\
  records = py_sort key_lt sort_key (omap (record_of (default ∅ dm) procs) conns).
Proof.
  rewrite collect_port_usage_unfold.
  destruct (collect_loop (default ∅ dm) procs conns []) as [rs | e] eqn:Hl.
  - apply collect_loop_Ok in Hl as [HF ->]. split.
    + intros [= <-]. auto.
    + intros [_ ->]. reflexivity.
  - split; [discriminate |]. intros [HF _].
    specialize (proj2 (collect_loop_Ok _ _ _ _) (conj HF eq_refl)).
    congruence.
Qed.

Lemma collect_port_usage_filter (conns : list sconn) (procs : Z -> proc_view)
    (dm : option docker_map) :
  collect_port_usage (Ok (List.filter is_listener conns)) procs dm
  = collect_port_usage (Ok conns) procs dm.
Proof. rewrite !collect_port_usage_unfold, collect_loop_filter. reflexivity. Qed.

(** Every record of the output was made from a connection of the input. *)
Lemma collect_port_usage_In (conns : list sconn) (procs : Z -> proc_view)
    (dm : option docker_map) (records : list PortRecord) (r : PortRecord) :
  collect_port_usage (Ok conns) procs dm = Ok records ->
  In r records ->
  exists conn, In conn conns /\ conn_record (default ∅ dm) procs conn = Ok (Some r).
Proof.
  intros H Hin. apply collect_port_usage_Ok in H as [_ ->].
  apply (Permutation_in _ (py_sort_perm key_lt sort_key _)) in Hin.
  apply list_elem_of_In, list_elem_of_omap in Hin as [conn [Hc Hr]].
  exists conn. split; [apply list_elem_of_In, Hc | apply record_of_Some, Hr].
Qed.

Lemma omap_record_length (m : docker_map) (procs : Z -> proc_view)
    (conns : list sconn) :
  Forall (fun c => is_raise (conn_record m procs c) = false) conns ->
  length (omap (record_of m procs) conns) = length (List.filter is_listener conns).
Proof.
  induction 1 as [| c conns Hc HF IH]; [reflexivity |].
  cbn [omap list_omap List.filter]. fold (omap (record_of m procs) conns).
  destruct (is_listener c) eqn:Hl.
  - unfold record_of at 1.
    destruct (conn_record m procs c) as [[r |] | e] eqn:Hr; simpl.
    + f_equal. exact IH.
    + exfalso. revert Hr. unfold conn_record.
      apply is_listener_spec in Hl as [Hs [[i Hi] [n Hn]]].
      rewrite Hs, String.eqb_refl, Hi, Hn. simpl.
      destruct (match pid_truthy (conn_pid c) with
                | Some p => attribute_process (procs p)
                | None => Ok unknown
                end); [| discriminate].
      destruct (m !! _); [destruct (dict_truthy _) |]; discriminate.
    + discriminate.
  - unfold record_of at 1.
    rewrite (conn_record_not_listener m procs c Hl). exact IH.
Qed.

(** C3: every record of the output comes from an entry that is in the
    listening state and has both an address and a port, which the record
    carries; and entries that are not listening, or lack the address or the
    port, contribute nothing: the output has one record per remaining
    entry, and is the output for the remaining entries alone. *)
Theorem only_resolvable_listeners_are_recorded
    (conns : list sconn) (procs : Z -> proc_view) (dm : option docker_map)
    (records : list PortRecord)
    (Hrun : collect_port_usage (Ok conns) procs dm = Ok records) :
  (forall r, In r records ->
     status r = CONN_LISTEN /\
     exists conn, In conn conns /\
       conn_status conn = CONN_LISTEN /\
       laddr_ip conn = Some (ip r) /\ laddr_port conn = Some (port r)) /\
  length records = length (List.filter is_listener conns) /\
  collect_port_usage (Ok (List.filter is_listener conns)) procs dm = Ok records /\
  (forall conn, In conn conns -> is_listener conn = false ->
     conn_record (default ∅ dm) procs conn = Ok None).
Proof.
  split; [| split; [| split]].
  - intros r Hin.
    destruct (collect_port_usage_In _ _ _ _ _ Hrun Hin) as [conn [Hc Hr]].
    apply conn_record_Some in Hr as (Hs & Hi & Hn & _ & Hst & _).
    split; [congruence |]. exists conn. auto.
  - apply collect_port_usage_Ok in Hrun as [HF ->].
    rewrite (Permutation_length (py_sort_perm key_lt sort_key _)).
    apply omap_record_length, HF.
  - rewrite collect_port_usage_filter. exact Hrun.
  - intros conn _ Hl. apply conn_record_not_listener, Hl.
Qed.

Lemma only_resolvable_listeners_are_recorded_witness :
  let conns := [Fixtures.established_socket; Fixtures.web_socket;
                Fixtures.unbound_socket] in
  exists records,
    collect_port_usage (Ok conns) Fixtures.sample_procs None = Ok records /\
    length records = 1%nat /\
    forall r, In r records -> status r = CONN_LISTEN.
Proof.
  eexists. split; [vm_compute; reflexivity |]. split; [reflexivity |].
  intros r Hin.
  exact (proj1 (proj1 (only_resolvable_listeners_are_recorded
           [Fixtures.established_socket; Fixtures.web_socket;
            Fixtures.unbound_socket] Fixtures.sample_procs None _ eq_refl)
         r Hin)).
Defined.




(** ** The mapping built by the collector *)

Lemma make_info_truthy (name cid image entry : string) (cp : pyval) :
  dict_truthy (make_info name cid image entry cp) = true.
Proof.
  unfold dict_truthy, make_info.
  rewrite bool_decide_eq_false_2; [reflexivity |]. apply insert_non_empty.
Qed.

Lemma well_formed_empty : well_formed ∅.
Proof. intros k d H. rewrite lookup_empty in H. discriminate. Qed.

Lemma well_formed_insert (m : docker_map) (k : port_key) (d : docker_info) :
  well_formed m -> dict_truthy d = true -> well_formed (<[k := d]> m).
Proof.
  intros Hm Hd k' d'. rewrite lookup_insert.
  case_decide; [intros [= <-]; exact Hd | apply Hm].
Qed.

Lemma process_entry_well_formed (name cid image : string)
    (acc : docker_map * bool) (entry : string) :
  well_formed (fst acc) ->
  well_formed (fst (process_entry name cid image acc entry)).
Proof.
  intros Hm. unfold process_entry.
  destruct (py_partition "->" entry) as [[l r] |]; [| exact Hm].
  destruct (py_partition "/" (py_strip r)) as [[cps pr] |].
  all: destruct (py_rpartition ":" (py_strip l)) as [[hip hps] |]; [| exact Hm].
  all: destruct (py_int hps) as [hp |]; [| exact Hm].
  all: simpl; apply well_formed_insert; [exact Hm | apply make_info_truthy].
Qed.

Lemma process_entries_well_formed (name cid image : string)
    (entries : list string) (acc : docker_map * bool) :
  well_formed (fst acc) ->
  well_formed (fst (fold_left (process_entry name cid image) entries acc)).
Proof.
  revert acc. induction entries as [| e entries IH]; intros acc Hm; simpl;
    [exact Hm |].
  apply IH, process_entry_well_formed, Hm.
Qed.

Lemma process_line_well_formed (st : collector) (line : string) :
  well_formed (mapping st) -> well_formed (mapping (process_line st line)).
Proof.
  intros Hm. unfold process_line.
  destruct (is_empty (py_strip line)); [exact Hm |].
  destruct (List.map py_strip (py_split TAB line))
    as [| name [| cid [| image [| ports_str rest]]]]; try exact Hm.
  destruct (is_empty ports_str); [exact Hm |].
  pose proof (process_entries_well_formed name cid image
                (port_entries ports_str) (mapping st, false) Hm) as H.
  destruct (fold_left _ _ _) as [m' hp]. exact H.
Qed.

Lemma process_lines_well_formed (lines : list string) (st : collector) :
  well_formed (mapping st) ->
  well_formed (mapping (fold_left process_line lines st)).
Proof.
  revert st. induction lines as [| l lines IH]; intros st Hm; simpl;
    [exact Hm |].
  apply IH, process_line_well_formed, Hm.
Qed.

Lemma collector_well_formed (run : run_outcome) :
  well_formed (fst (collect_docker_port_mappings run)).
Proof.
  unfold collect_docker_port_mappings.
  destruct run as [| text | stdout]; simpl; try apply well_formed_empty.
  destruct (is_empty (py_strip stdout)); [apply well_formed_empty |].
  destruct (py_splitlines (py_strip stdout)) as [| l lines];
    [apply well_formed_empty |].
  apply (process_lines_well_formed (l :: lines)), well_formed_empty.
Qed.

Lemma has_lacks_docker_fields (r : PortRecord) :
  lacks_docker_fields r = true -> has_docker_fields r = false.
Proof.
  unfold lacks_docker_fields, has_docker_fields.
  rewrite !andb_true_iff, !bool_decide_eq_true. intros [[[[-> _] _] _] _].
  reflexivity.
Qed.

(** The join, for a mapping whose values are not empty. *)
Lemma docker_fields_of_match (m : docker_map) (procs : Z -> proc_view)
    (conn : sconn) (r : PortRecord) :
  well_formed m ->
  conn_record m procs conn = Ok (Some r) ->
  match m !! (proto r, ip r, port r) with
  | Some d =>
      has_docker_fields r = true /\
      docker_container_name r = Some (dict_get d "container_name") /\
      docker_container_id r = Some (dict_get d "container_id") /\
      docker_image r = Some (dict_get d "image") /\
      docker_port_spec r = Some (dict_get d "port_spec") /\
      docker_container_port r = Some (dict_get d "container_port")
  | None => lacks_docker_fields r = true
  end.
Proof.
  intros Hm Hr. apply conn_record_Some in Hr as (_ & _ & _ & _ & _ & _ & _ & Hd).
  destruct (m !! (proto r, ip r, port r)) as [d |] eqn:Hk; [| exact Hd].
  rewrite (Hm _ _ Hk) in Hd. destruct Hd as (H1 & H2 & H3 & H4 & H5).
  split; [| auto]. unfold has_docker_fields. rewrite H1, H2, H3, H4, H5.
  reflexivity.
Qed.

(** A key whose value is the empty dictionary counts as no match: the
    correlator tests the truth value of what it found. *)
Example empty_info_counts_as_no_match :
  collect_port_usage (Ok [Fixtures.web_socket]) Fixtures.sample_procs
    (Some {[ ("tcp", "0.0.0.0", 8080) := ∅ ]})
  = collect_port_usage (Ok [Fixtures.web_socket]) Fixtures.sample_procs None.
Proof. reflexivity. Qed.

(** C1: in the report, a record carries the five container fields exactly
    when the key (protocol, address, port) of its socket is in the mapping
    the collector built, with the values stored under that key; when the
    key is not in the mapping, none of the five is in the record. *)
Theorem docker_fields_iff_key_in_mapping
    (run : run_outcome) (conns : list sconn) (procs : Z -> proc_view)
    (records : list PortRecord) (r : PortRecord)
    (Hrun : collect_port_usage (Ok conns) procs
              (Some (fst (collect_docker_port_mappings run))) = Ok records)
    (Hin : In r records) :
  let m := fst (collect_docker_port_mappings run) in
  (has_docker_fields r = true <-> is_Some (m !! (proto r, ip r, port r))) /\
  (m !! (proto r, ip r, port r) = None -> lacks_docker_fields r = true) /\
  (forall d, m !! (proto r, ip r, port r) = Some d ->
     docker_container_name r = Some (dict_get d "container_name") /\
     docker_container_id r = Some (dict_get d "container_id") /\
     docker_image r = Some (dict_get d "image") /\
     docker_port_spec r = Some (dict_get d "port_spec") /\
     docker_container_port r = Some (dict_get d "container_port")).
Proof.
  intros m.
  destruct (collect_port_usage_In _ _ _ _ _ Hrun Hin) as [conn [_ Hr]].
  simpl in Hr. fold m in Hr.
  pose proof (docker_fields_of_match m procs conn r
                (collector_well_formed run) Hr) as H.
  destruct (m !! (proto r, ip r, port r)) as [d |] eqn:Hk.
  - destruct H as [Hhas Hvals]. split; [| split].
    + split; eauto.
    + discriminate.
    + intros d' [= <-]. exact Hvals.
  - split; [| split].
    + rewrite (has_lacks_docker_fields r H). split; [discriminate |].
      intros [d Hd]. discriminate.
    + intros _. exact H.
    + discriminate.
Qed.

Lemma docker_fields_iff_key_in_mapping_witness :
  exists web metrics,
    collect_port_usage (Ok [Fixtures.web_socket; Fixtures.metrics_socket])
      Fixtures.sample_procs
      (Some (fst (collect_docker_port_mappings (Completed Fixtures.nginx_line))))
    = Ok [web; metrics] /\
    port web = 8080 /\ has_docker_fields web = true /\
    docker_container_name web = Some (PStr "nginx") /\
    port metrics = 9090 /\ lacks_docker_fields metrics = true.
Proof.
  eexists. eexists. split; [vm_compute; reflexivity |].
  split; [reflexivity |]. split.
  - apply (docker_fields_iff_key_in_mapping (Completed Fixtures.nginx_line)
             [Fixtures.web_socket; Fixtures.metrics_socket]
             Fixtures.sample_procs _ _ ltac:(vm_compute; reflexivity)
             ltac:(left; reflexivity)).
    vm_compute. eexists. reflexivity.
  - split; [reflexivity |]. split; [reflexivity |].
    apply (docker_fields_iff_key_in_mapping (Completed Fixtures.nginx_line)
             [Fixtures.web_socket; Fixtures.metrics_socket]
             Fixtures.sample_procs _ _ ltac:(vm_compute; reflexivity)
             ltac:(right; left; reflexivity)).
    vm_compute. reflexivity.
Defined.

(** ** Process attribution *)

Lemma attribute_process_handled (pv : proc_view) :
  lookups_handled pv = true -> is_raise (attribute_process pv) = false.
Proof.
  unfold lookups_handled, attribute_process, leave_try, handled_or_ok.
  rewrite !andb_true_iff. intros [[[Ho Hn] Hc] Hu].
  destruct (pv_open pv); [| rewrite Ho; reflexivity].
  destruct (pv_name pv); [| rewrite Hn; reflexivity].
  destruct (pv_cmdline pv); [| rewrite Hc; reflexivity].
  destruct (pv_username pv); [| rewrite Hu]; reflexivity.
Qed.


Lemma conn_record_handled (m : docker_map) (procs : Z -> proc_view)
    (conn : sconn) :
  (forall p, lookups_handled (procs p) = true) ->
  is_raise (conn_record m procs conn) = false.
Proof.
  intros Hh. unfold conn_record.
  destruct (negb _); [reflexivity |].
  destruct (laddr_ip conn); [| reflexivity].
  destruct (laddr_port conn); [| reflexivity].
  destruct (pid_truthy (conn_pid conn)) as [p |].
  - pose proof (attribute_process_handled (procs p) (Hh p)) as Ha.
    destruct (attribute_process (procs p)); [| discriminate].
    destruct (m !! _); [destruct (dict_truthy _) |]; reflexivity.
  - destruct (m !! _); [destruct (dict_truthy _) |]; reflexivity.
Qed.

(** With lookups that only fail in the three handled ways, the correlator
    returns one record per listening socket. *)
Lemma collect_port_usage_handled (conns : list sconn)
    (procs : Z -> proc_view) (dm : option docker_map) :
  (forall p, lookups_handled (procs p) = true) ->
  exists records,
    collect_port_usage (Ok conns) procs dm = Ok records /\
    length records = length (List.filter is_listener conns).
Proof.
  intros Hh.
  assert (HF : Forall (fun c => is_raise (conn_record (default ∅ dm) procs c)
                                = false) conns).
  { apply List.Forall_forall. intros c _. apply conn_record_handled, Hh. }
  eexists. split.
  - apply collect_port_usage_Ok. split; [exact HF | reflexivity].
  - rewrite (Permutation_length (py_sort_perm key_lt sort_key _)).
    apply omap_record_length, HF.
Qed.



Lemma sample_procs_handled (p : Z) :
  lookups_handled (Fixtures.sample_procs p) = true.
Proof.
  unfold Fixtures.sample_procs.
  destruct (p =? 10); [reflexivity |].
  destruct (p =? 11); [reflexivity |].
  destruct (p =? 20); reflexivity.
Defined.


(** ** Failure of the container listing *)

Lemma collector_run_failed (run : run_outcome) :
  run_failed run = true ->
  exists msg,
    msg <> EmptyString /\
    collect_docker_port_mappings run
    = (∅, {| available := false; error := Some msg; containers_total := 0;
             containers_with_published_ports := 0;
             command := command_text |}).
Proof.
  destruct run as [| text | stdout]; simpl; intros H; try discriminate.
  - eexists. split; [| reflexivity]. discriminate.
  - eexists. split; [| reflexivity]. discriminate.
Qed.

(** C6: when the binary is missing or the command exits non-zero, the
    collector returns the empty mapping and metadata with [available]
    false, zero counts and an error text; the report is still built, with
    one record per listening socket and no container field in any of them;
    and a command that succeeds with blank output gives [available] true,
    no error and zero counts. *)
Theorem docker_failure_is_not_fatal :
  (forall run, run_failed run = true ->
     exists msg,
       msg <> EmptyString /\
       collect_docker_port_mappings run
       = (∅, {| available := false; error := Some msg; containers_total := 0;
                containers_with_published_ports := 0;
                command := command_text |})) /\
  (forall (w : World) (conns : list sconn),
     run_failed (w_docker_ps w) = true ->
     w_net_connections w = Ok conns ->
     (forall p, lookups_handled (w_process w p) = true) ->
     exists report msg,
       build_report w = Ok report /\
       available (docker report) = false /\
       error (docker report) = Some msg /\ msg <> EmptyString /\
       host report = w_hostname w /\
       length (ports report) = length (List.filter is_listener conns) /\
       forall r, In r (ports report) -> lacks_docker_fields r = true) /\
  (forall stdout, py_strip stdout = EmptyString ->
     collect_docker_port_mappings (Completed stdout)
     = (∅, {| available := true; error := None; containers_total := 0;
              containers_with_published_ports := 0;
              command := command_text |})).
Proof.
  split; [exact collector_run_failed |]. split.
  - intros w conns Hfail Hconns Hh.
    destruct (collector_run_failed _ Hfail) as (msg & Hmsg & Hcol).
    destruct (collect_port_usage_handled conns (w_process w) (Some ∅) Hh)
      as (records & Hrun & Hlen).
    eexists. exists msg. unfold build_report. rewrite Hcol, Hconns, Hrun.
    split; [reflexivity |]. simpl. repeat split; try assumption.
    intros r Hin.
    destruct (collect_port_usage_In _ _ _ _ _ Hrun Hin) as [conn [_ Hr]].
    pose proof (docker_fields_of_match _ _ _ _ well_formed_empty Hr) as H.
    simpl in H. rewrite lookup_empty in H. exact H.
  - intros stdout Hblank. unfold collect_docker_port_mappings.
    rewrite Hblank. reflexivity.
Qed.

Lemma docker_failure_is_not_fatal_witness :
  exists report,
    build_report
      (Fixtures.sample_world FileNotFoundError
         (Ok [Fixtures.web_socket; Fixtures.established_socket]))
    = Ok report /\
    available (docker report) = false /\
    error (docker report) = Some "docker binary not found" /\
    length (ports report) = 1%nat.
Proof.
  destruct (proj1 (proj2 docker_failure_is_not_fatal)
              (Fixtures.sample_world FileNotFoundError
                 (Ok [Fixtures.web_socket; Fixtures.established_socket]))
              [Fixtures.web_socket; Fixtures.established_socket]
              eq_refl eq_refl sample_procs_handled)
    as (report & msg & Hb & Hav & Herr & _ & _ & Hlen & _).
  exists report. split; [exact Hb |]. split; [exact Hav |].
  split; [| exact Hlen].
  vm_compute in Hb. injection Hb as <-. reflexivity.
Defined.

(** ** Counting the containers *)

Lemma process_line_total (st : collector) (line : string) :
  total (process_line st line)
  = total st + (if counted_line line then 1 else 0).
Proof.
  unfold process_line, counted_line.
  destruct (is_empty (py_strip line)); simpl; [lia |].
  rewrite <- (length_map py_strip (py_split TAB line)).
  destruct (List.map py_strip (py_split TAB line))
    as [| name [| cid [| image [| ports_str rest]]]]; simpl; try lia.
  destruct (is_empty ports_str); [reflexivity |].
  destruct (fold_left _ _ _) as [m' hp]. reflexivity.
Qed.

Lemma process_lines_total (lines : list string) (st : collector) :
  total (fold_left process_line lines st)
  = total st + Z.of_nat (length (List.filter counted_line lines)).
Proof.
  revert st. induction lines as [| l lines IH]; intros st; simpl; [lia |].
  rewrite IH, process_line_total.
  destruct (counted_line l); simpl length; lia.
Qed.

(** What the collector counts: the counted lines of the listing after its
    leading and trailing white space has been removed. *)
Lemma containers_total_counts (stdout : string) :
  containers_total (snd (collect_docker_port_mappings (Completed stdout)))
  = Z.of_nat (length (List.filter counted_line
                        (py_splitlines (py_strip stdout)))).
Proof.
  unfold collect_docker_port_mappings.
  destruct (is_empty (py_strip stdout)) eqn:He.
  - destruct (py_strip stdout); [reflexivity | discriminate].
  - destruct (py_splitlines (py_strip stdout)) as [| l lines] eqn:Hl;
      [reflexivity |].
    cbn [snd containers_total]. rewrite process_lines_total. reflexivity.
Qed.

(** C4 fails on a listing whose last container publishes no port: its line
    has the four fields, the last one empty, but removing the white space
    around the whole listing removes the final tab with the final newline,
    the line is left with three fields and is skipped.  The same container
    is counted when it is not the last line. *)
Theorem last_container_without_ports_is_not_counted :
  let alone := Fixtures.idle_line ++ Fixtures.newline "" in
  let last := Fixtures.nginx_line ++ Fixtures.newline Fixtures.idle_line
              ++ Fixtures.newline "" in
  let first := Fixtures.idle_line ++ Fixtures.newline Fixtures.nginx_line
               ++ Fixtures.newline "" in
  List.map (fun l => length (py_split TAB l)) (py_splitlines alone) = [4%nat] /\
  containers_total (snd (collect_docker_port_mappings (Completed alone))) = 0 /\
  List.map (fun l => length (py_split TAB l)) (py_splitlines last)
    = [4%nat; 4%nat] /\
  containers_total (snd (collect_docker_port_mappings (Completed last))) = 1 /\
  containers_total (snd (collect_docker_port_mappings (Completed first))) = 2.
Proof. vm_compute. repeat split; reflexivity. Qed.

(** ** Text lemmas *)

#[local] Arguments Ascii.eqb : simpl never.

Lemma append_nil_l (s : string) : EmptyString ++ s = s.
Proof. reflexivity. Qed.

Lemma append_cons (c : ascii) (a b : string) :
  String c a ++ b = String c (a ++ b).
Proof. reflexivity. Qed.

Lemma append_assoc (a b c : string) : (a ++ b) ++ c = a ++ (b ++ c).
Proof.
  induction a as [| x a IH]; [reflexivity |].
  rewrite !append_cons, IH. reflexivity.
Qed.

Lemma is_empty_append (a b : string) :
  is_empty (a ++ b) = is_empty a && is_empty b.
Proof. destruct a; reflexivity. Qed.

Lemma all_chars_append (p : ascii -> bool) (a b : string) :
  all_chars p (a ++ b) = all_chars p a && all_chars p b.
Proof.
  induction a as [| x a IH]; [reflexivity |].
  rewrite append_cons. simpl. rewrite IH, andb_assoc. reflexivity.
Qed.

Lemma all_chars_impl (p q : ascii -> bool) (s : string) :
  (forall c, p c = true -> q c = true) ->
  all_chars p s = true -> all_chars q s = true.
Proof.
  intros Hpq. induction s as [| x s IH]; [reflexivity |]. simpl.
  rewrite !andb_true_iff. intros [Hx Hs]. auto.
Qed.

(** *** [strip] *)

Lemma lstrip_by_head (p : ascii -> bool) (c : ascii) (r : string) :
  p c = false -> lstrip_by p (String c r) = String c r.
Proof. intros H. simpl. rewrite H. reflexivity. Qed.

Lemma rstrip_by_solid (p : ascii -> bool) (s : string) :
  all_chars (fun c => negb (p c)) s = true -> rstrip_by p s = s.
Proof.
  induction s as [| x s IH]; [reflexivity |]. simpl.
  rewrite andb_true_iff, negb_true_iff. intros [Hx Hs].
  rewrite (IH Hs), Hx, andb_false_r. reflexivity.
Qed.

Lemma rstrip_by_append (p : ascii -> bool) (a b : string) :
  rstrip_by p b = b -> is_empty b = false -> rstrip_by p (a ++ b) = a ++ b.
Proof.
  intros Hb Hne. induction a as [| x a IH]; [exact Hb |].
  rewrite append_cons. simpl. rewrite IH, is_empty_append, Hne, andb_false_r.
  reflexivity.
Qed.

Lemma solid_head (p : ascii -> bool) (s : string) :
  all_chars (fun c => negb (p c)) s = true -> is_empty s = false ->
  exists c r, s = String c r /\ p c = false.
Proof.
  destruct s as [| c r]; [discriminate |]. simpl.
  rewrite andb_true_iff, negb_true_iff. intros [Hc _] _. eauto.
Qed.

Lemma strip_by_solid (p : ascii -> bool) (s : string) :
  all_chars (fun c => negb (p c)) s = true -> strip_by p s = s.
Proof.
  intros Hs. unfold strip_by. destruct s as [| c r]; [reflexivity |].
  assert (Hc : p c = false).
  { simpl in Hs. apply andb_true_iff in Hs as [Hc _].
    apply negb_true_iff, Hc. }
  rewrite (lstrip_by_head p c r Hc). apply rstrip_by_solid, Hs.
Qed.

(** A text that begins and ends with a word of other characters is not
    changed. *)
Lemma strip_by_between (p : ascii -> bool) (a m b : string) :
  all_chars (fun c => negb (p c)) a = true -> is_empty a = false ->
  all_chars (fun c => negb (p c)) b = true -> is_empty b = false ->
  strip_by p (a ++ m ++ b) = a ++ m ++ b.
Proof.
  intros Ha Hane Hb Hbne. unfold strip_by.
  destruct (solid_head p a Ha Hane) as (c & r & -> & Hc).
  rewrite append_cons, (lstrip_by_head p c _ Hc), <- append_cons.
  rewrite <- append_assoc.
  apply rstrip_by_append; [apply rstrip_by_solid, Hb | exact Hbne].
Qed.

Lemma strip_by_not_empty (p : ascii -> bool) (a m b : string) :
  all_chars (fun c => negb (p c)) m = true -> is_empty m = false ->
  is_empty (strip_by p (a ++ m ++ b)) = false.
Proof.
  intros Hm Hne.
  destruct (solid_head p m Hm Hne) as (c & r & -> & Hc). clear Hm Hne.
  unfold strip_by. induction a as [| x a IH].
  - rewrite append_nil_l, append_cons, (lstrip_by_head p c _ Hc).
    simpl. rewrite Hc, andb_false_r. reflexivity.
  - rewrite append_cons. simpl. destruct (p x) eqn:Hx; [exact IH |].
    simpl. rewrite Hx, andb_false_r. reflexivity.
Qed.

(** *** [split] on a character *)

Lemma py_split_cons (c : ascii) (s : string) :
  exists h t, py_split c s = h :: t.
Proof.
  induction s as [| x s (h & t & IH)]; simpl; [eauto |].
  rewrite IH. destruct (Ascii.eqb x c); eauto.
Qed.

Lemma py_split_none (c : ascii) (s : string) :
  all_chars (fun x => negb (Ascii.eqb x c)) s = true -> py_split c s = [s].
Proof.
  induction s as [| x s IH]; [reflexivity |]. simpl.
  rewrite andb_true_iff, negb_true_iff. intros [Hx Hs].
  rewrite (IH Hs), Hx. reflexivity.
Qed.

Lemma py_split_append (c : ascii) (a b : string) :
  all_chars (fun x => negb (Ascii.eqb x c)) a = true ->
  py_split c (a ++ String c b) = a :: py_split c b.
Proof.
  induction a as [| x a IH].
  - intros _. rewrite append_nil_l. simpl.
    destruct (py_split_cons c b) as (h & t & ->).
    rewrite Ascii.eqb_refl. reflexivity.
  - simpl all_chars. rewrite andb_true_iff, negb_true_iff. intros [Hx Ha].
    rewrite append_cons. simpl. rewrite (IH Ha), Hx. reflexivity.
Qed.

(** *** [split(sep, 1)] and [rsplit(sep, 1)] *)

Lemma py_partition_char (c : ascii) (a b : string) :
  all_chars (fun x => negb (Ascii.eqb x c)) a = true ->
  py_partition (String c EmptyString) (a ++ String c b) = Some (a, b).
Proof.
  induction a as [| x a IH].
  - intros _. rewrite append_nil_l. simpl. rewrite Ascii.eqb_refl. reflexivity.
  - simpl all_chars. rewrite andb_true_iff, negb_true_iff. intros [Hx Ha].
    rewrite append_cons. simpl. rewrite (Ascii.eqb_sym c x), Hx.
    simpl in IH. rewrite (IH Ha). reflexivity.
Qed.

Lemma py_partition_arrow (a b : string) :
  all_chars (fun x => negb (Ascii.eqb x ">")) a = true ->
  py_partition "->" (a ++ "->" ++ b) = Some (a, b).
Proof.
  induction a as [| x a IH].
  - intros _. reflexivity.
  - simpl all_chars. rewrite andb_true_iff, negb_true_iff. intros [Hx Ha].
    rewrite append_cons.
    assert (Hnone : strip_prefix "->" (String x (a ++ "->" ++ b)) = None).
    { cbn [strip_prefix]. destruct (Ascii.eqb "-" x); [| reflexivity].
      destruct a as [| y a]; [reflexivity |].
      rewrite append_cons. cbn [strip_prefix].
      simpl in Ha. apply andb_true_iff in Ha as [Hy _].
      apply negb_true_iff in Hy. rewrite (Ascii.eqb_sym ">" y), Hy.
      reflexivity. }
    cbn [py_partition]. rewrite Hnone.
    fold (py_partition "->" (a ++ "->" ++ b)).
    rewrite (IH Ha). reflexivity.
Qed.

Lemma py_rpartition_none (c : ascii) (s : string) :
  all_chars (fun x => negb (Ascii.eqb x c)) s = true ->
  py_rpartition c s = None.
Proof.
  induction s as [| x s IH]; [reflexivity |]. simpl.
  rewrite andb_true_iff, negb_true_iff. intros [Hx Hs].
  rewrite (IH Hs), Hx. reflexivity.
Qed.

Lemma py_rpartition_append (c : ascii) (a b : string) :
  all_chars (fun x => negb (Ascii.eqb x c)) b = true ->
  py_rpartition c (a ++ String c b) = Some (a, b).
Proof.
  intros Hb. induction a as [| x a IH].
  - rewrite append_nil_l. simpl.
    rewrite (py_rpartition_none c b Hb), Ascii.eqb_refl. reflexivity.
  - rewrite append_cons. simpl. rewrite IH. reflexivity.
Qed.

(** *** Brackets *)

Lemma endswith_append (c : ascii) (a : string) :
  endswith c (a ++ String c EmptyString) = true.
Proof.
  induction a as [| x a IH]; [apply Ascii.eqb_refl |].
  rewrite append_cons. simpl.
  destruct (a ++ String c EmptyString) eqn:E; [| exact IH].
  destruct a; discriminate.
Qed.

Lemma drop_last_append (c : ascii) (a : string) :
  drop_last (a ++ String c EmptyString) = a.
Proof.
  induction a as [| x a IH]; [reflexivity |].
  rewrite append_cons.
  destruct (a ++ String c EmptyString) as [| y r] eqn:E;
    [destruct a; discriminate |].
  change (drop_last (String x (String y r)))
    with (String x (drop_last (String y r))).
  rewrite IH. reflexivity.
Qed.

(** *** [lower] *)

Lemma py_lower_fixed (s : string) :
  all_chars (fun c => Ascii.eqb (lower_char c) c) s = true -> py_lower s = s.
Proof.
  induction s as [| x s IH]; [reflexivity |]. simpl.
  rewrite andb_true_iff, Ascii.eqb_eq. intros [-> Hs].
  rewrite (IH Hs). reflexivity.
Qed.

(** ** One entry of the ports field *)

Ltac by_char c :=
  let H := fresh "H" in
  destruct c as [[] [] [] [] [] [] [] []]; vm_compute; intros H;
  first [discriminate H | repeat split; reflexivity].

Lemma digit_not_space (c : ascii) : is_digit c = true -> not_space c = true.
Proof. by_char c. Qed.

Lemma digit_not_char (c : ascii) :
  is_digit c = true ->
  not_char ">" c = true /\ not_char ":" c = true /\ not_char "/" c = true /\
  not_char "," c = true /\ not_char TAB c = true.
Proof. by_char c. Qed.

Lemma lower_letter_class (c : ascii) :
  is_lower_letter c = true ->
  not_space c = true /\ not_char "," c = true /\ not_char TAB c = true /\
  Ascii.eqb (lower_char c) c = true.
Proof. by_char c. Qed.

Lemma ipv4_char_class (c : ascii) :
  is_ipv4_char c = true ->
  not_space c = true /\ not_char ">" c = true /\ not_char "," c = true /\
  not_char TAB c = true /\ not_char ":" c = true /\ not_char "[" c = true.
Proof. by_char c. Qed.

Lemma ipv6_char_class (c : ascii) :
  is_ipv6_char c = true ->
  not_space c = true /\ not_char ">" c = true /\ not_char "," c = true /\
  not_char TAB c = true.
Proof. by_char c. Qed.

Lemma space_not_tab_comma (c : ascii) :
  not_space c = true -> not_char TAB c = true.
Proof. by_char c. Qed.


Lemma digit_not_gt c : is_digit c = true -> not_char ">" c = true.
Proof. intros H. apply digit_not_char, H. Qed.
Lemma digit_not_colon c : is_digit c = true -> not_char ":" c = true.
Proof. intros H. apply digit_not_char, H. Qed.
Lemma digit_not_slash c : is_digit c = true -> not_char "/" c = true.
Proof. intros H. apply digit_not_char, H. Qed.
Lemma digit_not_comma c : is_digit c = true -> not_char "," c = true.
Proof. intros H. apply digit_not_char, H. Qed.
Lemma lower_not_space c : is_lower_letter c = true -> not_space c = true.
Proof. intros H. apply lower_letter_class, H. Qed.
Lemma lower_not_comma c : is_lower_letter c = true -> not_char "," c = true.
Proof. intros H. apply lower_letter_class, H. Qed.
Lemma lower_fixed c :
  is_lower_letter c = true -> Ascii.eqb (lower_char c) c = true.
Proof. intros H. apply lower_letter_class, H. Qed.
Lemma ipv4_not_space c : is_ipv4_char c = true -> not_space c = true.
Proof. intros H. apply ipv4_char_class, H. Qed.
Lemma ipv4_not_gt c : is_ipv4_char c = true -> not_char ">" c = true.
Proof. intros H. apply ipv4_char_class, H. Qed.
Lemma ipv4_not_comma c : is_ipv4_char c = true -> not_char "," c = true.
Proof. intros H. apply ipv4_char_class, H. Qed.
Lemma ipv4_not_colon c : is_ipv4_char c = true -> not_char ":" c = true.
Proof. intros H. apply ipv4_char_class, H. Qed.
Lemma ipv4_not_bracket c : is_ipv4_char c = true -> not_char "[" c = true.
Proof. intros H. apply ipv4_char_class, H. Qed.
Lemma ipv6_not_space c : is_ipv6_char c = true -> not_space c = true.
Proof. intros H. apply ipv6_char_class, H. Qed.
Lemma ipv6_not_gt c : is_ipv6_char c = true -> not_char ">" c = true.
Proof. intros H. apply ipv6_char_class, H. Qed.
Lemma ipv6_not_comma c : is_ipv6_char c = true -> not_char "," c = true.
Proof. intros H. apply ipv6_char_class, H. Qed.


(** [all_chars q s] for a text [s] put together from literals and from
    pieces known to lie in a smaller class. *)
Ltac class_step H :=
  let ch := fresh "ch" in
  let Hch := fresh "Hch" in
  apply (fun Hi => all_chars_impl _ _ _ Hi H);
  intros ch Hch; cbv beta;
  first
    [ exact Hch
    | apply digit_not_space, Hch | apply digit_not_gt, Hch
    | apply digit_not_colon, Hch | apply digit_not_slash, Hch
    | apply digit_not_comma, Hch
    | apply space_not_tab_comma, digit_not_space, Hch
    | apply lower_not_space, Hch | apply lower_not_comma, Hch
    | apply lower_fixed, Hch
    | apply space_not_tab_comma, lower_not_space, Hch
    | apply ipv4_not_space, Hch | apply ipv4_not_gt, Hch
    | apply ipv4_not_comma, Hch | apply ipv4_not_colon, Hch
    | apply ipv4_not_bracket, Hch
    | apply space_not_tab_comma, ipv4_not_space, Hch
    | apply ipv6_not_space, Hch | apply ipv6_not_gt, Hch
    | apply ipv6_not_comma, Hch
    | apply space_not_tab_comma, ipv6_not_space, Hch
    | apply space_not_tab_comma, Hch ].

Ltac chars_atom :=
  match goal with
  | |- all_chars _ ?s = true =>
      first
        [ reflexivity
        | match goal with
          | H : all_chars _ s = true |- _ => solve [exact H | class_step H]
          end ]
  end.

Ltac chars :=
  repeat (rewrite all_chars_append; apply andb_true_iff; split);
  chars_atom.

Lemma py_strip_solid (s : string) :
  all_chars not_space s = true -> py_strip s = s.
Proof. apply strip_by_solid. Qed.

(** An entry [host:port->port/proto] of plain pieces is recorded under the
    key made of its protocol, its host address without brackets and its
    host port. *)
Lemma process_entry_published
    (name cid image host hp cp proto : string) (p c : Z)
    (acc : docker_map * bool) :
  all_chars not_space host = true ->
  all_chars (not_char ">") host = true ->
  all_chars is_digit hp = true -> py_int hp = Some p ->
  all_chars is_digit cp = true -> py_int cp = Some c ->
  all_chars is_lower_letter proto = true -> is_empty proto = false ->
  let entry := host ++ ":" ++ hp ++ "->" ++ cp ++ "/" ++ proto in
  process_entry name cid image acc entry
  = (<[(proto, unbracket host, p) := make_info name cid image entry (PInt c)]>
       (fst acc), true).
Proof.
  intros Hhs Hhg Hhp Hp Hcp Hc Hpr Hne entry.
  assert (Hentry : entry = (host ++ ":" ++ hp) ++ "->" ++ (cp ++ "/" ++ proto)).
  { unfold entry. rewrite !append_assoc. reflexivity. }
  unfold process_entry. rewrite Hentry at 1.
  rewrite py_partition_arrow by chars.
  rewrite (py_strip_solid (host ++ ":" ++ hp)) by chars.
  rewrite (py_strip_solid (cp ++ "/" ++ proto)) by chars.
  change (cp ++ "/" ++ proto) with (cp ++ String "/" proto).
  rewrite py_partition_char by chars.
  rewrite py_lower_fixed by chars.
  rewrite (py_strip_solid proto) by chars.
  rewrite Hne.
  change (host ++ ":" ++ hp) with (host ++ String ":" hp).
  rewrite py_rpartition_append by chars.
  rewrite (py_strip_solid host) by chars.
  rewrite Hp, Hc. reflexivity.
Qed.

(** ** One line of the listing *)

Lemma tabs_append (s : string) : TABS ++ s = String TAB s.
Proof. reflexivity. Qed.

Lemma py_strip_between (a m b : string) :
  all_chars not_space a = true -> is_empty a = false ->
  all_chars not_space b = true -> is_empty b = false ->
  py_strip (a ++ m ++ b) = a ++ m ++ b.
Proof. apply strip_by_between. Qed.

Lemma py_strip_not_empty (a m b : string) :
  all_chars not_space m = true -> is_empty m = false ->
  is_empty (py_strip (a ++ m ++ b)) = false.
Proof. apply strip_by_not_empty. Qed.

Lemma py_strip_leading_space (s : string) :
  all_chars not_space s = true -> py_strip (" " ++ s) = s.
Proof.
  intros Hs. unfold py_strip, strip_by.
  change (lstrip_by is_space (" " ++ s)) with (lstrip_by is_space s).
  apply (strip_by_solid is_space s Hs).
Qed.

Lemma unbracket_bracketed (s : string) : unbracket ("[" ++ s ++ "]") = s.
Proof.
  unfold unbracket.
  change (startswith "[" ("[" ++ s ++ "]")) with true.
  replace ("[" ++ s ++ "]") with (("[" ++ s) ++ String "]" EmptyString)
    by (rewrite append_assoc; reflexivity).
  rewrite endswith_append. cbn [andb].
  change (slice_1_m1 (("[" ++ s) ++ String "]" EmptyString))
    with (drop_last (s ++ String "]" EmptyString)).
  apply drop_last_append.
Qed.

Lemma unbracket_ipv4 (s : string) :
  all_chars is_ipv4_char s = true -> unbracket s = s.
Proof.
  unfold unbracket. destruct s as [| c r]; [reflexivity |]. simpl.
  rewrite andb_true_iff. intros [Hc _].
  apply ipv4_not_bracket in Hc. unfold not_char in Hc.
  apply negb_true_iff in Hc. rewrite Hc. reflexivity.
Qed.

(** A line with the two mappings of one container port: what the loop body
    does with it. *)
Lemma process_line_two_mappings
    (st : collector)
    (name cid image ip4 ip6 hp4 hp6 cp proto : string) (p4 p6 c : Z) :
  all_chars (not_char TAB) name = true ->
  all_chars (not_char TAB) cid = true ->
  all_chars (not_char TAB) image = true ->
  all_chars is_ipv4_char ip4 = true ->
  all_chars is_ipv6_char ip6 = true ->
  all_chars is_digit hp4 = true -> py_int hp4 = Some p4 ->
  all_chars is_digit hp6 = true -> py_int hp6 = Some p6 ->
  all_chars is_digit cp = true -> py_int cp = Some c ->
  all_chars is_lower_letter proto = true -> is_empty proto = false ->
  let e4 := ip4 ++ ":" ++ hp4 ++ "->" ++ cp ++ "/" ++ proto in
  let e6 := ("[" ++ ip6 ++ "]") ++ ":" ++ hp6 ++ "->" ++ cp ++ "/" ++ proto in
  let line := name ++ TABS ++ cid ++ TABS ++ image ++ TABS ++ e4 ++ ", " ++ e6 in
  process_line st line
  = {| mapping :=
         <[(proto, ip6, p6) :=
             make_info (py_strip name) (py_strip cid) (py_strip image) e6 (PInt c)]>
         (<[(proto, ip4, p4) :=
              make_info (py_strip name) (py_strip cid) (py_strip image) e4 (PInt c)]>
            (mapping st));
       total := total st + 1;
       published := {[py_strip name]} ∪ published st |}.
Proof.
  intros Hname Hcid Himage Hip4 Hip6 Hhp4 Hp4 Hhp6 Hp6 Hcp Hc Hproto Hne e4 e6 line.
  assert (Hs4 : all_chars not_space e4 = true) by (unfold e4; chars).
  assert (Hs6 : all_chars not_space e6 = true) by (unfold e6; chars).
  assert (Hn4 : is_empty e4 = false).
  { unfold e4. rewrite !is_empty_append. simpl. apply andb_false_r. }
  assert (Hn6 : is_empty e6 = false) by reflexivity.
  assert (Hc4 : all_chars (not_char ",") e4 = true) by (unfold e4; chars).
  assert (Hc6 : all_chars (not_char ",") e6 = true) by (unfold e6; chars).
  assert (Ht4 : all_chars (not_char TAB) e4 = true).
  { apply (all_chars_impl _ _ _ space_not_tab_comma Hs4). }
  assert (Ht6 : all_chars (not_char TAB) e6 = true).
  { apply (all_chars_impl _ _ _ space_not_tab_comma Hs6). }
  set (ports := e4 ++ ", " ++ e6).
  assert (Hports : py_strip ports = ports).
  { apply py_strip_between; assumption. }
  assert (Hpne : is_empty ports = false).
  { unfold ports. rewrite is_empty_append, Hn4. reflexivity. }
  assert (Hblank : is_empty (py_strip line) = false).
  { replace line with ((name ++ TABS ++ cid ++ TABS ++ image ++ TABS)
                        ++ e4 ++ (", " ++ e6))
      by (unfold line; rewrite !append_assoc; reflexivity).
    apply py_strip_not_empty; assumption. }
  assert (Hsplit : py_split TAB line = [name; cid; image; ports]).
  { unfold line. rewrite !tabs_append.
    rewrite !py_split_append by assumption.
    rewrite py_split_none; [reflexivity |].
    fold ports. unfold ports. chars. }
  assert (Hentries : port_entries ports = [e4; e6]).
  { unfold port_entries, ports.
    change (e4 ++ ", " ++ e6) with (e4 ++ String "," (" " ++ e6)).
    rewrite py_split_append by exact Hc4.
    rewrite py_split_none.
    2: { change (" " ++ e6) with (String " " e6). cbn [all_chars].
         apply andb_true_iff. split; [reflexivity | exact Hc6]. }
    cbn [List.filter].
    rewrite (py_strip_solid e4 Hs4), (py_strip_leading_space e6 Hs6), Hn4, Hn6.
    cbn [negb List.map].
    rewrite (py_strip_solid e4 Hs4), (py_strip_leading_space e6 Hs6).
    reflexivity. }
  unfold process_line. rewrite Hblank, Hsplit. cbn [List.map].
  rewrite Hports, Hpne, Hentries. cbn [fold_left].
  unfold e4 at 1.
  rewrite (process_entry_published _ _ _ ip4 hp4 cp proto p4 c) by (assumption || chars).
  unfold e6 at 1.
  rewrite (process_entry_published _ _ _ ("[" ++ ip6 ++ "]") hp6 cp proto p6 c)
    by (assumption || chars).
  rewrite unbracket_bracketed, (unbracket_ipv4 ip4 Hip4). reflexivity.
Qed.

(** The same listing through the whole collector. *)
Example nginx_listing_collected :
  let '(m, meta) := collect_docker_port_mappings
                      (Completed (Fixtures.nginx_line ++ Fixtures.newline ""))
  in
  List.map fst (map_to_list m)
    = [("tcp", "::", 8080); ("tcp", "0.0.0.0", 8080)] /\
  containers_total meta = 1 /\ containers_with_published_ports meta = 1.
Proof. vm_compute. auto. Qed.

(** ** The sample host, end to end *)

Lemma enumeration_failure_aborts_report_witness :
  main (Fixtures.sample_world (Completed Fixtures.nginx_line)
          (Raise AccessDenied))
       (Fixtures.sample_args (Some 8080))
  = ([], Raise AccessDenied).
Proof.
  exact (proj1 (proj2 (enumeration_failure_aborts_report
           (Fixtures.sample_world (Completed Fixtures.nginx_line)
              (Raise AccessDenied))
           (Fixtures.sample_args (Some 8080)) AccessDenied eq_refl))).
Defined.

Lemma sample_world_builds :
  exists r, build_report (Fixtures.sample_world (Completed Fixtures.nginx_line)
                            (Ok [Fixtures.web_socket])) = Ok r.
Proof.
  destruct (build_report _) as [r | e] eqn:Hb; [eauto |].
  exfalso. vm_compute in Hb. discriminate Hb.
Qed.

Lemma sample_world_calls_succeed (ps : run_outcome) (conns : result (list sconn))
    (args : Args) (r : Report) :
  report_calls_succeed (Fixtures.sample_world ps conns) args r.
Proof. repeat split; reflexivity. Qed.


Lemma report_written_once_before_port_check_witness :
  let w := Fixtures.sample_world (Completed Fixtures.nginx_line)
             (Ok [Fixtures.web_socket]) in
  exists r check_events,
    build_report w = Ok r /\
    fst (main w (Fixtures.sample_args (Some 9090)))
    = (fst (main w (Fixtures.sample_args None)) ++ check_events)%list /\
    List.filter is_json_write (fst (main w (Fixtures.sample_args None)))
    = [EvWriteText "/opt/tools/port_usage_report.json" (JsonOf r)] /\
    List.filter is_connect check_events = [EvConnectEx "127.0.0.1" 9090].
Proof.
  intros w.
  pose proof (report_written_once_before_port_check w
                (Fixtures.sample_args None) 9090) as H.
  cbv zeta in H.
  destruct H as (check_events & Hpre & _ & _ & _ & _ & H).
  destruct sample_world_builds as [r Hb]. fold w in Hb.
  rewrite Hb in H. destruct H as (_ & Hjson & H).
  exists r, check_events.
  split; [exact Hb |]. split; [exact Hpre |]. split; [exact Hjson |].
  pose proof (main_plain w (with_check_port None (Fixtures.sample_args None))
                eq_refl) as Hplain.
  rewrite (report_part_succeeds w _ r Hb
             (sample_world_calls_succeed _ _ _ r)) in Hplain.
  rewrite Hplain in H. cbn [snd] in H.
  destruct H as (_ & _ & _ & Hconn). exact (Hconn eq_refl).
Defined.

(** ** The text primitives on sample texts *)

Example strip_sample :
  py_strip ("  a b" ++ Fixtures.tab (Fixtures.newline "")) = "a b".
Proof. reflexivity. Qed.

Example split_sample :
  py_split "," "a,,b," = ["a"; ""; "b"; ""] /\ py_split "," "" = [""].
Proof. split; reflexivity. Qed.

Example partition_sample :
  py_partition "->" "0.0.0.0:80->80/tcp->x" = Some ("0.0.0.0:80", "80/tcp->x") /\
  py_partition "->" "80/tcp" = None /\
  py_rpartition ":" "[::]:8080" = Some ("[::]", "8080").
Proof. repeat split; reflexivity. Qed.

Example splitlines_sample :
  py_splitlines ("a" ++ Fixtures.newline (Fixtures.newline
                   ("b" ++ String CR (Fixtures.newline
                      ("c" ++ Fixtures.newline "")))))
  = ["a"; ""; "b"; "c"].
Proof. reflexivity. Qed.

Example int_sample :
  py_int " 8_080 " = Some 8080 /\ py_int "-7" = Some (-7) /\
  py_int "007" = Some 7 /\ py_int "80a" = None /\ py_int "" = None /\
  py_int "1__0" = None /\ py_int "_1" = None /\ py_int "+ 1" = None.
Proof. repeat split; reflexivity. Qed.

Example port_range_sample :
  get_ip_local_port_range
    (Some (Ok ("32768" ++ Fixtures.tab ("60999" ++ Fixtures.newline ""))))
  = Some (32768, 60999).
Proof. reflexivity. Qed.

(* ===================================================================== *)
(** * Further properties *)
(* ===================================================================== *)

Import Shapes.

(** ** More on texts *)

Lemma lower_char_idem (c : ascii) : lower_char (lower_char c) = lower_char c.
Proof. destruct c as [[] [] [] [] [] [] [] []]; reflexivity. Qed.

Lemma is_space_lower_char (c : ascii) : is_space (lower_char c) = is_space c.
Proof. destruct c as [[] [] [] [] [] [] [] []]; reflexivity. Qed.

Lemma py_lower_idem (s : string) : py_lower (py_lower s) = py_lower s.
Proof.
  induction s as [| c s IH]; [reflexivity |]. simpl.
  rewrite lower_char_idem, IH. reflexivity.
Qed.

Lemma is_empty_py_lower (s : string) : is_empty (py_lower s) = is_empty s.
Proof. destruct s; reflexivity. Qed.

Lemma py_lower_lstrip (s : string) :
  py_lower (lstrip_by is_space s) = lstrip_by is_space (py_lower s).
Proof.
  induction s as [| c s IH]; [reflexivity |]. simpl.
  rewrite is_space_lower_char. destruct (is_space c); [exact IH | reflexivity].
Qed.

Lemma py_lower_rstrip (s : string) :
  py_lower (rstrip_by is_space s) = rstrip_by is_space (py_lower s).
Proof.
  induction s as [| c s IH]; [reflexivity |]. simpl.
  rewrite <- IH, is_empty_py_lower, is_space_lower_char.
  destruct (is_empty (rstrip_by is_space s) && is_space c); reflexivity.
Qed.

Lemma py_lower_strip (s : string) : py_lower (py_strip s) = py_strip (py_lower s).
Proof.
  unfold py_strip, strip_by. rewrite py_lower_rstrip, py_lower_lstrip.
  reflexivity.
Qed.

Lemma lstrip_by_head_clear (p : ascii -> bool) (s : string) :
  head_clear p (lstrip_by p s) = true.
Proof.
  induction s as [| c s IH]; [reflexivity |]. simpl.
  destruct (p c) eqn:Hc; [exact IH |]. simpl. rewrite Hc. reflexivity.
Qed.

Lemma lstrip_by_fixed (p : ascii -> bool) (s : string) :
  head_clear p s = true -> lstrip_by p s = s.
Proof.
  destruct s as [| c s]; [reflexivity |]. simpl.
  intros H. apply negb_true_iff in H. rewrite H. reflexivity.
Qed.

Lemma rstrip_by_head_clear (p : ascii -> bool) (s : string) :
  head_clear p s = true -> head_clear p (rstrip_by p s) = true.
Proof.
  destruct s as [| c s]; [reflexivity |]. simpl. intros H.
  apply negb_true_iff in H. rewrite H, andb_false_r. simpl. rewrite H.
  reflexivity.
Qed.

Lemma rstrip_by_idem (p : ascii -> bool) (s : string) :
  rstrip_by p (rstrip_by p s) = rstrip_by p s.
Proof.
  induction s as [| c s IH]; [reflexivity |]. simpl.
  destruct (is_empty (rstrip_by p s) && p c) eqn:E; [reflexivity |].
  simpl. rewrite IH, E. reflexivity.
Qed.

Lemma strip_by_idem (p : ascii -> bool) (s : string) :
  strip_by p (strip_by p s) = strip_by p s.
Proof.
  unfold strip_by.
  rewrite (lstrip_by_fixed p (rstrip_by p (lstrip_by p s))).
  - apply rstrip_by_idem.
  - apply rstrip_by_head_clear, lstrip_by_head_clear.
Qed.

Lemma py_strip_idem (s : string) : py_strip (py_strip s) = py_strip s.
Proof. apply strip_by_idem. Qed.

(** ** Invariants of the collector *)

Lemma proto_normal_default (raw : string) :
  let p := py_strip (py_lower raw) in
  proto_normal (if is_empty p then "tcp" else p).
Proof.
  intros p. destruct (is_empty p) eqn:He.
  - repeat split; reflexivity.
  - unfold p. repeat split.
    + exact He.
    + rewrite py_lower_strip, py_lower_idem. reflexivity.
    + apply py_strip_idem.
Qed.

(** One entry either changes nothing or stores one value of the expected
    shape for the container of the line. *)
Lemma process_entry_cases (name cid image : string) (acc : docker_map * bool)
    (entry : string) :
  process_entry name cid image acc entry = acc \/
  exists proto host port cp,
    proto_normal proto /\
    is_Some (py_partition "->" entry) /\
    ((exists n, cp = PInt n) \/ (exists s, cp = PStr s)) /\
    process_entry name cid image acc entry
    = (<[(proto, host, port) := make_info name cid image entry cp]> (fst acc),
       true).
Proof.
  unfold process_entry.
  destruct (py_partition "->" entry) as [[l r] |] eqn:Hp; [| left; reflexivity].
  destruct (py_partition "/" (py_strip r)) as [[cps pr] |].
  all: destruct (py_rpartition ":" (py_strip l)) as [[hip hps] |];
    [| left; reflexivity].
  all: destruct (py_int hps) as [hp |]; [| left; reflexivity].
  all: right; eexists; eexists; eexists; eexists.
  all: split; [apply proto_normal_default |].
  all: split; [eexists; reflexivity |].
  all: split; [| reflexivity].
  all: destruct (py_int _); eauto.
Qed.

Lemma mapping_shaped_empty : mapping_shaped ∅.
Proof. intros k d H. rewrite lookup_empty in H. discriminate. Qed.

Lemma mapping_shaped_insert (m : docker_map) (proto host : string) (port : Z)
    (d : docker_info) :
  mapping_shaped m -> proto_normal proto -> info_complete d ->
  mapping_shaped (<[(proto, host, port) := d]> m).
Proof.
  intros Hm Hp Hd k d'. rewrite lookup_insert.
  case_decide as E; [| apply Hm].
  intros [= <-]. subst k. split; assumption.
Qed.

(** What the loop over the entries of one line keeps and changes. *)
Lemma process_entries_inv (name cid image : string) (entries : list string)
    (acc : docker_map * bool) :
  let r := fold_left (process_entry name cid image) entries acc in
  (mapping_shaped (fst acc) -> mapping_shaped (fst r)) /\
  (snd r = false -> r = acc) /\
  (snd acc = true -> snd r = true) /\
  (snd r = true -> snd acc = true \/ fst r <> ∅) /\
  (fst acc <> ∅ -> fst r <> ∅) /\
  (forall k d, fst r !! k = Some d ->
     fst acc !! k = Some d \/ dict_get d "container_name" = PStr name).
Proof.
  revert acc. induction entries as [| e entries IH]; intros acc; simpl.
  - split; [auto |]. split; [auto |]. split; [auto |]. split; [auto |].
    split; auto.
  - specialize (IH (process_entry name cid image acc e)). simpl in IH.
    destruct IH as (I1 & I2 & I3 & I4 & I5 & I6).
    destruct (process_entry_cases name cid image acc e)
      as [Heq | (proto & host & port & cp & Hpn & Harrow & Hcp & Heq)].
    + rewrite Heq in *.
      split; [assumption |]. split; [assumption |]. split; [assumption |].
      split; [assumption |]. split; assumption.
    + rewrite Heq in *. simpl in *.
      split; [| split; [| split; [| split; [| split]]]].
      * intros Hm. apply I1, mapping_shaped_insert; [assumption.. |].
        exists name, cid, image, e, cp. auto.
      * intros Hf. rewrite (I3 eq_refl) in Hf. discriminate.
      * intros _. apply I3. reflexivity.
      * intros _. right. apply I5, insert_non_empty.
      * intros _. apply I5, insert_non_empty.
      * intros k d Hk. destruct (I6 k d Hk) as [Hold | Hnew]; [| auto].
        rewrite lookup_insert in Hold. case_decide as E; [| auto].
        injection Hold as <-. right. reflexivity.
Qed.

Lemma size_add_one (x : string) (X : gset string) :
  (size ({[x]} ∪ X) <= S (size X))%nat.
Proof.
  rewrite size_union_alt, size_singleton.
  assert (size (X ∖ {[x]}) <= size X)%nat by (apply subseteq_size; set_solver).
  lia.
Qed.

Lemma process_line_ok (st : collector) (line : string) :
  collector_ok st -> collector_ok (process_line st line).
Proof.
  intros Hok. pose proof Hok as (Hshape & Hiff & Hle). unfold process_line.
  destruct (is_empty (py_strip line)); [exact Hok |].
  destruct (List.map py_strip (py_split TAB line))
    as [| name [| cid [| image [| ports_str rest]]]]; try exact Hok.
  destruct (is_empty ports_str).
  { split; [exact Hshape |]. split; [exact Hiff |]. simpl. lia. }
  pose proof (process_entries_inv name cid image (port_entries ports_str)
                (mapping st, false)) as Hinv.
  simpl in Hinv.
  destruct (fold_left _ _ _) as [m' hp]. simpl in Hinv.
  destruct Hinv as (I1 & I2 & I3 & I4 & I5 & I6).
  unfold collector_ok. simpl. destruct hp.
  - split; [auto |]. split.
    + split.
      * intros Hm. destruct (I4 eq_refl) as [H | H]; [discriminate | contradiction].
      * intros He. exfalso. set_solver.
    + pose proof (size_add_one name (published st)). lia.
  - injection (I2 eq_refl) as ->. split; [auto |]. split; [exact Hiff | lia].
Qed.

Lemma process_lines_ok (lines : list string) (st : collector) :
  collector_ok st -> collector_ok (fold_left process_line lines st).
Proof.
  revert st. induction lines as [| l lines IH]; intros st H; simpl; [exact H |].
  apply IH, process_line_ok, H.
Qed.

Lemma initial_collector_ok : collector_ok initial_collector.
Proof.
  split; [apply mapping_shaped_empty |]. split.
  - simpl. tauto.
  - vm_compute. discriminate.
Qed.

Lemma collector_output_ok (run : run_outcome) :
  let m := fst (collect_docker_port_mappings run) in
  let meta := snd (collect_docker_port_mappings run) in
  mapping_shaped m /\
  (m = ∅ <-> containers_with_published_ports meta = 0) /\
  0 <= containers_with_published_ports meta <= containers_total meta /\
  (available meta = false -> m = ∅).
Proof.
  unfold collect_docker_port_mappings.
  assert (Hnone : forall a e : bool,
    mapping_shaped (∅ : docker_map) /\
    ((∅ : docker_map) = ∅ <-> (0 : Z) = 0) /\
    0 <= 0 <= 0 /\ (a = e -> (∅ : docker_map) = ∅)).
  { intros. split; [apply mapping_shaped_empty |]. split; [tauto |].
    split; [lia | reflexivity]. }
  destruct run as [| text | stdout]; simpl;
    try exact (Hnone false false).
  destruct (is_empty (py_strip stdout)); [exact (Hnone true false) |].
  destruct (py_splitlines (py_strip stdout)) as [| l lines];
    [exact (Hnone true false) |].
  pose proof (process_lines_ok (l :: lines) initial_collector
                initial_collector_ok) as (Hshape & Hiff & Hle).
  cbn [fold_left] in Hshape, Hiff, Hle.
  cbn [fst snd containers_with_published_ports containers_total available].
  split; [exact Hshape |]. split; [| split; [lia | discriminate]].
  rewrite Hiff. split.
  - intros ->. reflexivity.
  - intros H. apply leibniz_equiv, size_empty_iff. lia.
Qed.

(** X1: in the metadata of every listing, the number of containers with
    published ports is at least zero and at most the total number of
    containers. *)
Theorem published_containers_at_most_total (run : run_outcome) :
  let meta := snd (collect_docker_port_mappings run) in
  0 <= containers_with_published_ports meta <= containers_total meta.
Proof. apply collector_output_ok. Qed.

(** X2: the mapping is empty exactly when the metadata counts no container
    with published ports; in particular it is empty whenever [available] is
    false. *)
Theorem mapping_empty_iff_none_published (run : run_outcome) :
  let m := fst (collect_docker_port_mappings run) in
  let meta := snd (collect_docker_port_mappings run) in
  (m = ∅ <-> containers_with_published_ports meta = 0) /\
  (available meta = false -> m = ∅).
Proof.
  destruct (collector_output_ok run) as (_ & H1 & _ & H2). split; assumption.
Qed.

Lemma mapping_empty_iff_none_published_witness :
  fst (collect_docker_port_mappings (CalledProcessError "exit status 1")) = ∅.
Proof.
  apply (proj2 (mapping_empty_iff_none_published
                  (CalledProcessError "exit status 1"))).
  reflexivity.
Defined.

(** X3: every key of the mapping has a protocol tag that is not empty, in
    lower case and without white space around, and every value has the
    five keys, with texts for the identity and the port specification
    (which contains the arrow) and a number or a text for the container
    port. *)
Theorem collector_mapping_is_shaped (run : run_outcome) :
  mapping_shaped (fst (collect_docker_port_mappings run)).
Proof. apply collector_output_ok. Qed.

(** ** More on the correlator *)

Lemma record_proto_tag (m : docker_map) (procs : Z -> proc_view) (conn : sconn)
    (r : PortRecord) :
  conn_record m procs conn = Ok (Some r) ->
  proto r = "tcp" \/ proto r = "udp" \/ proto r = "other".
Proof.
  intros H. apply conn_record_Some in H as (_ & _ & _ & Hp & _).
  rewrite Hp. destruct (conn_type conn); simpl; auto.
Qed.

(** X4: every record is the one the loop body makes for an entry of the
    enumeration, with the address, port and process id of that entry, and
    is tagged "tcp", "udp" or "other" after the kind of that entry's
    socket (stream, datagram, anything else); in the output the records
    tagged "other" come first, then those tagged "tcp", then those tagged
    "udp". *)
Theorem records_grouped_by_protocol
    (conns : list sconn) (procs : Z -> proc_view) (dm : option docker_map)
    (records : list PortRecord)
    (Hrun : collect_port_usage (Ok conns) procs dm = Ok records) :
  (forall r, In r records ->
     exists conn, In conn conns /\
       conn_record (default ∅ dm) procs conn = Ok (Some r) /\
       laddr_ip conn = Some (ip r) /\ laddr_port conn = Some (port r) /\
       pid r = conn_pid conn /\
       proto r = proto_of (conn_type conn) /\
       (proto r = "tcp" <-> conn_type conn = SOCK_STREAM) /\
       (proto r = "udp" <-> conn_type conn = SOCK_DGRAM)) /\
  (forall (i j : nat) (a b : PortRecord),
     (i < j)%nat -> records !! i = Some a -> records !! j = Some b ->
     (proto_rank (proto a) <= proto_rank (proto b))%nat).
Proof.
  split.
  - intros r Hin.
    destruct (collect_port_usage_In _ _ _ _ _ Hrun Hin) as [conn [Hc Hr]].
    pose proof (conn_record_Some _ _ _ _ Hr) as (_ & Hi & Hn & Hp & _ & Hpid & _).
    exists conn. split; [exact Hc |]. split; [exact Hr |].
    split; [exact Hi |]. split; [exact Hn |]. split; [exact Hpid |].
    split; [exact Hp |].
    rewrite Hp. destruct (conn_type conn); simpl; split; split;
      solve [reflexivity | discriminate].
  - intros i j a b Hij Ha Hb.
    assert (Hta : proto a = "tcp" \/ proto a = "udp" \/ proto a = "other").
    { assert (Hin : In a records)
        by (apply list_elem_of_In, list_elem_of_lookup; eauto).
      destruct (collect_port_usage_In _ _ _ _ _ Hrun Hin) as [conn [_ Hr]].
      eapply record_proto_tag, Hr. }
    assert (Htb : proto b = "tcp" \/ proto b = "udp" \/ proto b = "other").
    { assert (Hin : In b records)
        by (apply list_elem_of_In, list_elem_of_lookup; eauto).
      destruct (collect_port_usage_In _ _ _ _ _ Hrun Hin) as [conn [_ Hr]].
      eapply record_proto_tag, Hr. }
    apply collect_port_usage_Ok in Hrun as [_ ->].
    pose proof (sorted_lookup _ _
      (py_sort_sorted key_lt sort_key key_lt_irrefl key_lt_trans key_lt_total
         (omap (record_of (default ∅ dm) procs) conns)) i j a b Hij Ha Hb) as Hs.
    apply key_le_spelled in Hs.
    destruct Hta as [Ea | [Ea | Ea]], Htb as [Eb | [Eb | Eb]];
      rewrite Ea, Eb in Hs |- *; try (vm_compute; lia).
    all: exfalso; destruct Hs as [H | [[H _] | [H _]]].
    all: first [discriminate H | vm_compute in H; discriminate H].
Qed.

Lemma records_grouped_by_protocol_witness :
  exists records,
    collect_port_usage
      (Ok [Fixtures.web_socket;
           {| conn_type := SOCK_RAW; laddr_ip := Some "0.0.0.0";
              laddr_port := Some 1; conn_status := CONN_LISTEN;
              conn_pid := None |}])
      Fixtures.sample_procs None = Ok records /\
    List.map proto records = ["other"; "tcp"] /\
    forall (i j : nat) (a b : PortRecord),
      (i < j)%nat -> records !! i = Some a -> records !! j = Some b ->
      (proto_rank (proto a) <= proto_rank (proto b))%nat.
Proof.
  eexists. split; [vm_compute; reflexivity |]. split; [reflexivity |].
  apply (proj2 (records_grouped_by_protocol
           [Fixtures.web_socket;
            {| conn_type := SOCK_RAW; laddr_ip := Some "0.0.0.0";
               laddr_port := Some 1; conn_status := CONN_LISTEN;
               conn_pid := None |}]
           Fixtures.sample_procs None _ eq_refl)).
Defined.

(** The loop body looks a process up only for a listening entry with a
    process id that is neither [None] nor 0. *)
Lemma conn_record_ext (m : docker_map) (procs procs' : Z -> proc_view)
    (conn : sconn) :
  (forall p, is_listener conn = true -> pid_truthy (conn_pid conn) = Some p ->
             procs p = procs' p) ->
  conn_record m procs conn = conn_record m procs' conn.
Proof.
  intros H. destruct (is_listener conn) eqn:Hl.
  - unfold conn_record.
    destruct (pid_truthy (conn_pid conn)) as [p |]; [| reflexivity].
    rewrite (H p eq_refl eq_refl). reflexivity.
  - rewrite !conn_record_not_listener by exact Hl. reflexivity.
Qed.

(** X5: the output depends on the process table only through the process
    ids of listening entries (with address and port) whose id is neither
    missing nor zero: no other process is ever looked up. *)
Theorem lookups_only_for_listeners
    (conns : list sconn) (procs procs' : Z -> proc_view)
    (dm : option docker_map)
    (Hagree : forall conn p, In conn conns -> is_listener conn = true ->
                pid_truthy (conn_pid conn) = Some p -> procs p = procs' p) :
  collect_port_usage (Ok conns) procs dm = collect_port_usage (Ok conns) procs' dm.
Proof.
  rewrite !collect_port_usage_unfold.
  assert (Hloop : forall acc,
    collect_loop (default ∅ dm) procs conns acc
    = collect_loop (default ∅ dm) procs' conns acc).
  { induction conns as [| c conns IH]; intros acc; [reflexivity |].
    cbn [collect_loop].
    rewrite (conn_record_ext _ procs procs' c)
      by (intros p Hl Hp; apply (Hagree c p); [left; reflexivity | | ]; assumption).
    destruct (conn_record _ procs' c) as [[r |] | e]; try reflexivity.
    all: apply IH; intros conn p Hin; apply Hagree; right; exact Hin. }
  rewrite Hloop. reflexivity.
Qed.

Lemma lookups_only_for_listeners_witness :
  collect_port_usage
    (Ok [Fixtures.web_socket; Fixtures.established_socket])
    Fixtures.sample_procs None
  = collect_port_usage
      (Ok [Fixtures.web_socket; Fixtures.established_socket])
      (fun _ => Fixtures.gone) None.
Proof.
  apply lookups_only_for_listeners.
  intros conn p [<- | [<- | []]] Hl Hp; discriminate.
Defined.

(** The [try] block only lets through exceptions outside its handler. *)
Lemma attribute_process_raises (pv : proc_view) (e : exn) :
  attribute_process pv = Raise e -> lookup_handled e = false.
Proof.
  unfold attribute_process, leave_try.
  destruct (pv_open pv) as [[] | eo].
  2: { destruct (lookup_handled eo) eqn:H; intros [= <-]; exact H. }
  destruct (pv_name pv) as [n | en].
  2: { destruct (lookup_handled en) eqn:H; intros [= <-]; exact H. }
  destruct (pv_cmdline pv) as [c | ec].
  2: { destruct (lookup_handled ec) eqn:H; intros [= <-]; exact H. }
  destruct (pv_username pv) as [u | eu]; [discriminate |].
  destruct (lookup_handled eu) eqn:H; intros [= <-]; exact H.
Qed.

Lemma collect_loop_raise (m : docker_map) (procs : Z -> proc_view)
    (pre post : list sconn) (conn : sconn) (e : exn) (acc : list PortRecord) :
  Forall (fun c => is_raise (conn_record m procs c) = false) pre ->
  conn_record m procs conn = Raise e ->
  collect_loop m procs (pre ++ conn :: post)%list acc = Raise e.
Proof.
  intros Hpre Hc. revert acc.
  induction Hpre as [| c pre Hok _ IH]; intros acc; simpl.
  - rewrite Hc. reflexivity.
  - destruct (conn_record m procs c) as [[r |] | e']; [apply IH.. | discriminate].
Qed.

(** X6: an exception outside the three handled ones, raised while a process
    of a listening socket is looked up, ends the correlator, the report
    builder and the entry point with that exception: nothing is written or
    printed, and the exit status is 1.  The first such socket in
    enumeration order decides which exception it is. *)
Theorem unhandled_lookup_error_aborts_run
    (w : World) (args : Args) (pre post : list sconn) (conn : sconn)
    (ip0 : string) (port0 p : Z) (e : exn)
    (Hconns : w_net_connections w = Ok (pre ++ conn :: post)%list)
    (Hpre : forall c q, In c pre -> is_listener c = true ->
              pid_truthy (conn_pid c) = Some q ->
              is_raise (attribute_process (w_process w q)) = false)
    (Hstatus : conn_status conn = CONN_LISTEN)
    (Hip : laddr_ip conn = Some ip0) (Hport : laddr_port conn = Some port0)
    (Hpid : pid_truthy (conn_pid conn) = Some p)
    (Hraise : attribute_process (w_process w p) = Raise e) :
  lookup_handled e = false /\
  (forall dm, collect_port_usage (w_net_connections w) (w_process w) dm
              = Raise e) /\
  build_report w = Raise e /\
  main w args = ([], Raise e) /\
  exit_status (main w args) = 1.
Proof.
  split; [exact (attribute_process_raises _ _ Hraise) |].
  assert (Hcol : forall dm,
    collect_port_usage (w_net_connections w) (w_process w) dm = Raise e).
  { intros dm. rewrite Hconns, collect_port_usage_unfold.
    rewrite (collect_loop_raise _ _ pre post conn e); [reflexivity | |].
    - apply List.Forall_forall. intros c Hin.
      destruct (is_listener c) eqn:Hl.
      + unfold conn_record.
        apply is_listener_spec in Hl as Hl'.
        destruct Hl' as (Hs & [i Hi] & [n Hn]).
        rewrite Hs, String.eqb_refl, Hi, Hn. simpl.
        destruct (pid_truthy (conn_pid c)) as [q |] eqn:Hq.
        * specialize (Hpre c q Hin Hl Hq).
          destruct (attribute_process (w_process w q)); [| discriminate].
          destruct (_ !! _); [destruct (dict_truthy _) |]; reflexivity.
        * destruct (_ !! _); [destruct (dict_truthy _) |]; reflexivity.
      + rewrite conn_record_not_listener by exact Hl. reflexivity.
    - unfold conn_record.
      rewrite Hstatus, String.eqb_refl, Hip, Hport, Hpid, Hraise. reflexivity. }
  assert (Hb : build_report w = Raise e).
  { unfold build_report.
    destruct (collect_docker_port_mappings (w_docker_ps w)) as [m meta].
    rewrite Hcol. reflexivity. }
  split; [exact Hcol |]. split; [exact Hb |].
  rewrite (main_build_failure w args e Hb). split; reflexivity.
Qed.

Lemma unhandled_lookup_error_aborts_run_witness :
  main MoreFixtures.broken_world (Fixtures.sample_args None)
  = ([], Raise (OSError "Input/output error")).
Proof.
  refine (proj1 (proj2 (proj2 (proj2
    (unhandled_lookup_error_aborts_run MoreFixtures.broken_world
       (Fixtures.sample_args None) [Fixtures.web_socket]
       [Fixtures.sshd_socket] MoreFixtures.broken_socket "0.0.0.0" 443 30
       (OSError "Input/output error") eq_refl _ eq_refl eq_refl eq_refl
       eq_refl eq_refl))))).
  intros c q [<- | []] _ Hq. discriminate Hq.
Defined.

(** ** The report as a whole *)

Lemma dict_get_make_info (name cid image entry : string) (cp : pyval) :
  let d := make_info name cid image entry cp in
  dict_get d "container_name" = PStr name /\
  dict_get d "container_id" = PStr cid /\
  dict_get d "image" = PStr image /\
  dict_get d "port_spec" = PStr entry /\
  dict_get d "container_port" = cp.
Proof. vm_compute. repeat split; reflexivity. Qed.

(** X7: in a report, a record that carries container fields carries them
    as texts (the container port as a number or a text), never as null, and
    the container section of the same report then says that the listing
    was available and counts at least one container with published ports. *)
Theorem report_container_fields_consistent
    (w : World) (report : Report) (r : PortRecord)
    (Hbuild : build_report w = Ok report)
    (Hin : In r (ports report))
    (Hfields : has_docker_fields r = true) :
  available (docker report) = true /\
  1 <= containers_with_published_ports (docker report) /\
  is_text (docker_container_name r) /\
  is_text (docker_container_id r) /\
  is_text (docker_image r) /\
  is_text (docker_port_spec r) /\
  is_text_or_number (docker_container_port r).
Proof.
  unfold build_report in Hbuild.
  pose proof (collector_output_ok (w_docker_ps w)) as Hok.
  pose proof (collector_well_formed (w_docker_ps w)) as Hwf.
  destruct (collect_docker_port_mappings (w_docker_ps w)) as [m meta].
  simpl in Hok, Hwf. destruct Hok as (Hshape & Hiff & Hrange & Hav).
  destruct (collect_port_usage (w_net_connections w) (w_process w) (Some m))
    as [records | e] eqn:Hrun; [| discriminate].
  injection Hbuild as <-. simpl in *.
  destruct (w_net_connections w) as [conns | e]; [| discriminate].
  destruct (collect_port_usage_In _ _ _ _ _ Hrun Hin) as [conn [_ Hr]].
  simpl in Hr.
  pose proof (docker_fields_of_match m _ _ _ Hwf Hr) as Hmatch.
  destruct (m !! (proto r, ip r, port r)) as [d |] eqn:Hk.
  2: { rewrite (has_lacks_docker_fields r Hmatch) in Hfields. discriminate. }
  assert (Hne : m <> ∅).
  { intros ->. rewrite lookup_empty in Hk. discriminate. }
  split.
  { destruct (available meta); [reflexivity |].
    exfalso. apply Hne, Hav. reflexivity. }
  split.
  { assert (containers_with_published_ports meta <> 0) by tauto. lia. }
  destruct (Hshape _ _ Hk) as (_ & name & cid & image & entry & cp & -> & _ & Hcp).
  destruct Hmatch as (_ & H1 & H2 & H3 & H4 & H5).
  destruct (dict_get_make_info name cid image entry cp) as (G1 & G2 & G3 & G4 & G5).
  rewrite G1 in H1. rewrite G2 in H2. rewrite G3 in H3. rewrite G4 in H4.
  rewrite G5 in H5.
  unfold is_text, is_text_or_number. rewrite H1, H2, H3, H4, H5.
  repeat split; eauto.
  destruct Hcp as [[n ->] | [s ->]]; eauto.
Qed.

Lemma report_container_fields_consistent_witness :
  exists report r,
    build_report (Fixtures.sample_world (Completed Fixtures.nginx_line)
                    (Ok [Fixtures.web_socket; Fixtures.metrics_socket]))
    = Ok report /\
    In r (ports report) /\ port r = 8080 /\
    1 <= containers_with_published_ports (docker report) /\
    is_text (docker_container_name r).
Proof.
  eexists. eexists. split; [vm_compute; reflexivity |].
  split; [left; reflexivity |]. split; [reflexivity |].
  destruct (report_container_fields_consistent
              (Fixtures.sample_world (Completed Fixtures.nginx_line)
                 (Ok [Fixtures.web_socket; Fixtures.metrics_socket]))
              _ _ ltac:(vm_compute; reflexivity) ltac:(left; reflexivity)
              eq_refl)
    as (_ & Hcount & Hname & _).
  split; [exact Hcount | exact Hname].
Defined.

(** ** More on [strip], [split] and the arrow *)

Lemma py_partition_arrow_none (s : string) :
  all_chars (not_char ">") s = true -> py_partition "->" s = None.
Proof.
  induction s as [| x s IH]; [reflexivity |].
  cbn [all_chars]. rewrite andb_true_iff. intros [Hx Hs].
  assert (Hnone : strip_prefix "->" (String x s) = None).
  { cbn [strip_prefix]. destruct (Ascii.eqb "-" x); [| reflexivity].
    destruct s as [| y s]; [reflexivity |]. cbn [strip_prefix].
    cbn [all_chars] in Hs. apply andb_true_iff in Hs as [Hy _].
    unfold not_char in Hy. apply negb_true_iff in Hy.
    rewrite (Ascii.eqb_sym ">" y), Hy. reflexivity. }
  cbn [py_partition]. rewrite Hnone.
  fold (py_partition "->" s). rewrite (IH Hs). reflexivity.
Qed.

Lemma all_chars_lstrip (p q : ascii -> bool) (s : string) :
  all_chars q s = true -> all_chars q (lstrip_by p s) = true.
Proof.
  induction s as [| c s IH]; [reflexivity |]. simpl.
  rewrite andb_true_iff. intros [Hc Hs].
  destruct (p c); [apply IH, Hs |]. simpl. rewrite Hc, Hs. reflexivity.
Qed.

Lemma all_chars_rstrip (p q : ascii -> bool) (s : string) :
  all_chars q s = true -> all_chars q (rstrip_by p s) = true.
Proof.
  induction s as [| c s IH]; [reflexivity |]. simpl.
  rewrite andb_true_iff. intros [Hc Hs].
  destruct (is_empty (rstrip_by p s) && p c); [reflexivity |].
  simpl. rewrite Hc, (IH Hs). reflexivity.
Qed.

Lemma all_chars_strip (p q : ascii -> bool) (s : string) :
  all_chars q s = true -> all_chars q (strip_by p s) = true.
Proof. intros H. apply all_chars_rstrip, all_chars_lstrip, H. Qed.

Lemma all_chars_split (q : ascii -> bool) (c : ascii) (s : string) :
  all_chars q s = true -> Forall (fun e => all_chars q e = true) (py_split c s).
Proof.
  induction s as [| x s IH]; [repeat constructor |]. simpl.
  rewrite andb_true_iff. intros [Hx Hs]. specialize (IH Hs).
  destruct (py_split_cons c s) as (h & t & E). rewrite E in *.
  apply Forall_cons in IH as [Hh Ht].
  destruct (Ascii.eqb x c); repeat constructor; try assumption.
  simpl. rewrite Hx, Hh. reflexivity.
Qed.

(** The pieces of a split do not contain the separator. *)
Lemma py_split_pieces (c : ascii) (s : string) :
  Forall (fun e => all_chars (not_char c) e = true) (py_split c s).
Proof.
  induction s as [| x s IH]; [repeat constructor |]. simpl.
  destruct (py_split_cons c s) as (h & t & E). rewrite E in *.
  apply Forall_cons in IH as [Hh Ht].
  destruct (Ascii.eqb x c) eqn:Ex; repeat constructor; try assumption.
  simpl. unfold not_char at 1. rewrite Ex, Hh. reflexivity.
Qed.

(** A text is blank exactly when all its characters are in the class. *)
Lemma lstrip_by_all (p : ascii -> bool) (s : string) :
  is_empty (lstrip_by p s) = all_chars p s.
Proof.
  induction s as [| c s IH]; [reflexivity |]. simpl.
  destruct (p c); [exact IH | reflexivity].
Qed.

Lemma rstrip_by_empty (p : ascii -> bool) (s : string) :
  is_empty (rstrip_by p s) = all_chars p s.
Proof.
  induction s as [| c s IH]; [reflexivity |]. simpl.
  rewrite <- IH.
  destruct (is_empty (rstrip_by p s)), (p c); reflexivity.
Qed.

Lemma strip_by_blank (p : ascii -> bool) (s : string) :
  is_empty (strip_by p s) = all_chars p s.
Proof.
  unfold strip_by. rewrite rstrip_by_empty.
  induction s as [| c s IH]; [reflexivity |]. simpl.
  destruct (p c) eqn:Hc; [exact IH |]. simpl. rewrite Hc. reflexivity.
Qed.

Lemma py_strip_blank (s : string) : is_empty (py_strip s) = all_chars is_space s.
Proof. apply strip_by_blank. Qed.

(** ** More on the lines and entries of the listing *)

Lemma port_entries_clean (ports_str e : string) :
  In e (port_entries ports_str) ->
  is_empty e = false /\ py_strip e = e /\
  all_chars (not_char ",") e = true /\
  forall q, all_chars q ports_str = true -> all_chars q e = true.
Proof.
  intros Hin. unfold port_entries in Hin.
  apply in_map_iff in Hin as (x & <- & Hx).
  apply filter_In in Hx as [Hx Hne].
  apply negb_true_iff in Hne.
  split; [exact Hne |]. split; [apply py_strip_idem |]. split.
  - apply all_chars_strip.
    pose proof (py_split_pieces "," ports_str) as H.
    rewrite List.Forall_forall in H. apply H, Hx.
  - intros q Hq. apply all_chars_strip.
    pose proof (all_chars_split q "," ports_str Hq) as H.
    rewrite List.Forall_forall in H. apply H, Hx.
Qed.

(** X8: the entries the inner loop goes through are never empty, have no
    white space around them and contain no comma; each is a piece of the
    ports field. *)
Theorem port_entries_are_clean (ports_str e : string)
    (Hin : In e (port_entries ports_str)) :
  is_empty e = false /\ py_strip e = e /\
  all_chars (not_char ",") e = true /\
  forall q, all_chars q ports_str = true -> all_chars q e = true.
Proof. apply port_entries_clean, Hin. Qed.

Lemma port_entries_are_clean_witness :
  port_entries " 80/tcp, ,0.0.0.0:443->443/tcp " = ["80/tcp"; "0.0.0.0:443->443/tcp"] /\
  py_strip "0.0.0.0:443->443/tcp" = "0.0.0.0:443->443/tcp".
Proof.
  split; [reflexivity |].
  apply (port_entries_are_clean " 80/tcp, ,0.0.0.0:443->443/tcp "
           "0.0.0.0:443->443/tcp").
  right. left. reflexivity.
Defined.

Lemma process_line_skip (st : collector) (line : string) :
  counted_line line = false -> process_line st line = st.
Proof.
  unfold counted_line, process_line.
  destruct (is_empty (py_strip line)); [reflexivity |]. simpl.
  rewrite <- (length_map py_strip (py_split TAB line)).
  destruct (List.map py_strip (py_split TAB line))
    as [| name [| cid [| image [| ports_str rest]]]]; simpl;
    intros H; try reflexivity; discriminate.
Qed.

(** X9: blank lines and lines with fewer than four tab-separated fields
    change nothing: the loop over the listing ends in the same state as the
    loop over its other lines alone. *)
Theorem malformed_lines_are_skipped (lines : list string) (st : collector) :
  fold_left process_line lines st
  = fold_left process_line (List.filter counted_line lines) st /\
  (forall line, counted_line line = false -> process_line st line = st).
Proof.
  split; [| intros line; apply process_line_skip].
  revert st. induction lines as [| l lines IH]; intros st; [reflexivity |].
  cbn [fold_left List.filter].
  destruct (counted_line l) eqn:Hl.
  - cbn [fold_left]. apply IH.
  - rewrite (process_line_skip st l Hl). apply IH.
Qed.

Lemma malformed_lines_are_skipped_witness :
  process_line initial_collector ("nginx" ++ TABS ++ "3f2a9c1d0b7e" ++ TABS)
  = initial_collector.
Proof.
  apply (proj2 (malformed_lines_are_skipped [] initial_collector)).
  vm_compute. reflexivity.
Defined.

Lemma process_entries_no_arrow (name cid image : string)
    (entries : list string) (acc : docker_map * bool) :
  Forall (fun e => all_chars (not_char ">") e = true) entries ->
  fold_left (process_entry name cid image) entries acc = acc.
Proof.
  induction 1 as [| e entries He _ IH]; [reflexivity |]. simpl.
  unfold process_entry at 2. rewrite (py_partition_arrow_none e He). exact IH.
Qed.

(** A line of four fields whose ports field holds no arrow: the loop body
    counts the container and changes nothing else. *)
Lemma process_line_unpublished
    (st : collector) (name cid image ports : string)
    (Hname : all_chars (not_char TAB) name = true)
    (Hblank : is_empty (py_strip name) = false)
    (Hcid : all_chars (not_char TAB) cid = true)
    (Himage : all_chars (not_char TAB) image = true)
    (Hports : all_chars (not_char TAB) ports = true)
    (Harrow : all_chars (not_char ">") ports = true) :
  process_line st (name ++ TABS ++ cid ++ TABS ++ image ++ TABS ++ ports)
  = {| mapping := mapping st; total := total st + 1;
       published := published st |}.
Proof.
  set (line := name ++ TABS ++ cid ++ TABS ++ image ++ TABS ++ ports).
  assert (Hline : is_empty (py_strip line) = false).
  { rewrite py_strip_blank in *. unfold line.
    rewrite all_chars_append, Hblank. reflexivity. }
  assert (Hsplit : py_split TAB line = [name; cid; image; ports]).
  { unfold line. rewrite !tabs_append.
    rewrite !py_split_append by assumption.
    rewrite py_split_none by assumption. reflexivity. }
  unfold process_line. rewrite Hline, Hsplit. cbn [List.map].
  destruct (is_empty (py_strip ports)); [reflexivity |].
  rewrite process_entries_no_arrow; [reflexivity |].
  apply List.Forall_forall. intros e He.
  apply (port_entries_clean _ e He).
  apply all_chars_strip, Harrow.
Qed.

(** X11: an entry whose host port does not read as an integer (a port
    range such as 8000-8010, a service name) is skipped whole: it stores
    nothing and does not mark the container as publishing. *)
Theorem entry_with_unreadable_host_port_is_skipped
    (name cid image host hp rest : string) (acc : docker_map * bool)
    (Hhost_space : all_chars not_space host = true)
    (Hhost_gt : all_chars (not_char ">") host = true)
    (Hhp_space : all_chars not_space hp = true)
    (Hhp_gt : all_chars (not_char ">") hp = true)
    (Hhp_colon : all_chars (not_char ":") hp = true)
    (Hint : py_int hp = None) :
  process_entry name cid image acc (host ++ ":" ++ hp ++ "->" ++ rest) = acc.
Proof.
  assert (Hentry : host ++ ":" ++ hp ++ "->" ++ rest
                   = (host ++ ":" ++ hp) ++ "->" ++ rest).
  { rewrite !append_assoc. reflexivity. }
  unfold process_entry. rewrite Hentry.
  rewrite py_partition_arrow by chars.
  rewrite (py_strip_solid (host ++ ":" ++ hp)) by chars.
  change (host ++ ":" ++ hp) with (host ++ String ":" hp).
  rewrite py_rpartition_append by exact Hhp_colon.
  rewrite Hint.
  destruct (py_partition "/" (py_strip rest)) as [[a b] |]; reflexivity.
Qed.

Lemma entry_with_unreadable_host_port_is_skipped_witness :
  process_entry "web" "3f2a9c1d0b7e" "nginx" (∅, false)
    "0.0.0.0:8000-8010->8000-8010/tcp" = (∅, false).
Proof.
  exact (entry_with_unreadable_host_port_is_skipped
           "web" "3f2a9c1d0b7e" "nginx" "0.0.0.0" "8000-8010" "8000-8010/tcp"
           (∅, false) eq_refl eq_refl eq_refl eq_refl eq_refl eq_refl).
Defined.

Lemma all_chars_py_lower_not_space (s : string) :
  all_chars not_space s = true -> all_chars not_space (py_lower s) = true.
Proof.
  induction s as [| c s IH]; [reflexivity |]. simpl.
  unfold not_space at 1 3. rewrite is_space_lower_char, !andb_true_iff.
  intros [Hc Hs]. auto.
Qed.

(** X12: an entry [host:port->cport/proto] is stored under the protocol in
    lower case ("tcp" when the protocol is missing or empty), the host
    without surrounding brackets and the host port as a number; the
    container port is stored as a number when it reads as one and as the
    text itself otherwise; the whole entry is kept as the port
    specification. *)
Theorem entry_is_stored_normalised
    (name cid image host hp cp proto : string) (p : Z)
    (acc : docker_map * bool)
    (Hhost_space : all_chars not_space host = true)
    (Hhost_gt : all_chars (not_char ">") host = true)
    (Hhp : all_chars is_digit hp = true) (Hp : py_int hp = Some p)
    (Hcp_space : all_chars not_space cp = true)
    (Hcp_slash : all_chars (not_char "/") cp = true)
    (Hproto : all_chars not_space proto = true) :
  let key_proto := if is_empty proto then "tcp" else py_lower proto in
  let port_value :=
    match py_int cp with Some n => PInt n | None => PStr cp end in
  let with_proto := host ++ ":" ++ hp ++ "->" ++ cp ++ "/" ++ proto in
  let without := host ++ ":" ++ hp ++ "->" ++ cp in
  process_entry name cid image acc with_proto
  = (<[(key_proto, unbracket host, p) :=
         make_info name cid image with_proto port_value]> (fst acc), true) /\
  process_entry name cid image acc without
  = (<[("tcp", unbracket host, p) :=
         make_info name cid image without port_value]> (fst acc), true).
Proof.
  intros key_proto port_value with_proto without.
  assert (E1 : with_proto = (host ++ ":" ++ hp) ++ "->" ++ (cp ++ "/" ++ proto)).
  { unfold with_proto. rewrite !append_assoc. reflexivity. }
  assert (E2 : without = (host ++ ":" ++ hp) ++ "->" ++ cp).
  { unfold without. rewrite !append_assoc. reflexivity. }
  assert (Hleft : py_rpartition ":" (host ++ ":" ++ hp) = Some (host, hp)).
  { change (host ++ ":" ++ hp) with (host ++ String ":" hp).
    apply py_rpartition_append. chars. }
  split.
  - unfold process_entry. rewrite E1 at 1.
    rewrite py_partition_arrow by chars.
    rewrite (py_strip_solid (host ++ ":" ++ hp)) by chars.
    rewrite (py_strip_solid (cp ++ "/" ++ proto)) by chars.
    change (cp ++ "/" ++ proto) with (cp ++ String "/" proto).
    rewrite py_partition_char by exact Hcp_slash.
    rewrite (py_strip_solid (py_lower proto))
      by (apply all_chars_py_lower_not_space, Hproto).
    rewrite is_empty_py_lower, Hleft.
    rewrite (py_strip_solid host) by exact Hhost_space.
    rewrite Hp. reflexivity.
  - unfold process_entry. rewrite E2 at 1.
    rewrite py_partition_arrow by chars.
    rewrite (py_strip_solid (host ++ ":" ++ hp)) by chars.
    rewrite (py_strip_solid cp) by exact Hcp_space.
    assert (Hnone : py_partition "/" cp = None).
    { clear -Hcp_slash. induction cp as [| x s IH]; [reflexivity |].
      cbn [all_chars] in Hcp_slash. apply andb_true_iff in Hcp_slash as [Hx Hs].
      unfold not_char in Hx. apply negb_true_iff in Hx.
      cbn [py_partition strip_prefix]. rewrite (Ascii.eqb_sym "/" x), Hx.
      fold (py_partition "/" s). rewrite (IH Hs). reflexivity. }
    rewrite Hnone, Hleft.
    rewrite (py_strip_solid host) by exact Hhost_space.
    rewrite Hp. reflexivity.
Qed.

Lemma entry_is_stored_normalised_witness :
  fst (process_entry "dns" "0123456789ab" "pihole" (∅, false)
         ":::53->domain/UDP")
  = {[ ("udp", "::", 53) :=
         make_info "dns" "0123456789ab" "pihole" ":::53->domain/UDP"
           (PStr "domain") ]}.
Proof.
  rewrite (proj1 (entry_is_stored_normalised
             "dns" "0123456789ab" "pihole" "::" "53" "domain" "UDP" 53
             (∅, false) eq_refl eq_refl eq_refl eq_refl eq_refl eq_refl
             eq_refl)).
  reflexivity.
Defined.

(** X13: when two containers publish the same host addresses and ports,
    the mapping keeps the container of the later line for both keys (the
    last one wins), while both containers are counted in the total and as
    containers with published ports. *)
Theorem later_container_wins
    (st : collector)
    (name1 cid1 image1 name2 cid2 image2 : string)
    (ip4 ip6 hp4 hp6 cp1 cp2 proto : string) (p4 p6 c1 c2 : Z)
    (Hname1 : all_chars (not_char TAB) name1 = true)
    (Hcid1 : all_chars (not_char TAB) cid1 = true)
    (Himage1 : all_chars (not_char TAB) image1 = true)
    (Hname2 : all_chars (not_char TAB) name2 = true)
    (Hcid2 : all_chars (not_char TAB) cid2 = true)
    (Himage2 : all_chars (not_char TAB) image2 = true)
    (Hip4 : all_chars is_ipv4_char ip4 = true)
    (Hip6 : all_chars is_ipv6_char ip6 = true)
    (Hhp4 : all_chars is_digit hp4 = true) (Hp4 : py_int hp4 = Some p4)
    (Hhp6 : all_chars is_digit hp6 = true) (Hp6 : py_int hp6 = Some p6)
    (Hcp1 : all_chars is_digit cp1 = true) (Hc1 : py_int cp1 = Some c1)
    (Hcp2 : all_chars is_digit cp2 = true) (Hc2 : py_int cp2 = Some c2)
    (Hproto : all_chars is_lower_letter proto = true)
    (Hproto_ne : is_empty proto = false) :
  let ports cp :=
    (ip4 ++ ":" ++ hp4 ++ "->" ++ cp ++ "/" ++ proto) ++ ", "
    ++ (("[" ++ ip6 ++ "]") ++ ":" ++ hp6 ++ "->" ++ cp ++ "/" ++ proto) in
  let line1 := name1 ++ TABS ++ cid1 ++ TABS ++ image1 ++ TABS ++ ports cp1 in
  let line2 := name2 ++ TABS ++ cid2 ++ TABS ++ image2 ++ TABS ++ ports cp2 in
  let st' := process_line (process_line st line1) line2 in
  dict_get (default ∅ (mapping st' !! (proto, ip4, p4))) "container_name"
    = PStr (py_strip name2) /\
  dict_get (default ∅ (mapping st' !! (proto, ip6, p6))) "container_name"
    = PStr (py_strip name2) /\
  dict_get (default ∅ (mapping st' !! (proto, ip4, p4))) "container_port"
    = PInt c2 /\
  total st' = total st + 2 /\
  published st' = {[py_strip name2]} ∪ ({[py_strip name1]} ∪ published st).
Proof.
  intros ports line1 line2 st'. subst st' line1 line2 ports.
  cbv beta.
  rewrite !append_assoc.
  pose proof (process_line_two_mappings st name1 cid1 image1 ip4 ip6 hp4 hp6
                cp1 proto p4 p6 c1) as H1.
  cbv zeta in H1. rewrite !append_assoc in H1.
  rewrite H1 by assumption. clear H1.
  match goal with
  | |- context [process_line ?s _] =>
      pose proof (process_line_two_mappings s name2 cid2 image2 ip4 ip6 hp4
                    hp6 cp2 proto p4 p6 c2) as H2
  end.
  cbv zeta in H2. rewrite !append_assoc in H2.
  rewrite H2 by assumption. clear H2.
  cbn [mapping total published].
  destruct (decide ((proto, ip4, p4) = (proto, ip6, p6))) as [E | E].
  - rewrite <- E, !lookup_insert_eq. cbn [default].
    split; [reflexivity |]. split; [reflexivity |]. split; [reflexivity |].
    split; [lia | reflexivity].
  - rewrite lookup_insert_ne by (intros E'; apply E; symmetry; exact E').
    rewrite !lookup_insert_eq. cbn [default].
    split; [reflexivity |]. split; [reflexivity |]. split; [reflexivity |].
    split; [lia | reflexivity].
Qed.

Lemma later_container_wins_witness :
  let st' :=
    process_line (process_line initial_collector Fixtures.nginx_line)
      ("proxy" ++ TABS ++ "aa11bb22cc33" ++ TABS ++ "traefik:3" ++ TABS
       ++ "0.0.0.0:8080->8000/tcp, [::]:8080->8000/tcp") in
  dict_get (default ∅ (mapping st' !! ("tcp", "0.0.0.0", 8080))) "container_name"
    = PStr "proxy" /\
  total st' = 2.
Proof.
  destruct (later_container_wins initial_collector
              "nginx" "3f2a9c1d0b7e" "nginx:1.25"
              "proxy" "aa11bb22cc33" "traefik:3"
              "0.0.0.0" "::" "8080" "8080" "80" "8000" "tcp" 8080 8080 80 8000
              eq_refl eq_refl eq_refl eq_refl eq_refl eq_refl eq_refl eq_refl
              eq_refl eq_refl eq_refl eq_refl eq_refl eq_refl eq_refl eq_refl
              eq_refl eq_refl)
    as (H1 & _ & _ & H4 & _).
  split; [exact H1 | exact H4].
Defined.

(** ** The ephemeral port range *)

Lemma split_ws_go_word (a rest cur : string) :
  all_chars not_space a = true ->
  split_ws_go cur (a ++ rest) = split_ws_go (cur ++ a) rest.
Proof.
  revert cur. induction a as [| c a IH]; intros cur Ha.
  - rewrite append_nil_l.
    replace (cur ++ EmptyString) with cur; [reflexivity |].
    clear. induction cur as [| x cur IH]; [reflexivity |].
    rewrite append_cons, <- IH. reflexivity.
  - cbn [all_chars] in Ha. apply andb_true_iff in Ha as [Hc Ha].
    unfold not_space in Hc. apply negb_true_iff in Hc.
    rewrite append_cons. cbn [split_ws_go]. rewrite Hc.
    rewrite (IH _ Ha), append_assoc. reflexivity.
Qed.

Lemma split_ws_go_gap (sep rest : string) :
  all_chars is_space sep = true ->
  split_ws_go EmptyString (sep ++ rest) = split_ws_go EmptyString rest.
Proof.
  induction sep as [| c sep IH]; [reflexivity |].
  cbn [all_chars]. rewrite andb_true_iff. intros [Hc Hs].
  rewrite append_cons. cbn [split_ws_go]. rewrite Hc. cbn [is_empty app].
  apply IH, Hs.
Qed.

Lemma split_ws_go_end (cur sep rest : string) :
  is_empty cur = false -> all_chars is_space sep = true ->
  is_empty sep = false ->
  split_ws_go cur (sep ++ rest) = cur :: split_ws_go EmptyString rest.
Proof.
  intros Hcur Hsep Hne. destruct sep as [| c sep]; [discriminate |].
  cbn [all_chars] in Hsep. apply andb_true_iff in Hsep as [Hc Hs].
  rewrite append_cons. cbn [split_ws_go]. rewrite Hc, Hcur. cbn [app].
  f_equal. apply split_ws_go_gap, Hs.
Qed.

Lemma py_split_ws_two (a sep b : string) :
  all_chars not_space a = true -> is_empty a = false ->
  all_chars is_space sep = true -> is_empty sep = false ->
  all_chars not_space b = true -> is_empty b = false ->
  py_split_ws (a ++ sep ++ b) = [a; b].
Proof.
  intros Ha Hane Hsep Hsne Hb Hbne. unfold py_split_ws.
  rewrite (split_ws_go_word a _ EmptyString Ha), append_nil_l.
  rewrite (split_ws_go_end a sep b Hane Hsep Hsne).
  replace b with (b ++ EmptyString) at 1.
  2: { clear. induction b as [| x b IH]; [reflexivity |].
       rewrite append_cons, IH. reflexivity. }
  rewrite (split_ws_go_word b _ EmptyString Hb), append_nil_l.
  cbn [split_ws_go]. rewrite Hbne. reflexivity.
Qed.

Lemma lstrip_by_pad (p : ascii -> bool) (pad s : string) :
  all_chars p pad = true -> lstrip_by p (pad ++ s) = lstrip_by p s.
Proof.
  induction pad as [| c pad IH]; [reflexivity |].
  cbn [all_chars]. rewrite andb_true_iff. intros [Hc Hp].
  rewrite append_cons. cbn [lstrip_by]. rewrite Hc. apply IH, Hp.
Qed.

Lemma rstrip_by_pad (p : ascii -> bool) (s pad : string) :
  all_chars p pad = true -> rstrip_by p (s ++ pad) = rstrip_by p s.
Proof.
  intros Hp. induction s as [| c s IH].
  - rewrite append_nil_l. pose proof (rstrip_by_empty p pad) as H.
    rewrite Hp in H. destruct (rstrip_by p pad); [reflexivity | discriminate].
  - rewrite append_cons. cbn [rstrip_by]. rewrite IH. reflexivity.
Qed.

(** X14: the port range is [None] when the file is absent or cannot be
    read, and for a file that holds two decimal numbers separated by white
    space, with any white space before and after, it is the pair of these
    numbers; a text that does not split into exactly two words gives
    [None]. *)
Theorem port_range_is_read_from_two_words
    (pad_l lo_s sep hi_s pad_r : string) (lo hi : Z)
    (Hpad_l : all_chars is_space pad_l = true)
    (Hlo : all_chars is_digit lo_s = true) (Hlo_v : py_int lo_s = Some lo)
    (Hsep : all_chars is_space sep = true) (Hsep_ne : is_empty sep = false)
    (Hhi : all_chars is_digit hi_s = true) (Hhi_v : py_int hi_s = Some hi)
    (Hpad_r : all_chars is_space pad_r = true) :
  get_ip_local_port_range
    (Some (Ok (pad_l ++ (lo_s ++ sep ++ hi_s) ++ pad_r))) = Some (lo, hi) /\
  get_ip_local_port_range None = None /\
  (forall e, get_ip_local_port_range (Some (Raise e)) = None) /\
  (forall text, length (py_split_ws (py_strip text)) <> 2%nat ->
                get_ip_local_port_range (Some (Ok text)) = None).
Proof.
  assert (Hlo_ne : is_empty lo_s = false).
  { destruct lo_s; [discriminate Hlo_v | reflexivity]. }
  assert (Hhi_ne : is_empty hi_s = false).
  { destruct hi_s; [discriminate Hhi_v | reflexivity]. }
  assert (Hlo_sp : all_chars not_space lo_s = true).
  { apply (all_chars_impl _ _ _ digit_not_space Hlo). }
  assert (Hhi_sp : all_chars not_space hi_s = true).
  { apply (all_chars_impl _ _ _ digit_not_space Hhi). }
  split; [| split; [reflexivity | split; [reflexivity |]]].
  - unfold get_ip_local_port_range, py_strip, strip_by.
    rewrite (lstrip_by_pad is_space pad_l _ Hpad_l).
    destruct (solid_head is_space lo_s Hlo_sp Hlo_ne) as (c & r & E & Hc).
    assert (Hl : lstrip_by is_space ((lo_s ++ sep ++ hi_s) ++ pad_r)
                 = (lo_s ++ sep ++ hi_s) ++ pad_r).
    { rewrite E, !append_cons. apply lstrip_by_head, Hc. }
    rewrite Hl, (rstrip_by_pad is_space _ pad_r Hpad_r).
    rewrite (rstrip_by_append is_space lo_s (sep ++ hi_s)).
    + rewrite (py_split_ws_two lo_s sep hi_s) by assumption.
      rewrite Hlo_v, Hhi_v. reflexivity.
    + apply rstrip_by_append; [| exact Hhi_ne].
      apply rstrip_by_solid, Hhi_sp.
    + rewrite is_empty_append, Hsep_ne. reflexivity.
  - intros text Hlen. unfold get_ip_local_port_range.
    destruct (py_split_ws (py_strip text)) as [| a [| b [| c l]]];
      try reflexivity.
    exfalso. apply Hlen. reflexivity.
Qed.

Lemma port_range_is_read_from_two_words_witness :
  get_ip_local_port_range
    (Some (Ok ("32768" ++ Fixtures.tab ("60999" ++ Fixtures.newline ""))))
  = Some (32768, 60999).
Proof.
  exact (proj1 (port_range_is_read_from_two_words
           "" "32768" TABS "60999" (Fixtures.newline "") 32768 60999
           eq_refl eq_refl eq_refl eq_refl eq_refl eq_refl eq_refl eq_refl)).
Defined.

(** ** The files the entry point writes *)

(** X15: whenever the report is built, the first call of the entry point
    is the write of the JSON document, to the path given with
    [--json-path] as [pathlib] renders it when there is one and it is not
    empty, and otherwise to [<stem>.json] beside the script; a failure of
    this write ends the run at once.  The only other file ever written is
    the HTML page of the same report, with [--html], at [<stem>.html]
    beside the script whatever [--json-path] says.  When every write and
    message succeeds, each write is followed by its message, the check
    part writes nothing, and without [--check-port] the result is 0. *)
Theorem files_written_by_main (w : World) (args : Args) (r : Report)
    (Hbuild : build_report w = Ok r) :
  let script_dir := Path (w_script_dir w) in
  let json_path :=
    match arg_json_path args with
    | Some p => if is_empty p
                then path_div script_dir (w_script_stem w ++ ".json")
                else Path p
    | None => path_div script_dir (w_script_stem w ++ ".json")
    end in
  let html_path := path_div script_dir (w_script_stem w ++ ".html") in
  let json_write := EvWriteText (path_str json_path) (JsonOf r) in
  let html_write := EvWriteText (path_str html_path) (HtmlOf r) in
  (exists rest, fst (main w args) = json_write :: rest) /\
  (List.filter is_write (fst (main w args)) = [json_write] \/
   arg_html args = true /\
   List.filter is_write (fst (main w args)) = [json_write; html_write]) /\
  (forall e, w_write_text w (path_str json_path) (JsonOf r) = Raise e ->
             main w args = ([json_write], Raise e)) /\
  (report_calls_succeed w args r ->
   exists check_events,
     fst (main w args)
     = ([json_write; EvPrint (InfoJsonWritten (path_str json_path))]
        ++ (if arg_html args
            then [html_write; EvPrint (InfoHtmlWritten (path_str html_path))]
            else [])
        ++ check_events)%list /\
     List.filter is_write check_events = [] /\
     List.filter is_write (fst (main w args))
     = (json_write :: (if arg_html args then [html_write] else []))%list /\
     (arg_check_port args = None ->
      check_events = [] /\ snd (main w args) = Ok 0)).
Proof.
  intros script_dir json_path html_path json_write html_write.
  change json_path with (json_path_of w args) in *.
  change html_path with (html_path_of w) in *.
  pose proof (report_part_events w args) as (_ & _ & Hrep).
  rewrite Hbuild in Hrep. cbv zeta in Hrep.
  fold json_write html_write in Hrep.
  destruct Hrep as ((rest & Hfirst) & _ & Hwrites).
  pose proof (check_part_events w args) as (Hcw & _ & Hcheck).
  assert (Hfilter : List.filter is_write (fst (main w args))
                    = List.filter is_write (fst (report_part w args))).
  { rewrite main_fst, List.filter_app.
    destruct (snd (report_part w args)); [rewrite Hcw |]; apply app_nil_r. }
  split.
  { rewrite main_fst, Hfirst. eexists. reflexivity. }
  split; [rewrite Hfilter; exact Hwrites |].
  split.
  { intros e He. rewrite main_parts, report_part_run, Hbuild. cbv zeta.
    rewrite He. reflexivity. }
  intros Hcalls.
  pose proof (report_part_succeeds w args r Hbuild Hcalls) as Hok.
  fold json_write html_write in Hok.
  exists (fst (check_part w args)).
  split; [rewrite main_fst, Hok; cbn [fst snd]; rewrite <- app_assoc; reflexivity |].
  split; [exact Hcw |].
  split.
  { rewrite Hfilter, Hok. cbn [fst]. destruct (arg_html args); reflexivity. }
  intros Hnone. rewrite Hnone in Hcheck. rewrite main_snd, Hok, Hcheck.
  split; reflexivity.
Qed.

Lemma files_written_by_main_witness :
  exists r,
    build_report (Fixtures.sample_world (Completed Fixtures.nginx_line)
                    (Ok [Fixtures.web_socket])) = Ok r /\
    List.filter is_write
      (fst (main (Fixtures.sample_world (Completed Fixtures.nginx_line)
                    (Ok [Fixtures.web_socket]))
                 {| arg_host := "127.0.0.1"; arg_check_port := Some 9090;
                    arg_json_path := Some "/tmp//reports/./ports.json";
                    arg_html := true |}))
    = [EvWriteText "/tmp/reports/ports.json" (JsonOf r);
       EvWriteText "/opt/tools/port_usage_report.html" (HtmlOf r)].
Proof.
  destruct sample_world_builds as [r Hb].
  exists r. split; [exact Hb |].
  destruct (proj2 (proj2 (proj2 (files_written_by_main
              (Fixtures.sample_world (Completed Fixtures.nginx_line)
                 (Ok [Fixtures.web_socket]))
              {| arg_host := "127.0.0.1"; arg_check_port := Some 9090;
                 arg_json_path := Some "/tmp//reports/./ports.json";
                 arg_html := true |} r Hb)))
              (sample_world_calls_succeed _ _ _ r))
    as (check_events & _ & _ & Hw & _).
  exact Hw.
Defined.

(** X16: when the report part succeeds, the socket is created and the
    connection attempt of the port check raises something other than an
    OS error, the socket is still closed, the exception ends the run with
    exit status 1 and without a verdict message, and the report had been
    written before the check began. *)
Theorem crashing_port_check_leaves_report_written
    (w : World) (args : Args) (r : Report) (p : Z) (e : exn)
    (Hbuild : build_report w = Ok r)
    (Hcalls : report_calls_succeed w args r)
    (Hcheck : arg_check_port args = Some p)
    (Hsocket : w_socket w = Ok tt)
    (Hraise : w_connect_ex w (arg_host args) p = Raise e)
    (Hother : is_OSError e = false) :
  snd (check_port_free w (arg_host args) p default_timeout) = Raise e /\
  snd (main w args) = Raise e /\
  exit_status (main w args) = 1 /\
  fst (main w args)
  = (fst (main w (with_check_port None args))
     ++ [EvSocketOpen; EvSetTimeout default_timeout;
         EvConnectEx (arg_host args) p; EvSocketClose])%list /\
  List.filter is_json_write (fst (main w (with_check_port None args)))
  = [EvWriteText (path_str (json_path_of w args)) (JsonOf r)] /\
  snd (main w (with_check_port None args)) = Ok 0.
Proof.
  assert (Hv : snd (check_port_free w (arg_host args) p default_timeout)
               = Raise e).
  { rewrite check_port_free_value by (exact Hsocket || reflexivity).
    rewrite Hraise, Hother. reflexivity. }
  assert (Ht : fst (check_port_free w (arg_host args) p default_timeout)
               = [EvSocketOpen; EvSetTimeout default_timeout;
                  EvConnectEx (arg_host args) p; EvSocketClose]).
  { apply check_port_free_trace; [exact Hsocket | reflexivity]. }
  pose proof (report_part_succeeds w args r Hbuild Hcalls) as Hok.
  pose proof (report_part_events w args) as (_ & _ & Hrep).
  rewrite Hbuild in Hrep. cbv zeta in Hrep. destruct Hrep as (_ & Hjson & _).
  assert (Hpart : check_part w args
                  = ([EvSocketOpen; EvSetTimeout default_timeout;
                      EvConnectEx (arg_host args) p; EvSocketClose], Raise e)).
  { rewrite check_part_run, Hcheck. cbv zeta. rewrite Hv, Ht. reflexivity. }
  assert (Hplain : main w (with_check_port None args)
                   = (fst (report_part w args), Ok 0)).
  { rewrite main_plain by reflexivity. rewrite report_part_flag, Hok.
    reflexivity. }
  split; [exact Hv |].
  unfold exit_status. rewrite main_snd, main_fst, Hplain, Hpart, Hok.
  cbn [fst snd]. repeat split; try reflexivity.
  rewrite Hok in Hjson. exact Hjson.
Qed.

Lemma crashing_port_check_leaves_report_written_witness :
  let w :=
    {| w_hostname := "lab"; w_utc_now := "2024-05-01T12:00:00+00:00";
       w_docker_ps := FileNotFoundError;
       w_net_connections := Ok [Fixtures.web_socket];
       w_process := Fixtures.sample_procs;
       w_port_range_file := None;
       w_write_text := fun _ _ => Ok tt;
       w_print := fun _ => Ok tt;
       w_socket := Ok tt;
       w_connect_ex := fun _ _ => Raise (OtherError "port must be 0-65535");
       w_script_dir := "/opt/tools";
       w_script_stem := "port_usage_report" |} in
  exit_status (main w (Fixtures.sample_args (Some 70000))) = 1.
Proof.
  intros w.
  assert (Hb : exists r, build_report w = Ok r)
    by (vm_compute; eexists; reflexivity).
  destruct Hb as [r Hb].
  assert (Hcalls : report_calls_succeed w (Fixtures.sample_args (Some 70000)) r)
    by (repeat split; reflexivity).
  exact (proj1 (proj2 (proj2 (crashing_port_check_leaves_report_written
           w (Fixtures.sample_args (Some 70000)) r 70000
           (OtherError "port must be 0-65535") Hb Hcalls eq_refl eq_refl
           eq_refl eq_refl)))).
Defined.

(** ** What the container data can and cannot change *)

Lemma process_entries_grow (name cid image : string) (entries : list string)
    (acc : docker_map * bool) :
  dom (fst acc) ⊆ dom (fst (fold_left (process_entry name cid image) entries acc)).
Proof.
  revert acc. induction entries as [| e entries IH]; intros acc; simpl;
    [reflexivity |].
  etrans; [| apply IH].
  destruct (process_entry_cases name cid image acc e)
    as [-> | (proto & host & port & cp & _ & _ & _ & ->)]; [reflexivity |].
  simpl. rewrite dom_insert. set_solver.
Qed.

Lemma process_line_grows (st : collector) (line : string) :
  dom (mapping st) ⊆ dom (mapping (process_line st line)) /\
  published st ⊆ published (process_line st line) /\
  total st <= total (process_line st line) <= total st + 1.
Proof.
  unfold process_line.
  destruct (is_empty (py_strip line)); [repeat split; (reflexivity || lia) |].
  destruct (List.map py_strip (py_split TAB line))
    as [| name [| cid [| image [| ports_str rest]]]];
    try (repeat split; (reflexivity || lia)).
  destruct (is_empty ports_str); [simpl; repeat split; (reflexivity || lia) |].
  pose proof (process_entries_grow name cid image (port_entries ports_str)
                (mapping st, false)) as H.
  destruct (fold_left _ _ _) as [m' hp]. simpl in *.
  split; [exact H |]. split; [destruct hp; set_solver | lia].
Qed.

(** X17: going through more lines of the listing never removes a key from
    the mapping or a name from the set of publishing containers, and each
    line raises the total by at most one. *)
Theorem listing_lines_only_add (lines : list string) (st : collector) :
  let st' := fold_left process_line lines st in
  dom (mapping st) ⊆ dom (mapping st') /\
  published st ⊆ published st' /\
  total st <= total st' <= total st + Z.of_nat (length lines).
Proof.
  revert st. induction lines as [| l lines IH]; intros st; simpl.
  - repeat split; (reflexivity || lia).
  - destruct (IH (process_line st l)) as (H1 & H2 & H3).
    destruct (process_line_grows st l) as (G1 & G2 & G3).
    split; [etrans; eassumption |]. split; [etrans; eassumption | lia].
Qed.

(** Whether the loop body raises, and all of its record but the container
    fields, do not depend on the mapping. *)
Lemma conn_record_any_map (m : docker_map) (procs : Z -> proc_view)
    (conn : sconn) :
  match conn_record m procs conn, conn_record ∅ procs conn with
  | Ok (Some r), Ok (Some r0) => without_docker_fields r = r0
  | Ok None, Ok None => True
  | Raise e, Raise e0 => e = e0
  | _, _ => False
  end.
Proof.
  unfold conn_record.
  destruct (negb _); [exact I |].
  destruct (laddr_ip conn); [| exact I].
  destruct (laddr_port conn); [| exact I].
  destruct (match pid_truthy (conn_pid conn) with
            | Some p => attribute_process (procs p)
            | None => Ok unknown
            end); [| reflexivity].
  rewrite lookup_empty.
  destruct (m !! _); [destruct (dict_truthy _) |]; reflexivity.
Qed.

Lemma sort_key_without_docker_fields (r : PortRecord) :
  sort_key (without_docker_fields r) = sort_key r.
Proof. reflexivity. Qed.

Lemma insert_sorted_map {A K : Type} (lt : K -> K -> bool) (key : A -> K)
    (f : A -> A) (x : A) (l : list A) :
  (forall a, key (f a) = key a) ->
  insert_sorted lt key (f x) (List.map f l)
  = List.map f (insert_sorted lt key x l).
Proof.
  intros Hk. induction l as [| y t IH]; [reflexivity |]. simpl.
  rewrite !Hk. destruct (lt (key y) (key x)); simpl; [rewrite IH |]; reflexivity.
Qed.

Lemma py_sort_map {A K : Type} (lt : K -> K -> bool) (key : A -> K)
    (f : A -> A) (l : list A) :
  (forall a, key (f a) = key a) ->
  py_sort lt key (List.map f l) = List.map f (py_sort lt key l).
Proof.
  intros Hk. induction l as [| x t IH]; [reflexivity |]. simpl.
  fold (py_sort lt key (List.map f t)). fold (py_sort lt key t).
  rewrite IH. apply insert_sorted_map, Hk.
Qed.

Lemma collect_loop_any_map (m : docker_map) (procs : Z -> proc_view)
    (conns : list sconn) :
  match collect_loop m procs conns [], collect_loop ∅ procs conns [] with
  | Ok rs, Ok rs0 => List.map without_docker_fields rs = rs0
  | Raise e, Raise e0 => e = e0
  | _, _ => False
  end.
Proof.
  induction conns as [| c conns IH]; [reflexivity |]. cbn [collect_loop].
  pose proof (conn_record_any_map m procs c) as Hc.
  destruct (conn_record m procs c) as [[r |] | e],
           (conn_record ∅ procs c) as [[r0 |] | e0];
    try contradiction; try exact IH; try exact Hc.
  rewrite (collect_loop_acc m), (collect_loop_acc ∅).
  destruct (collect_loop m procs conns []) as [rs | e],
           (collect_loop ∅ procs conns []) as [rs0 | e0];
    try contradiction; try exact IH.
  simpl. rewrite Hc, IH. reflexivity.
Qed.

(** X18: the container data never decides whether the correlator succeeds,
    nor which exception it raises, and changes nothing in the output but
    the five container fields: without these fields, the records and their
    order are those obtained with no container data at all. *)
Theorem container_data_only_adds_fields
    (conns : list sconn) (procs : Z -> proc_view) (dm : option docker_map) :
  match collect_port_usage (Ok conns) procs dm,
        collect_port_usage (Ok conns) procs None with
  | Ok records, Ok plain => List.map without_docker_fields records = plain
  | Raise e, Raise e0 => e = e0
  | _, _ => False
  end.
Proof.
  rewrite !collect_port_usage_unfold. cbn [default].
  pose proof (collect_loop_any_map (default ∅ dm) procs conns) as H.
  destruct (collect_loop (default ∅ dm) procs conns []) as [rs | e],
           (collect_loop ∅ procs conns []) as [rs0 | e0];
    try contradiction; [| exact H].
  rewrite <- H. symmetry. apply py_sort_map, sort_key_without_docker_fields.
Qed.

(** ** The list settings of [app/config.py] *)

Import Config.

Lemma items_are_port_entries (raw : string) :
  List.map py_strip
    (List.filter (fun item => negb (is_empty (py_strip item)))
       (py_split "," raw))
  = port_entries raw.
Proof. reflexivity. Qed.

Lemma space_not_comma (c : ascii) : is_space c = true -> not_char "," c = true.
Proof. by_char c. Qed.

Lemma py_strip_pad_l (pad s : string) :
  all_chars is_space pad = true -> py_strip (pad ++ s) = py_strip s.
Proof.
  intros H. unfold py_strip, strip_by. rewrite lstrip_by_pad by exact H.
  reflexivity.
Qed.

Lemma clean_item_head (item : string) :
  py_strip item = item -> head_clear is_space item = true.
Proof.
  intros H. rewrite <- H. unfold py_strip, strip_by.
  apply rstrip_by_head_clear, lstrip_by_head_clear.
Qed.

Lemma py_strip_pad_r (item pad : string) :
  py_strip item = item -> all_chars is_space pad = true ->
  py_strip (item ++ pad) = item.
Proof.
  intros Hitem Hpad. destruct item as [| c item].
  - rewrite append_nil_l. pose proof (py_strip_blank pad) as H.
    rewrite Hpad in H. destruct (py_strip pad); [reflexivity | discriminate].
  - pose proof (clean_item_head _ Hitem) as Hhead.
    assert (Hl : lstrip_by is_space (String c item) = String c item)
      by (apply lstrip_by_fixed, Hhead).
    assert (Hr : rstrip_by is_space (String c item) = String c item).
    { unfold py_strip, strip_by in Hitem. rewrite Hl in Hitem. exact Hitem. }
    unfold py_strip, strip_by.
    rewrite (lstrip_by_fixed is_space (String c item ++ pad)) by exact Hhead.
    rewrite rstrip_by_pad by exact Hpad. exact Hr.
Qed.

Lemma items_of_join (pad pad1 pad2 : string) (items : list string) :
  all_chars is_space pad = true ->
  all_chars is_space pad1 = true ->
  all_chars is_space pad2 = true ->
  Forall clean_item items ->
  port_entries (pad ++ py_join (pad1 ++ "," ++ pad2) items) = items.
Proof.
  intros Hpad H1 H2 Hitems. revert pad Hpad.
  induction Hitems as [| x t Hx Ht IH]; intros pad Hpad.
  - cbn [py_join]. unfold port_entries.
    rewrite py_split_none.
    2: { rewrite all_chars_append. apply andb_true_iff. split; [| reflexivity].
         apply (all_chars_impl _ _ _ space_not_comma Hpad). }
    cbn [List.filter].
    rewrite py_strip_blank, all_chars_append, Hpad. reflexivity.
  - destruct Hx as (Hne & Hstrip & Hcomma).
    destruct t as [| y t].
    + cbn [py_join]. unfold port_entries.
      rewrite py_split_none.
      2: { rewrite all_chars_append. apply andb_true_iff. split; [| exact Hcomma].
           apply (all_chars_impl _ _ _ space_not_comma Hpad). }
      cbn [List.filter].
      rewrite (py_strip_pad_l pad x Hpad), Hstrip, Hne. cbn [negb List.map].
      rewrite (py_strip_pad_l pad x Hpad), Hstrip. reflexivity.
    + change (py_join (pad1 ++ "," ++ pad2) (x :: y :: t))
        with (x ++ (pad1 ++ "," ++ pad2) ++ py_join (pad1 ++ "," ++ pad2) (y :: t)).
      set (J := py_join (pad1 ++ "," ++ pad2) (y :: t)) in *.
      replace (pad ++ x ++ (pad1 ++ "," ++ pad2) ++ J)
        with ((pad ++ x ++ pad1) ++ String "," (pad2 ++ J))
        by (rewrite !append_assoc; reflexivity).
      unfold port_entries. rewrite py_split_append.
      2: { rewrite !all_chars_append, !andb_true_iff.
           split; [| split]; [| exact Hcomma |].
           - apply (all_chars_impl _ _ _ space_not_comma Hpad).
           - apply (all_chars_impl _ _ _ space_not_comma H1). }
      cbn [List.filter].
      rewrite (py_strip_pad_l pad _ Hpad), (py_strip_pad_r x pad1 Hstrip H1), Hne.
      cbn [negb List.map].
      rewrite (py_strip_pad_l pad _ Hpad), (py_strip_pad_r x pad1 Hstrip H1).
      f_equal. apply (IH pad2 H2).
Qed.

(** X19: a list setting written as items joined by commas, with any white
    space around the commas and before the whole value, is read back as
    the list of these items (each without white space around it and
    without a comma); this holds for [NVME_DEVICES] and for
    [FRITZBOX_HOSTS]. *)
Theorem list_settings_round_trip
    (env : environ) (pad pad1 pad2 : string) (first : string)
    (others : list string)
    (Hpad : all_chars is_space pad = true)
    (Hpad1 : all_chars is_space pad1 = true)
    (Hpad2 : all_chars is_space pad2 = true)
    (Hitems : Forall clean_item (first :: others)) :
  let value := pad ++ py_join (pad1 ++ "," ++ pad2) (first :: others) in
  (env !! "NVME_DEVICES" = Some value ->
   nvme_devices (from_env env) = Some (first :: others)) /\
  (env !! "FRITZBOX_HOSTS" = Some value ->
   fritzbox_hosts (from_env env) = Some (first :: others)).
Proof.
  intros value.
  assert (Hread : items_or_none value = Some (first :: others)).
  { unfold items_or_none. rewrite items_are_port_entries.
    unfold value. rewrite (items_of_join pad pad1 pad2 _ Hpad Hpad1 Hpad2 Hitems).
    reflexivity. }
  assert (Hne : is_empty value = false).
  { destruct value eqn:E; [| reflexivity].
    unfold items_or_none in Hread. discriminate Hread. }
  split; intros Henv; unfold from_env, getenv_or, getenv; rewrite Henv;
    cbn [default nvme_devices fritzbox_hosts]; [exact Hread |].
  rewrite Hne. exact Hread.
Qed.

Lemma list_settings_round_trip_witness :
  nvme_devices (from_env {[ "NVME_DEVICES" := "/dev/nvme0n1, /dev/nvme1n1" ]})
  = Some ["/dev/nvme0n1"; "/dev/nvme1n1"].
Proof.
  refine (proj1 (list_settings_round_trip
            {[ "NVME_DEVICES" := "/dev/nvme0n1, /dev/nvme1n1" ]}
            "" "" " " "/dev/nvme0n1" ["/dev/nvme1n1"]
            eq_refl eq_refl eq_refl _) eq_refl).
  repeat constructor.
Defined.

Lemma all_chars_both (p q : ascii -> bool) (s : string) :
  all_chars p s = true -> all_chars q s = true ->
  all_chars (fun c => p c && q c) s = true.
Proof.
  induction s as [| c s IH]; [reflexivity |]. simpl.
  rewrite !andb_true_iff. intros [Hp Hs] [Hq Hs']. auto.
Qed.

Lemma blank_or_comma (c : ascii) :
  (is_space c || Ascii.eqb c ",") && not_char "," c = true -> is_space c = true.
Proof.
  unfold not_char. destruct (is_space c); [reflexivity |].
  destruct (Ascii.eqb c ","); discriminate.
Qed.

Lemma items_or_none_blank (v : string) :
  all_chars (fun c => is_space c || Ascii.eqb c ",") v = true ->
  items_or_none v = None.
Proof.
  intros Hv. unfold items_or_none.
  pose proof (all_chars_split _ "," v Hv) as H1.
  pose proof (py_split_pieces "," v) as H2.
  induction (py_split "," v) as [| e l IH]; [reflexivity |].
  apply Forall_cons in H1 as [He1 Hl1]. apply Forall_cons in H2 as [He2 Hl2].
  cbn [List.filter]. rewrite py_strip_blank.
  rewrite (all_chars_impl _ _ e blank_or_comma (all_chars_both _ _ e He1 He2)).
  cbn [negb]. apply IH; assumption.
Qed.

Lemma items_or_none_clean (raw : string) (l : list string) :
  items_or_none raw = Some l -> l <> [] /\ Forall clean_item l.
Proof.
  unfold items_or_none. rewrite items_are_port_entries.
  intros H.
  assert (Hl : l = port_entries raw).
  { destruct (port_entries raw); [discriminate | congruence]. }
  split.
  - intros ->. rewrite <- Hl in H. discriminate.
  - apply List.Forall_forall. intros e He. rewrite Hl in He.
    destruct (port_entries_clean raw e He) as (H1 & H2 & H3 & _).
    repeat split; assumption.
Qed.

(** X20: a list setting is either absent or a list with at least one item,
    every item being non-empty, free of surrounding white space and of
    commas; [FRITZBOX_HOSTS] decides the hosts whenever it is set and not
    empty, even when it holds only blanks and commas (then there are no
    hosts and [FRITZBOX_HOST] is not consulted), and [FRITZBOX_HOST] is
    read only when [FRITZBOX_HOSTS] is unset or empty. *)
Theorem list_settings_are_clean (env : environ) :
  (forall l, nvme_devices (from_env env) = Some l ->
             l <> [] /\ Forall clean_item l) /\
  (forall l, fritzbox_hosts (from_env env) = Some l ->
             l <> [] /\ Forall clean_item l) /\
  (forall v, env !! "FRITZBOX_HOSTS" = Some v -> is_empty v = false ->
     fritzbox_hosts (from_env env) = items_or_none v /\
     (all_chars (fun c => is_space c || Ascii.eqb c ",") v = true ->
      fritzbox_hosts (from_env env) = None)) /\
  (env !! "FRITZBOX_HOSTS" = None \/ env !! "FRITZBOX_HOSTS" = Some "" ->
   fritzbox_hosts (from_env env)
   = items_or_none (default "" (env !! "FRITZBOX_HOST"))).
Proof.
  split; [| split; [| split]].
  - intros l. apply items_or_none_clean.
  - intros l. apply items_or_none_clean.
  - intros v Hv Hne.
    assert (E : fritzbox_hosts (from_env env) = items_or_none v).
    { unfold from_env, getenv. rewrite Hv, Hne. reflexivity. }
    split; [exact E |]. intros Hblank. rewrite E.
    apply items_or_none_blank, Hblank.
  - intros [H | H]; unfold from_env, getenv, getenv_or; rewrite H; reflexivity.
Qed.

Lemma list_settings_are_clean_witness :
  fritzbox_hosts
    (from_env {[ "FRITZBOX_HOSTS" := " , "; "FRITZBOX_HOST" := "fritz.box" ]})
  = None /\
  fritzbox_hosts (from_env {[ "FRITZBOX_HOST" := "fritz.box" ]})
  = Some ["fritz.box"].
Proof.
  split.
  - destruct (list_settings_are_clean
      {[ "FRITZBOX_HOSTS" := " , "; "FRITZBOX_HOST" := "fritz.box" ]})
      as (_ & _ & Hset & _).
    assert (Hv : ({[ "FRITZBOX_HOSTS" := " , "; "FRITZBOX_HOST" := "fritz.box" ]}
                  : environ) !! "FRITZBOX_HOSTS" = Some " , ")
      by (vm_compute; reflexivity).
    exact (proj2 (Hset " , " Hv eq_refl) eq_refl).
  - destruct (list_settings_are_clean {[ "FRITZBOX_HOST" := "fritz.box" ]})
      as (_ & _ & _ & Hunset).
    assert (Hv : ({[ "FRITZBOX_HOST" := "fritz.box" ]} : environ)
                 !! "FRITZBOX_HOSTS" = None)
      by (vm_compute; reflexivity).
    rewrite (Hunset (or_introl Hv)). vm_compute. reflexivity.
Defined.

(** ** A line inside the listing *)

Lemma lstrip_by_app_solid (p : ascii -> bool) (h : string) (a : ascii) (x : string) :
  p a = false ->
  lstrip_by p (h ++ String a x) = lstrip_by p h ++ String a x.
Proof.
  intros Ha. induction h as [| c h IH].
  - rewrite !append_nil_l. simpl. rewrite Ha. reflexivity.
  - rewrite append_cons. simpl. destruct (p c); [exact IH |].
    rewrite append_cons. reflexivity.
Qed.

Lemma rstrip_by_keep (p : ascii -> bool) (y t : string) :
  rstrip_by p y = y -> is_empty y = false ->
  rstrip_by p (y ++ t) = y ++ rstrip_by p t.
Proof.
  induction y as [| c r IH]; [discriminate 2 |]. intros Hy _.
  rewrite append_cons. cbn [rstrip_by] in Hy |- *.
  destruct r as [| d r'].
  - rewrite append_nil_l. simpl in Hy.
    destruct (p c) eqn:Hc; [discriminate Hy |].
    rewrite andb_false_r. reflexivity.
  - assert (Hr : rstrip_by p (String d r') = String d r').
    { destruct (is_empty (rstrip_by p (String d r')) && p c);
        [discriminate Hy | injection Hy as Hy; exact Hy]. }
    rewrite (IH Hr eq_refl). rewrite append_cons. reflexivity.
Qed.

Lemma strip_by_inside (p : ascii -> bool) (h t : string) (a : ascii) (x : string) :
  p a = false -> rstrip_by p (String a x) = String a x ->
  strip_by p (h ++ String a x ++ t)
  = lstrip_by p h ++ String a x ++ rstrip_by p t.
Proof.
  intros Ha Hx. unfold strip_by.
  rewrite append_cons, (lstrip_by_app_solid p h a (x ++ t) Ha).
  rewrite <- append_cons, <- append_assoc.
  rewrite rstrip_by_keep.
  - rewrite append_assoc. reflexivity.
  - apply rstrip_by_append; [exact Hx | reflexivity].
  - rewrite is_empty_append. apply andb_false_r.
Qed.

Lemma endswith_split (c : ascii) (s : string) :
  endswith c s = true -> exists h, s = h ++ String c EmptyString.
Proof.
  induction s as [| a r IH]; [discriminate |].
  destruct r as [| b r'].
  - cbn [endswith]. intros H. apply Ascii.eqb_eq in H as ->.
    exists EmptyString. reflexivity.
  - intros H. change (endswith c (String b r') = true) in H.
    destruct (IH H) as [h Hh]. exists (String a h).
    rewrite append_cons, <- Hh. reflexivity.
Qed.

Lemma lstrip_ends_line (head : string) :
  ends_line head = true ->
  lstrip_by is_space head = EmptyString \/
  exists h, lstrip_by is_space head = h ++ String LF EmptyString.
Proof.
  unfold ends_line. destruct head as [| c0 r0]; [left; reflexivity |].
  cbn [is_empty orb]. intros H.
  destruct (endswith_split LF _ H) as [h Hh]. rewrite Hh. clear.
  induction h as [| c h IH].
  - left. reflexivity.
  - rewrite append_cons. cbn [lstrip_by].
    destruct (is_space c); [exact IH |].
    right. exists (String c h). reflexivity.
Qed.

Lemma rstrip_begins_line (tail : string) :
  begins_line tail = true ->
  rstrip_by is_space tail = EmptyString \/
  exists t, rstrip_by is_space tail = String LF t.
Proof.
  unfold begins_line. destruct tail as [| c t]; [left; reflexivity |].
  cbn [is_empty orb startswith]. intros H. apply Ascii.eqb_eq in H as ->.
  cbn [rstrip_by]. destruct (is_empty (rstrip_by is_space t) && is_space LF).
  - left. reflexivity.
  - right. eexists. reflexivity.
Qed.

(** *** [splitlines] around a line *)

Lemma splitlines_go_cons (cur : string) (c : ascii) (r : string) :
  splitlines_go cur (String c r)
  = if Ascii.eqb c CR then
      match r with
      | String d r' =>
          if Ascii.eqb d LF then cur :: splitlines_go EmptyString r'
          else cur :: splitlines_go EmptyString r
      | EmptyString => cur :: splitlines_go EmptyString r
      end
    else if is_linebreak c then cur :: splitlines_go EmptyString r
    else splitlines_go (cur ++ String c EmptyString) r.
Proof. reflexivity. Qed.

Lemma splitlines_go_word (a cur s : string) :
  all_chars not_linebreak a = true ->
  splitlines_go cur (a ++ s) = splitlines_go (cur ++ a) s.
Proof.
  revert cur. induction a as [| c a IH]; intros cur Ha.
  - rewrite append_nil_l. f_equal. clear. induction cur as [| x cur IH];
      [reflexivity | rewrite append_cons, <- IH; reflexivity].
  - cbn [all_chars] in Ha. apply andb_true_iff in Ha as [Hc Ha].
    unfold not_linebreak in Hc. apply negb_true_iff in Hc.
    rewrite append_cons, splitlines_go_cons.
    assert (Hcr : Ascii.eqb c CR = false).
    { destruct (Ascii.eqb_spec c CR) as [-> | _]; [discriminate Hc | reflexivity]. }
    rewrite Hcr, Hc, (IH _ Ha), append_assoc. reflexivity.
Qed.

Lemma splitlines_go_newline (cur s : string) :
  splitlines_go cur (String LF s) = cur :: splitlines_go EmptyString s.
Proof. reflexivity. Qed.


Lemma splitlines_go_head (n : nat) :
  forall (h cur : string), (String.length h <= n)%nat ->
  exists before, forall s,
    splitlines_go cur (h ++ String LF s)
    = (before ++ splitlines_go EmptyString s)%list.
Proof.
  induction n as [| n IH]; intros h cur Hlen.
  - destruct h; [| simpl in Hlen; lia].
    exists [cur]. intros s. reflexivity.
  - destruct h as [| c h].
    + exists [cur]. intros s. reflexivity.
    + simpl in Hlen. assert (Hh : (String.length h <= n)%nat) by lia.
      destruct (Ascii.eqb c CR) eqn:Hcr.
      * destruct h as [| d h'].
        -- exists [cur]. intros s. rewrite append_cons, append_nil_l.
           rewrite splitlines_go_cons, Hcr. reflexivity.
        -- destruct (Ascii.eqb d LF) eqn:Hd.
           ++ simpl in Hh.
              destruct (IH h' EmptyString ltac:(lia)) as [before Hb].
              exists (cur :: before). intros s. rewrite !append_cons.
              rewrite splitlines_go_cons, Hcr, Hd, Hb. reflexivity.
           ++ destruct (IH (String d h') EmptyString Hh) as [before Hb].
              exists (cur :: before). intros s. rewrite !append_cons.
              rewrite splitlines_go_cons, Hcr, Hd.
              rewrite <- append_cons, Hb. reflexivity.
      * destruct (is_linebreak c) eqn:Hlb.
        -- destruct (IH h EmptyString Hh) as [before Hb].
           exists (cur :: before). intros s. rewrite append_cons.
           rewrite splitlines_go_cons, Hcr, Hlb, Hb. reflexivity.
        -- destruct (IH h (cur ++ String c EmptyString) Hh) as [before Hb].
           exists before. intros s. rewrite append_cons.
           rewrite splitlines_go_cons, Hcr, Hlb. apply Hb.
Qed.

(** A line that begins and ends with a character other than white space
    and holds no line boundary is one of the lines the loop goes through,
    wherever it stands in the listing; the lines before and after it do
    not depend on it. *)
Lemma listing_lines (head tail : string) :
  ends_line head = true -> begins_line tail = true ->
  exists before after : list string,
    (all_chars is_space head = true -> before = []) /\
    (all_chars is_space tail = true -> after = []) /\
    forall (a : ascii) (x : string),
      is_space a = false ->
      rstrip_by is_space (String a x) = String a x ->
      all_chars not_linebreak (String a x) = true ->
      py_splitlines (py_strip (head ++ String a x ++ tail))
      = (before ++ String a x :: after)%list.
Proof.
  intros Hhead Htail.
  assert (Hbefore : exists before,
            (all_chars is_space head = true -> before = []) /\
            forall s, splitlines_go EmptyString (lstrip_by is_space head ++ s)
                      = (before ++ splitlines_go EmptyString s)%list).
  { destruct (lstrip_ends_line head Hhead) as [E | [h E]].
    - exists []. split; [reflexivity |]. intros s. rewrite E. reflexivity.
    - destruct (splitlines_go_head (String.length h) h EmptyString (le_n _))
        as [before Hb].
      exists before. split.
      + intros Hall. rewrite <- lstrip_by_all in Hall. rewrite E in Hall.
        rewrite is_empty_append in Hall. rewrite andb_false_r in Hall.
        discriminate Hall.
      + intros s. rewrite E, append_assoc. apply Hb. }
  assert (Hafter : exists after,
            (all_chars is_space tail = true -> after = []) /\
            forall line, is_empty line = false ->
              splitlines_go line (rstrip_by is_space tail) = line :: after).
  { destruct (rstrip_begins_line tail Htail) as [E | [t E]].
    - exists []. split; [reflexivity |]. intros line Hne. rewrite E.
      simpl. rewrite Hne. reflexivity.
    - exists (splitlines_go EmptyString t). split.
      + intros Hall. rewrite <- rstrip_by_empty in Hall. rewrite E in Hall.
        discriminate Hall.
      + intros line _. rewrite E. reflexivity. }
  destruct Hbefore as (before & Hb0 & Hb), Hafter as (after & Ha0 & Ha).
  exists before, after. split; [exact Hb0 |]. split; [exact Ha0 |].
  intros a x Hsolid Hend Hlb.
  unfold py_strip. rewrite (strip_by_inside is_space head tail a x Hsolid Hend).
  unfold py_splitlines. rewrite Hb. f_equal.
  rewrite (splitlines_go_word _ EmptyString _ Hlb), append_nil_l.
  apply Ha. reflexivity.
Qed.

(** ** The listing through the whole collector *)

(** The collector is the loop over the lines of the stripped output,
    started from the empty state. *)
Lemma collect_completed (stdout : string) :
  collect_docker_port_mappings (Completed stdout)
  = let st := fold_left process_line (py_splitlines (py_strip stdout))
                initial_collector in
    (mapping st,
     {| available := true; error := None; containers_total := total st;
        containers_with_published_ports := Z.of_nat (size (published st));
        command := command_text |}).
Proof.
  unfold collect_docker_port_mappings.
  destruct (is_empty (py_strip stdout)) eqn:He.
  - destruct (py_strip stdout); [reflexivity | discriminate He].
  - destruct (py_splitlines (py_strip stdout)) as [| l lines]; reflexivity.
Qed.

Lemma process_lines_grow (lines : list string) (st : collector) :
  dom (mapping st) ⊆ dom (mapping (fold_left process_line lines st)) /\
  published st ⊆ published (fold_left process_line lines st).
Proof.
  revert st. induction lines as [| l lines IH]; intros st; cbn [fold_left];
    [split; reflexivity |].
  destruct (process_line_grows st l) as (H1 & H2 & _).
  destruct (IH (process_line st l)) as (H3 & H4).
  split; etrans; eassumption.
Qed.

(** Whether an entry publishes, and so which containers are counted as
    publishing, does not depend on the mapping built so far. *)
Lemma process_entry_flag (name cid image : string) (acc acc' : docker_map * bool)
    (entry : string) :
  snd acc = snd acc' ->
  snd (process_entry name cid image acc entry)
  = snd (process_entry name cid image acc' entry).
Proof.
  intros H. unfold process_entry.
  destruct (py_partition "->" entry) as [[l r] |]; [| exact H].
  destruct (match py_partition "/" (py_strip r) with
            | Some (a, b) => (a, b)
            | None => (py_strip r, EmptyString)
            end) as [cps proto].
  destruct (py_rpartition ":" (py_strip l)) as [[h hp] |]; [| exact H].
  destruct (py_int hp); [reflexivity | exact H].
Qed.

Lemma process_entries_flag (name cid image : string) (entries : list string)
    (acc acc' : docker_map * bool) :
  snd acc = snd acc' ->
  snd (fold_left (process_entry name cid image) entries acc)
  = snd (fold_left (process_entry name cid image) entries acc').
Proof.
  revert acc acc'. induction entries as [| e entries IH]; intros acc acc' H;
    [exact H |].
  cbn [fold_left]. apply IH, process_entry_flag, H.
Qed.

Lemma process_line_published (st st' : collector) (line : string) :
  published st = published st' ->
  published (process_line st line) = published (process_line st' line).
Proof.
  intros H. unfold process_line.
  destruct (is_empty (py_strip line)); [exact H |].
  destruct (List.map py_strip (py_split TAB line))
    as [| name [| cid [| image [| ports_str rest]]]]; try exact H.
  destruct (is_empty ports_str); [exact H |].
  pose proof (process_entries_flag name cid image (port_entries ports_str)
                (mapping st, false) (mapping st', false) eq_refl) as Hflag.
  destruct (fold_left _ _ (mapping st, false)) as [m1 b1].
  destruct (fold_left _ _ (mapping st', false)) as [m2 b2].
  cbn [snd] in Hflag. subst b2. cbn [published]. rewrite H. reflexivity.
Qed.

Lemma process_lines_published (lines : list string) (st st' : collector) :
  published st = published st' ->
  published (fold_left process_line lines st)
  = published (fold_left process_line lines st').
Proof.
  revert st st'. induction lines as [| l lines IH]; intros st st' H;
    [exact H |].
  cbn [fold_left]. apply IH, process_line_published, H.
Qed.

Lemma field_not_tab (c : ascii) : is_field_char c = true -> not_char TAB c = true.
Proof. by_char c. Qed.

Lemma field_not_linebreak (c : ascii) :
  is_field_char c = true -> not_linebreak c = true.
Proof. by_char c. Qed.

Lemma space_not_linebreak (c : ascii) :
  not_space c = true -> not_linebreak c = true.
Proof. by_char c. Qed.

Lemma starts_solid_head (s : string) :
  starts_solid s = true -> exists a x, s = String a x /\ is_space a = false.
Proof.
  destruct s as [| a x]; [discriminate |]. cbn [starts_solid]. intros H.
  exists a, x. split; [reflexivity | apply negb_true_iff, H].
Qed.

(** A line with one mapping of a container port: what the loop body does
    with it. *)
Lemma process_line_one_mapping
    (st : collector)
    (name cid image host hp cp proto : string) (p c : Z) :
  all_chars (not_char TAB) name = true ->
  all_chars (not_char TAB) cid = true ->
  all_chars (not_char TAB) image = true ->
  all_chars not_space host = true ->
  all_chars (not_char ">") host = true ->
  all_chars (not_char ",") host = true ->
  all_chars is_digit hp = true -> py_int hp = Some p ->
  all_chars is_digit cp = true -> py_int cp = Some c ->
  all_chars is_lower_letter proto = true -> is_empty proto = false ->
  let entry := host ++ ":" ++ hp ++ "->" ++ cp ++ "/" ++ proto in
  let line := name ++ TABS ++ cid ++ TABS ++ image ++ TABS ++ entry in
  process_line st line
  = {| mapping :=
         <[(proto, unbracket host, p) :=
             make_info (py_strip name) (py_strip cid) (py_strip image) entry
               (PInt c)]> (mapping st);
       total := total st + 1;
       published := {[py_strip name]} ∪ published st |}.
Proof.
  intros Hname Hcid Himage Hhs Hhg Hhc Hhp Hp Hcp Hc Hproto Hne entry line.
  assert (Hs : all_chars not_space entry = true) by (unfold entry; chars).
  assert (Hn : is_empty entry = false).
  { unfold entry. rewrite !is_empty_append. simpl. apply andb_false_r. }
  assert (Hcm : all_chars (not_char ",") entry = true) by (unfold entry; chars).
  assert (Ht : all_chars (not_char TAB) entry = true).
  { apply (all_chars_impl _ _ _ space_not_tab_comma Hs). }
  assert (Hblank : is_empty (py_strip line) = false).
  { replace line with ((name ++ TABS ++ cid ++ TABS ++ image ++ TABS)
                        ++ entry ++ EmptyString).
    - apply py_strip_not_empty; assumption.
    - unfold line. rewrite !append_assoc. f_equal. f_equal. f_equal. f_equal.
      f_equal. f_equal. clear. induction entry as [| x e IH];
        [reflexivity | rewrite append_cons, IH; reflexivity]. }
  assert (Hsplit : py_split TAB line = [name; cid; image; entry]).
  { unfold line. rewrite !tabs_append.
    rewrite !py_split_append by assumption.
    rewrite py_split_none; [reflexivity | exact Ht]. }
  assert (Hentries : port_entries entry = [entry]).
  { unfold port_entries. rewrite py_split_none by exact Hcm.
    cbn [List.filter]. rewrite (py_strip_solid entry Hs), Hn.
    cbn [negb List.map]. rewrite (py_strip_solid entry Hs). reflexivity. }
  unfold process_line. rewrite Hblank, Hsplit. cbn [List.map].
  rewrite (py_strip_solid entry Hs), Hn, Hentries. cbn [fold_left].
  unfold entry at 1.
  rewrite (process_entry_published _ _ _ host hp cp proto p c) by assumption.
  reflexivity.
Qed.

Lemma ends_solid_app (a b : string) :
  rstrip_by is_space b = b /\ is_empty b = false ->
  rstrip_by is_space (a ++ b) = a ++ b /\ is_empty (a ++ b) = false.
Proof.
  intros [Hb Hne]. split; [apply rstrip_by_append; assumption |].
  rewrite is_empty_append, Hne. apply andb_false_r.
Qed.

Lemma ends_solid_word (s : string) :
  all_chars not_space s = true -> is_empty s = false ->
  rstrip_by is_space s = s /\ is_empty s = false.
Proof. intros Hs Hne. split; [apply rstrip_by_solid, Hs | exact Hne]. Qed.

Lemma starts_solid_app (a b : string) :
  starts_solid a = true -> starts_solid (a ++ b) = true.
Proof. destruct a; [discriminate | intros H; exact H]. Qed.

Lemma listing_lines_of (head tail : string) :
  ends_line head = true -> begins_line tail = true ->
  exists before after : list string,
    (all_chars is_space head = true -> before = []) /\
    (all_chars is_space tail = true -> after = []) /\
    forall line : string,
      starts_solid line = true ->
      rstrip_by is_space line = line ->
      all_chars not_linebreak line = true ->
      forall st,
        fold_left process_line (py_splitlines (py_strip (head ++ line ++ tail))) st
        = fold_left process_line after
            (process_line (fold_left process_line before st) line).
Proof.
  intros Hhead Htail.
  destruct (listing_lines head tail Hhead Htail)
    as (before & after & Hb0 & Ha0 & Hlines).
  exists before, after. split; [exact Hb0 |]. split; [exact Ha0 |].
  intros line Hstart Hend Hlb st.
  destruct (starts_solid_head line Hstart) as (a & x & -> & Ha).
  rewrite (Hlines a x Ha Hend Hlb), fold_left_app. reflexivity.
Qed.

(** C5: a listing in which a line maps one container port on an IPv4 host
    address and on a bracketed IPv6 host address.  Whatever stands before
    and after the line, the mapping the collector returns has entries
    under the two different keys made of the respective host addresses
    (the IPv6 one without its brackets), and the container is counted as
    publishing once: the count is the one obtained when the line holds the
    IPv4 mapping alone.  When the line is the last of the listing, both
    entries carry this container; when it is the only one, they are the
    whole mapping and both counts are 1.  The loop body, in any state,
    stores exactly these two entries, adds one to the total and adds the
    name of the container to the set of publishing containers. *)
Theorem ipv4_and_ipv6_mappings_are_both_recorded
    (head tail : string)
    (name cid image ip4 ip6 hp4 hp6 cp proto : string) (p4 p6 c : Z)
    (Hhead : ends_line head = true)
    (Htail : begins_line tail = true)
    (Hname : all_chars is_field_char name = true)
    (Hname0 : starts_solid name = true)
    (Hcid : all_chars is_field_char cid = true)
    (Himage : all_chars is_field_char image = true)
    (Hip4 : all_chars is_ipv4_char ip4 = true)
    (Hip6 : all_chars is_ipv6_char ip6 = true)
    (Hcolon : all_chars (not_char ":") ip6 = false)
    (Hhp4 : all_chars is_digit hp4 = true) (Hp4 : py_int hp4 = Some p4)
    (Hhp6 : all_chars is_digit hp6 = true) (Hp6 : py_int hp6 = Some p6)
    (Hcp : all_chars is_digit cp = true) (Hc : py_int cp = Some c)
    (Hproto : all_chars is_lower_letter proto = true)
    (Hproto_ne : is_empty proto = false) :
  let e4 := ip4 ++ ":" ++ hp4 ++ "->" ++ cp ++ "/" ++ proto in
  let e6 := ("[" ++ ip6 ++ "]") ++ ":" ++ hp6 ++ "->" ++ cp ++ "/" ++ proto in
  let line := name ++ TABS ++ cid ++ TABS ++ image ++ TABS ++ e4 ++ ", " ++ e6 in
  let line4 := name ++ TABS ++ cid ++ TABS ++ image ++ TABS ++ e4 in
  let k4 := (proto, ip4, p4) in
  let k6 := (proto, ip6, p6) in
  let info4 :=
    make_info (py_strip name) (py_strip cid) (py_strip image) e4 (PInt c) in
  let info6 :=
    make_info (py_strip name) (py_strip cid) (py_strip image) e6 (PInt c) in
  let m := fst (collect_docker_port_mappings (Completed (head ++ line ++ tail))) in
  let meta :=
    snd (collect_docker_port_mappings (Completed (head ++ line ++ tail))) in
  let meta4 :=
    snd (collect_docker_port_mappings (Completed (head ++ line4 ++ tail))) in
  k4 <> k6 /\
  is_Some (m !! k4) /\ is_Some (m !! k6) /\
  available meta = true /\
  1 <= containers_with_published_ports meta <= containers_total meta /\
  containers_with_published_ports meta
  = containers_with_published_ports meta4 /\
  (all_chars is_space tail = true ->
   m !! k4 = Some info4 /\ m !! k6 = Some info6) /\
  (all_chars is_space head = true -> all_chars is_space tail = true ->
   m = <[k6 := info6]> (<[k4 := info4]> ∅) /\
   containers_total meta = 1 /\
   containers_with_published_ports meta = 1) /\
  (forall st : collector,
     process_line st line
     = {| mapping := <[k6 := info6]> (<[k4 := info4]> (mapping st));
          total := total st + 1;
          published := {[py_strip name]} ∪ published st |}).
Proof.
  intros e4 e6 line line4 k4 k6 info4 info6 m meta meta4.
  assert (Hname_tab : all_chars (not_char TAB) name = true)
    by exact (all_chars_impl _ _ _ field_not_tab Hname).
  assert (Hcid_tab : all_chars (not_char TAB) cid = true)
    by exact (all_chars_impl _ _ _ field_not_tab Hcid).
  assert (Himage_tab : all_chars (not_char TAB) image = true)
    by exact (all_chars_impl _ _ _ field_not_tab Himage).
  assert (Hkeys : k4 <> k6).
  { unfold k4, k6. intros [= Heq _]. subst ip6.
    rewrite (all_chars_impl _ _ _ ipv4_not_colon Hip4) in Hcolon.
    discriminate. }
  assert (Hbody : forall st : collector,
     process_line st line
     = {| mapping := <[k6 := info6]> (<[k4 := info4]> (mapping st));
          total := total st + 1;
          published := {[py_strip name]} ∪ published st |}).
  { intros st. unfold line, e4, e6.
    apply (process_line_two_mappings st name cid image ip4 ip6 hp4 hp6 cp
             proto p4 p6 c); assumption. }
  assert (Hbody4 : forall st : collector,
     published (process_line st line4) = {[py_strip name]} ∪ published st).
  { intros st. unfold line4, e4.
    rewrite (process_line_one_mapping st name cid image ip4 hp4 cp proto p4 c)
      by (assumption || chars).
    reflexivity. }
  assert (Hproto_end : rstrip_by is_space proto = proto /\ is_empty proto = false).
  { apply ends_solid_word; [chars | exact Hproto_ne]. }
  assert (Hs4 : all_chars not_space e4 = true) by (unfold e4; chars).
  assert (Hs6 : all_chars not_space e6 = true) by (unfold e6; chars).
  assert (Hline : starts_solid line = true /\
                  rstrip_by is_space line = line /\
                  all_chars not_linebreak line = true).
  { split; [apply starts_solid_app, Hname0 |]. split.
    - unfold line, e4, e6. rewrite !append_assoc.
      repeat (apply ends_solid_app). exact Hproto_end.
    - unfold line. rewrite !all_chars_append.
      rewrite (all_chars_impl _ _ _ field_not_linebreak Hname).
      rewrite (all_chars_impl _ _ _ field_not_linebreak Hcid).
      rewrite (all_chars_impl _ _ _ field_not_linebreak Himage).
      rewrite (all_chars_impl _ _ _ space_not_linebreak Hs4).
      rewrite (all_chars_impl _ _ _ space_not_linebreak Hs6).
      reflexivity. }
  assert (Hline4 : starts_solid line4 = true /\
                   rstrip_by is_space line4 = line4 /\
                   all_chars not_linebreak line4 = true).
  { split; [apply starts_solid_app, Hname0 |]. split.
    - unfold line4, e4.
      repeat (apply ends_solid_app). exact Hproto_end.
    - unfold line4. rewrite !all_chars_append.
      rewrite (all_chars_impl _ _ _ field_not_linebreak Hname).
      rewrite (all_chars_impl _ _ _ field_not_linebreak Hcid).
      rewrite (all_chars_impl _ _ _ field_not_linebreak Himage).
      rewrite (all_chars_impl _ _ _ space_not_linebreak Hs4).
      reflexivity. }
  destruct Hline as (Hl1 & Hl2 & Hl3), Hline4 as (Hl41 & Hl42 & Hl43).
  destruct (listing_lines_of head tail Hhead Htail)
    as (before & after & Hb0 & Ha0 & Hfold).
  pose proof (Hfold line Hl1 Hl2 Hl3 initial_collector) as Hrun.
  pose proof (Hfold line4 Hl41 Hl42 Hl43 initial_collector) as Hrun4.
  set (st0 := fold_left process_line before initial_collector) in *.
  pose proof (process_lines_ok
                (py_splitlines (py_strip (head ++ line ++ tail)))
                initial_collector initial_collector_ok) as (_ & _ & Hle).
  subst m meta meta4. rewrite !collect_completed. cbv zeta.
  cbn [fst snd available containers_total containers_with_published_ports].
  rewrite Hrun in Hle |- *. rewrite Hrun4. rewrite (Hbody st0) in Hle |- *.
  set (st1 := {| mapping := <[k6 := info6]> (<[k4 := info4]> (mapping st0));
                 total := total st0 + 1;
                 published := {[py_strip name]} ∪ published st0 |}) in *.
  destruct (process_lines_grow after st1) as (Hdom & Hpub).
  split; [exact Hkeys |].
  split.
  { apply elem_of_dom, Hdom. cbn [st1 mapping]. rewrite !dom_insert.
    set_solver. }
  split.
  { apply elem_of_dom, Hdom. cbn [st1 mapping]. rewrite !dom_insert.
    set_solver. }
  split; [reflexivity |].
  split.
  { split; [| exact Hle].
    assert (Hin : py_strip name ∈ published (fold_left process_line after st1)).
    { apply Hpub. cbn [st1 published]. set_solver. }
    assert (Hpos : size (published (fold_left process_line after st1)) <> 0%nat).
    { intros Hz. apply size_empty_iff in Hz. set_solver. }
    lia. }
  split.
  { f_equal. f_equal. apply process_lines_published.
    cbn [st1 published]. symmetry. apply Hbody4. }
  split.
  { intros Hblank. rewrite (Ha0 Hblank). cbn [fold_left st1 mapping].
    split.
    - rewrite lookup_insert_ne by (intros E; apply Hkeys; symmetry; exact E).
      apply lookup_insert_eq.
    - apply lookup_insert_eq. }
  split.
  { intros Hhb Htb. subst st1 st0. rewrite (Ha0 Htb), (Hb0 Hhb).
    cbn [fold_left mapping total published initial_collector].
    split; [reflexivity |]. split; [reflexivity |].
    rewrite (right_id_L ∅ (∪)), size_singleton. reflexivity. }
  exact Hbody.
Qed.

Lemma ipv4_and_ipv6_mappings_are_both_recorded_witness :
  let '(m, meta) := collect_docker_port_mappings
                      (Completed (Fixtures.nginx_line ++ Fixtures.newline ""))
  in
  dict_get (default ∅ (m !! ("tcp", "0.0.0.0", 8080))) "port_spec"
    = PStr "0.0.0.0:8080->80/tcp" /\
  dict_get (default ∅ (m !! ("tcp", "::", 8080))) "port_spec"
    = PStr "[::]:8080->80/tcp" /\
  containers_total meta = 1 /\
  containers_with_published_ports meta = 1.
Proof.
  destruct (ipv4_and_ipv6_mappings_are_both_recorded
              "" (Fixtures.newline "")
              "nginx" "3f2a9c1d0b7e" "nginx:1.25" "0.0.0.0" "::" "8080" "8080"
              "80" "tcp" 8080 8080 80
              eq_refl eq_refl eq_refl eq_refl eq_refl eq_refl eq_refl eq_refl
              eq_refl eq_refl eq_refl eq_refl eq_refl eq_refl eq_refl eq_refl
              eq_refl)
    as (_ & _ & _ & _ & _ & _ & Hlast & Honly & _).
  destruct (Hlast eq_refl) as [H4 H6].
  destruct (Honly eq_refl eq_refl) as (_ & Htotal & Hcount).
  change (collect_docker_port_mappings _)
    with (collect_docker_port_mappings
            (Completed (Fixtures.nginx_line ++ Fixtures.newline "")))
    in H4, H6, Htotal, Hcount.
  destruct (collect_docker_port_mappings _) as [m meta].
  cbn [fst snd] in H4, H6, Htotal, Hcount.
  rewrite H4, H6.
  split; [vm_compute; reflexivity |]. split; [vm_compute; reflexivity |].
  split; [exact Htotal | exact Hcount].
Defined.

Lemma starts_solid_not_blank (s : string) :
  starts_solid s = true -> is_empty (py_strip s) = false.
Proof.
  intros H. rewrite py_strip_blank.
  destruct (starts_solid_head s H) as (a & x & -> & Ha).
  cbn [all_chars]. rewrite Ha. reflexivity.
Qed.

(** X10: in the loop, a line of four fields whose ports field holds no
    arrow (it is empty, or lists only ports that are not published) adds
    one to the total and changes nothing else.  Through the whole
    collector, a listing in which such a line stands with a ports field
    that is not empty counts at least one container, and when this is
    the only container the mapping is empty, the total is 1 and no
    container is counted as publishing. *)
Theorem unpublished_ports_are_counted_not_mapped
    (head tail name cid image ports : string)
    (Hhead : ends_line head = true)
    (Htail : begins_line tail = true)
    (Hname : all_chars is_field_char name = true)
    (Hname0 : starts_solid name = true)
    (Hcid : all_chars is_field_char cid = true)
    (Himage : all_chars is_field_char image = true)
    (Hports : all_chars is_field_char ports = true)
    (Harrow : all_chars (not_char ">") ports = true)
    (Hports_end : rstrip_by is_space ports = ports)
    (Hports_ne : is_empty ports = false) :
  let line := name ++ TABS ++ cid ++ TABS ++ image ++ TABS ++ ports in
  let m := fst (collect_docker_port_mappings (Completed (head ++ line ++ tail))) in
  let meta :=
    snd (collect_docker_port_mappings (Completed (head ++ line ++ tail))) in
  1 <= containers_total meta /\
  (all_chars is_space head = true -> all_chars is_space tail = true ->
   m = ∅ /\ containers_total meta = 1 /\
   containers_with_published_ports meta = 0) /\
  (forall st : collector,
     process_line st line
     = {| mapping := mapping st; total := total st + 1;
          published := published st |}) /\
  (forall st : collector,
     process_line st (name ++ TABS ++ cid ++ TABS ++ image ++ TABS ++ "")
     = {| mapping := mapping st; total := total st + 1;
          published := published st |}).
Proof.
  intros line m meta.
  assert (Hname_tab : all_chars (not_char TAB) name = true)
    by exact (all_chars_impl _ _ _ field_not_tab Hname).
  assert (Hcid_tab : all_chars (not_char TAB) cid = true)
    by exact (all_chars_impl _ _ _ field_not_tab Hcid).
  assert (Himage_tab : all_chars (not_char TAB) image = true)
    by exact (all_chars_impl _ _ _ field_not_tab Himage).
  assert (Hports_tab : all_chars (not_char TAB) ports = true)
    by exact (all_chars_impl _ _ _ field_not_tab Hports).
  pose proof (starts_solid_not_blank name Hname0) as Hblank.
  assert (Hbody : forall st : collector,
     process_line st line
     = {| mapping := mapping st; total := total st + 1;
          published := published st |}).
  { intros st. apply process_line_unpublished; assumption. }
  assert (Hline : starts_solid line = true /\
                  rstrip_by is_space line = line /\
                  all_chars not_linebreak line = true).
  { split; [apply starts_solid_app, Hname0 |]. split.
    - unfold line. repeat (apply ends_solid_app). split; assumption.
    - unfold line. rewrite !all_chars_append.
      rewrite (all_chars_impl _ _ _ field_not_linebreak Hname).
      rewrite (all_chars_impl _ _ _ field_not_linebreak Hcid).
      rewrite (all_chars_impl _ _ _ field_not_linebreak Himage).
      rewrite (all_chars_impl _ _ _ field_not_linebreak Hports).
      reflexivity. }
  destruct Hline as (Hl1 & Hl2 & Hl3).
  destruct (listing_lines_of head tail Hhead Htail)
    as (before & after & Hb0 & Ha0 & Hfold).
  pose proof (Hfold line Hl1 Hl2 Hl3 initial_collector) as Hrun.
  subst m meta. rewrite !collect_completed. cbv zeta.
  cbn [fst snd containers_total containers_with_published_ports].
  rewrite Hrun, Hbody.
  split.
  { assert (Hmono : forall lines st,
              total st <= total (fold_left process_line lines st)).
    { induction lines as [| l lines IH]; intros st; cbn [fold_left]; [lia |].
      specialize (IH (process_line st l)).
      destruct (process_line_grows st l) as (_ & _ & Ht). lia. }
    pose proof (Hmono after
      {| mapping := mapping (fold_left process_line before initial_collector);
         total := total (fold_left process_line before initial_collector) + 1;
         published := published (fold_left process_line before initial_collector) |})
      as H1.
    pose proof (Hmono before initial_collector) as H0.
    cbn [total initial_collector] in H0, H1. lia. }
  split.
  { intros Hhb Htb. rewrite (Ha0 Htb), (Hb0 Hhb).
    cbn [fold_left mapping total published initial_collector].
    split; [reflexivity |]. split; reflexivity. }
  split; [exact Hbody |].
  intros st. apply process_line_unpublished; try assumption; reflexivity.
Qed.

Lemma unpublished_ports_are_counted_not_mapped_witness :
  collect_docker_port_mappings
    (Completed ("redis" ++ TABS ++ "77aa01bc23de" ++ TABS ++ "redis:7" ++ TABS
                ++ "6379/tcp" ++ Fixtures.newline ""))
  = (∅, {| available := true; error := None; containers_total := 1;
           containers_with_published_ports := 0;
           command := command_text |}).
Proof.
  destruct (proj1 (proj2 (unpublished_ports_are_counted_not_mapped
              "" (Fixtures.newline "") "redis" "77aa01bc23de" "redis:7"
              "6379/tcp" eq_refl eq_refl eq_refl eq_refl eq_refl eq_refl
              eq_refl eq_refl eq_refl eq_refl)) eq_refl eq_refl)
    as (Hm & Ht & Hc).
  vm_compute. reflexivity.
Defined.
